(** * ai-manager: the output reconciliation engine

    A shallow embedding of the core of [packages/core] (registry loading,
    template rendering, file utilities, agents-document assembly) and of the
    init/add/remove reconciliation logic of the command line entry point,
    followed by the properties of the specification stated over it.

    Conventions of the embedding:
    - strings are [string]; file contents are the bytes of the file;
    - a JavaScript [Set<string>] is a duplicate-free list in insertion
      order; a [Record<string, T>] built with [Object.fromEntries] is a
      [gmap string T] (the last entry for a key wins);
    - the project tree is a finite map from the paths of its regular
      files to their contents, with the trace of the mutating calls issued
      on it ([fs.mkdir], [fs.writeFile], [fs.rm]); directories are implicit,
      so [fs.mkdir] only shows in the trace;
    - the calls are those of a tree on which they go through: no target
      is a directory, no component of a directory to create is a regular
      file, and files can be written.  There [fs.access] succeeds on the
      files of the map and on nothing else, and [fs.mkdir], [fs.writeFile]
      and [fs.rm] do not throw;
    - [node:path] is the POSIX implementation;
    - the registry tree is read only and apart from the project tree: its
      manifests and template files, Handlebars, JSON, [localeCompare], the
      directory listing of the project and the answers of the user are the
      fields of [Env]; the clock is read by the caller and passed in;
    - an [async] function is a computation in [IO], a state and error
      monad over the project tree; what a command prints is its [Outcome];
    - the detection of the project root, the doctor and the update prompt
      take the collaborators of their own ([path.resolve], [path.relative],
      semver, the user config, the clock) as the variables of their
      sections. *)

From Stdlib Require Import ZArith Ascii String List Sorted Permutation.
From stdpp Require Import base option list gmap strings fin_maps.

Local Open Scope string_scope.
Local Open Scope list_scope.

(** ** node:path (POSIX) *)

Module Path.

Definition slash : ascii := "/"%char.

Definition is_slash (c : ascii) : bool := bool_decide (c = slash).

(** [s.split("/")] *)
Fixpoint split_slash (s : string) : list string :=
  match s with
  | EmptyString => [EmptyString]
  | String c rest =>
      if is_slash c then EmptyString :: split_slash rest
      else match split_slash rest with
           | [] => [String c EmptyString]
           | seg :: segs => String c seg :: segs
           end
  end.

(** [segs.join("/")] *)
Fixpoint join_slash (segs : list string) : string :=
  match segs with
  | [] => EmptyString
  | [seg] => seg
  | seg :: rest => seg +:+ "/" +:+ join_slash rest
  end.

Definition isAbsolute (p : string) : bool :=
  match p with
  | String c _ => is_slash c
  | EmptyString => false
  end.

Fixpoint last_char (p : string) : option ascii :=
  match p with
  | EmptyString => None
  | String c EmptyString => Some c
  | String _ rest => last_char rest
  end.

Definition has_trailing_slash (p : string) : bool :=
  match last_char p with
  | Some c => is_slash c
  | None => false
  end.

(** One step of [normalizeString]: [res] is the stack of the segments kept
    so far, innermost first. *)
Definition normalize_step (allowAboveRoot : bool) (res : list string) (seg : string)
  : list string :=
  if bool_decide (seg = "") || bool_decide (seg = ".") then res
  else if bool_decide (seg = "..") then
    match res with
    | top :: below =>
        if bool_decide (top = "..") then
          (if allowAboveRoot then ".." :: res else res)
        else below
    | [] => if allowAboveRoot then [".."] else []
    end
  else seg :: res.

Definition normalizeString (p : string) (allowAboveRoot : bool) : string :=
  join_slash (rev (fold_left (normalize_step allowAboveRoot) (split_slash p) [])).

(** [path.posix.normalize] *)
Definition normalize (p : string) : string :=
  if bool_decide (p = "") then "."
  else
    let abs := isAbsolute p in
    let trailing := has_trailing_slash p in
    let body := normalizeString p (negb abs) in
    if bool_decide (body = "") then
      (if abs then "/" else if trailing then "./" else ".")
    else
      let body' := if trailing then body +:+ "/" else body in
      if abs then "/" +:+ body' else body'.

(** [path.posix.join(...args)] *)
Definition join (args : list string) : string :=
  match filter (fun a => a ≠ "") args with
  | [] => "."
  | parts => normalize (join_slash parts)
  end.

(** [path.parse(p).root] *)
Definition root (p : string) : string :=
  if isAbsolute p then "/" else "".

(** [s.slice(n)] for [0 <= n] *)
Fixpoint slice_from (n : nat) (s : string) : string :=
  match n, s with
  | O, _ => s
  | S n', String _ rest => slice_from n' rest
  | S _, EmptyString => EmptyString
  end.

(** [s.slice(0, n)] for [0 <= n] *)
Fixpoint slice_to (n : nat) (s : string) : string :=
  match n, s with
  | O, _ => EmptyString
  | S n', String c rest => String c (slice_to n' rest)
  | S _, EmptyString => EmptyString
  end.

(** The backwards scan of [path.posix.dirname] over the characters of
    index [>= 1], given last first; the result is [end]. *)
Fixpoint dirname_end (rev_tail : list ascii) (matchedSlash : bool) : option nat :=
  match rev_tail with
  | [] => None
  | c :: before =>
      if is_slash c then
        (if matchedSlash then dirname_end before true
         else Some (S (List.length before)))
      else dirname_end before false
  end.

(** [path.posix.dirname] *)
Definition dirname (p : string) : string :=
  match p with
  | EmptyString => "."
  | String c rest =>
      let hasRoot := is_slash c in
      match dirname_end (rev (list_ascii_of_string rest)) true with
      | None => if hasRoot then "/" else "."
      | Some e =>
          if hasRoot && bool_decide (e = 1) then "//" else slice_to e p
      end
  end.

Fixpoint drop_slashes (l : list ascii) : list ascii :=
  match l with
  | c :: rest => if is_slash c then drop_slashes rest else l
  | [] => []
  end.

Fixpoint take_segment (l : list ascii) : list ascii :=
  match l with
  | c :: rest => if is_slash c then [] else c :: take_segment rest
  | [] => []
  end.

(** [path.posix.basename] without suffix: the last segment, trailing
    separators ignored. *)
Definition basename (p : string) : string :=
  string_of_list_ascii
    (rev (take_segment (drop_slashes (rev (list_ascii_of_string p))))).

End Path.

(** ** Data model ([types.ts]) *)

Inductive QuestionType := QInput | QSelect | QPath.

Record Validation := mkValidation {
  v_pattern : option string;
  v_message : option string
}.

Record Question := mkQuestion {
  q_id : string;
  q_label : string;
  q_type : QuestionType;
  q_required : bool;
  q_options : option (list string);
  q_default : option string;
  q_validation : option Validation
}.

Record OutputTemplate := mkOutput {
  target : string;
  template : string
}.

Record SkillManifest := mkSkill {
  skill_id : string;
  skill_name : string;
  skill_description : string;
  skill_version : string;
  questions : list Question;
  skill_outputs : list OutputTemplate;
  agentsSnippetTemplate : string;
  activationRulesTemplate : option string
}.

Record HarnessManifest := mkHarness {
  harness_id : string;
  harness_name : string;
  harness_version : string;
  harness_outputs : list OutputTemplate
}.

(** [Record<string, string>]: the entries in insertion order. *)
Definition SkillAnswerMap := list (string * string).

Record SelectedSkill := mkSelectedSkill {
  sel_id : string;
  sel_version : string;
  answers : SkillAnswerMap
}.

Record SelectedHarness := mkSelectedHarness {
  selh_id : string;
  selh_version : string
}.

Record Facts := mkFacts {
  packageManager : option string;
  tsconfigPaths : option (list string);
  directories : option (list string)
}.

Record ManagerState := mkState {
  st_version : string;
  createdAt : string;
  updatedAt : string;
  st_projectRoot : string;
  facts : option Facts;
  st_skills : list SelectedSkill;
  st_harnesses : list SelectedHarness
}.

(** [{ ...state, updatedAt, skills }] and [{ ...state, updatedAt, harnesses }] *)
Definition with_skills (st : ManagerState) (now : string) (sk : list SelectedSkill)
  : ManagerState :=
  {| st_version := st_version st; createdAt := createdAt st; updatedAt := now;
     st_projectRoot := st_projectRoot st; facts := facts st;
     st_skills := sk; st_harnesses := st_harnesses st |}.

Definition with_harnesses (st : ManagerState) (now : string) (hs : list SelectedHarness)
  : ManagerState :=
  {| st_version := st_version st; createdAt := createdAt st; updatedAt := now;
     st_projectRoot := st_projectRoot st; facts := facts st;
     st_skills := st_skills st; st_harnesses := hs |}.

Record Registry := mkRegistry {
  skills : list SkillManifest;
  harnesses : list HarnessManifest
}.

(** An entry of [fs.readdir(projectRoot, { withFileTypes: true })]. *)
Record Dirent := mkDirent {
  d_name : string;
  d_isDirectory : bool;
  d_isFile : bool
}.

(** The context objects handed to a compiled template. *)
Inductive TemplateContext :=
| CtxSkill (skill : SkillManifest) (answers : SkillAnswerMap)
| CtxHarness (harness : HarnessManifest)
| CtxContent (content : string)
| CtxAgents (projectName harnessNotes planSection skillIndexTable
             skillGuides activationRules : string).

(** ** JavaScript helpers *)

Module Js.

(** [arr.find(pred)] *)
Definition find {A} (pred : A -> bool) (arr : list A) : option A :=
  List.find pred arr.

(** [arr.includes(x)] on strings *)
Definition includes (arr : list string) (x : string) : bool :=
  bool_decide (x ∈ arr).

(** [set.add(x)] on a [Set<string>] kept in insertion order *)
Definition set_add (x : string) (set : list string) : list string :=
  if bool_decide (x ∈ set) then set else set ++ [x].

Definition set_has (set : list string) (x : string) : bool :=
  bool_decide (x ∈ set).

(** [new Set(arr)] *)
Definition set_of (arr : list string) : list string :=
  fold_left (fun set x => set_add x set) arr [].

(** [arr.join(sep)] *)
Fixpoint join (sep : string) (arr : list string) : string :=
  match arr with
  | [] => ""
  | [x] => x
  | x :: rest => x +:+ sep +:+ join sep rest
  end.

(** [Object.fromEntries(entries)]: a later entry overrides an earlier one. *)
Definition fromEntries {V} (entries : list (string * V)) : gmap string V :=
  fold_left (fun obj kv => <[kv.1 := kv.2]> obj) entries ∅.

(** The array index a property key denotes, if any: the key is the
    canonical decimal numeral of an integer below [2^32 - 1]. *)
Definition digit_value (c : ascii) : option N :=
  let code := N_of_ascii c in
  if (48 <=? code)%N && (code <=? 57)%N then Some (code - 48)%N else None.

Fixpoint numeral_value (acc : N) (s : string) : option N :=
  match s with
  | EmptyString => Some acc
  | String c rest =>
      match digit_value c with
      | Some d => numeral_value (10 * acc + d) rest
      | None => None
      end
  end.

Definition array_index (key : string) : option N :=
  match key with
  | EmptyString => None
  | String c rest =>
      if bool_decide (c = "0"%char) && negb (bool_decide (rest = "")) then None
      else
        match numeral_value 0 key with
        | Some n => if (n <? 4294967295)%N then Some n else None
        | None => None
        end
  end.

(** A new array index goes before the first key that is not an array
    index or is a greater one. *)
Fixpoint insert_index (n : N) (key value : string) (obj : list (string * string))
  : list (string * string) :=
  match obj with
  | [] => [(key, value)]
  | (k, v) :: rest =>
      match array_index k with
      | Some m =>
          if (m <? n)%N then (k, v) :: insert_index n key value rest
          else (key, value) :: (k, v) :: rest
      | None => (key, value) :: (k, v) :: rest
      end
  end.

(** [obj[key] = value] on an object literal holding strings, kept as its
    own entries in the order the engine enumerates them: the array indices
    in ascending order, then the other keys in insertion order.  An
    existing key keeps its position; [__proto__] is the accessor of the
    prototype, which ignores a string, so no entry is stored for it. *)
Definition assign (key value : string) (obj : list (string * string))
  : list (string * string) :=
  if bool_decide (key = "__proto__") then obj
  else if bool_decide (key ∈ map fst obj) then
    map (fun kv : string * string => if bool_decide (kv.1 = key) then (key, value) else kv) obj
  else
    match array_index key with
    | Some n => insert_index n key value obj
    | None => obj ++ [(key, value)]
    end.

(** [s.replace(/[:.]/g, "-")] *)
Fixpoint replace_colon_dot (s : string) : string :=
  match s with
  | EmptyString => EmptyString
  | String c rest =>
      String (if bool_decide (c = ":"%char) || bool_decide (c = "."%char)
              then "-"%char else c)
             (replace_colon_dot rest)
  end.

(** [arr.sort(compare)]: the sort is stable; [sort_insert] puts [x], which
    comes before all of [sorted] in the array, in front of the first
    element it does not follow. *)
Fixpoint sort_insert {A} (compare : A -> A -> Z) (x : A) (sorted : list A) : list A :=
  match sorted with
  | [] => [x]
  | y :: rest =>
      if (compare x y <=? 0)%Z then x :: y :: rest
      else y :: sort_insert compare x rest
  end.

Definition sort {A} (compare : A -> A -> Z) (arr : list A) : list A :=
  fold_right (sort_insert compare) [] arr.

(** [s.startsWith(prefix)] and [s.endsWith(suffix)] *)
Definition startsWith (s pre : string) : bool := String.prefix pre s.

Definition endsWith (s suf : string) : bool :=
  String.prefix (String.rev suf) (String.rev s).

End Js.

(** ** The file system and the monad of asynchronous computations *)

(** What [fs.writeFile] is given: a [Buffer], or a string to be encoded
    as UTF-8.  File contents are the bytes either way. *)
Inductive file_data :=
| Buffer (bytes : string)
| Utf8 (text : string).

Definition data_bytes (d : file_data) : string :=
  match d with
  | Buffer b => b
  | Utf8 t => t
  end.

Inductive fs_op :=
| OpMkdir (dir : string)
| OpWriteFile (path : string) (data : file_data)
| OpRm (path : string).

Record World := mkWorld {
  files : gmap string string;
  trace : list fs_op
}.

Inductive Error :=
| ENOENT (path : string)
| TemplateError (path : string)
| JsonSyntaxError (path : string)
| ZodError (path : list string) (message : string)
| Cancelled.

Inductive Result (A : Type) :=
| Ok (a : A)
| Err (e : Error).
Arguments Ok {A} a.
Arguments Err {A} e.

Definition IO (A : Type) : Type := World -> World * Result A.

Definition ret {A} (a : A) : IO A := fun w => (w, Ok a).

Definition throw {A} (e : Error) : IO A := fun w => (w, Err e).

Definition bind {A B} (m : IO A) (k : A -> IO B) : IO B :=
  fun w =>
    match m w with
    | (w', Ok a) => k a w'
    | (w', Err e) => (w', Err e)
    end.

Definition lift {A} (r : Result A) : IO A := fun w => (w, r).

Declare Scope io_scope.
Delimit Scope io_scope with io.
Notation "x <- m ;; k" := (bind m (fun x => k))
  (at level 20, m at level 99, k at level 200, only parsing) : io_scope.
Notation "m ;; k" := (bind m (fun _ => k))
  (at level 100, k at level 200, right associativity, only parsing) : io_scope.
Local Open Scope io_scope.

(** [for (const x of xs) { await body(x) }] *)
Fixpoint for_each {A} (xs : list A) (body : A -> IO unit) : IO unit :=
  match xs with
  | [] => ret tt
  | x :: rest => body x ;; for_each rest body
  end.

Definition removed_paths (ops : list fs_op) : list string :=
  omap (fun op => match op with OpRm p => Some p | _ => None end) ops.

(** The files written from a string (the generated files) and the files
    written from a buffer (the backup copies). *)
Definition generated_writes (ops : list fs_op) : list (string * string) :=
  omap (fun op => match op with OpWriteFile p (Utf8 t) => Some (p, t) | _ => None end) ops.

Definition backup_writes (ops : list fs_op) : list (string * string) :=
  omap (fun op => match op with OpWriteFile p (Buffer b) => Some (p, b) | _ => None end) ops.

(** [Promise.all(ps)] *)
Fixpoint promise_all {A} (ps : list (IO A)) : IO (list A) :=
  match ps with
  | [] => ret []
  | p :: rest => x <- p ;; xs <- promise_all rest ;; ret (x :: xs)
  end.

(** [for (const x of xs) { ... }] collecting what each round produces *)
Definition for_of {A B} (xs : list A) (body : A -> IO B) : IO (list B) :=
  promise_all (map body xs).

(** One invocation starts from the files on disk with an empty trace. *)
Definition exec {A} (m : IO A) (fs : gmap string string) : World * Result A :=
  m (mkWorld fs []).

(** ** File utilities ([fs-utils.ts]) *)

Module FsUtils.

Record BackupOptions := mkBackup {
  enabled : bool;
  backupRoot : option string
}.

(** Truthiness of an optional string. *)
Definition truthy (s : option string) : bool :=
  match s with
  | Some v => negb (bool_decide (v = ""))
  | None => false
  end.

Definition resolveBackupPath (targetPath backupRoot : string) : string :=
  let parsed_root := Path.root targetPath in
  let relative :=
    if Path.isAbsolute targetPath
    then Path.slice_from (String.length parsed_root) targetPath
    else targetPath in
  Path.join [backupRoot; relative].

(** [fs.access] succeeds: on the regular files of the tree, the only
    paths of the model. *)
Definition pathExists (target : string) : IO bool :=
  fun w => (w, Ok (bool_decide (is_Some (files w !! target)))).

(** [fs.mkdir(target, { recursive: true })], where no component of
    [target] is a regular file: the call creates what is missing. *)
Definition ensureDir (target : string) : IO unit :=
  fun w => (mkWorld (files w) (trace w ++ [OpMkdir target]), Ok tt).

(** [fs.readFile(p)]: the bytes *)
Definition fs_readFile (p : string) : IO string :=
  fun w =>
    match files w !! p with
    | Some data => (w, Ok data)
    | None => (w, Err (ENOENT p))
    end.

(** [fs.writeFile(p, data)], where [p] can be written. *)
Definition fs_writeFile (p : string) (data : file_data) : IO unit :=
  fun w => (mkWorld (<[p := data_bytes data]> (files w))
                    (trace w ++ [OpWriteFile p data]), Ok tt).

(** [fs.rm(p, { force: true })] of a regular file or of a missing path,
    which [force] forgives. *)
Definition fs_rm_force (p : string) : IO unit :=
  fun w => (mkWorld (delete p (files w)) (trace w ++ [OpRm p]), Ok tt).

Definition writeFileAlways (targetPath contents : string) (backup : BackupOptions)
  : IO unit :=
  exists_ <- pathExists targetPath ;;
  (if exists_ && enabled backup && truthy (backupRoot backup) then
     let backupPath := resolveBackupPath targetPath (default "" (backupRoot backup)) in
     ensureDir (Path.dirname backupPath) ;;
     existing <- fs_readFile targetPath ;;
     fs_writeFile backupPath (Buffer existing)
   else ret tt) ;;
  ensureDir (Path.dirname targetPath) ;;
  fs_writeFile targetPath (Utf8 contents).

Definition backupExistingFile (targetPath : string) (backup : BackupOptions) : IO unit :=
  if negb (enabled backup) || negb (truthy (backupRoot backup)) then ret tt
  else
    exists_ <- pathExists targetPath ;;
    if negb exists_ then ret tt
    else
      let backupPath := resolveBackupPath targetPath (default "" (backupRoot backup)) in
      ensureDir (Path.dirname backupPath) ;;
      existing <- fs_readFile targetPath ;;
      fs_writeFile backupPath (Buffer existing).

End FsUtils.

Import FsUtils.

(** ** Registry loader ([registry.ts]) *)

Module RegistryLoader.
Section Loader.

(** [a.localeCompare(b)] *)
Variable localeCompare : string -> string -> Z.
(** [listDirectories(root)] on the registry tree *)
Variable listDirectories : string -> Result (list string).
(** [readJsonFile(manifestPath)] followed by the schema's [parse] *)
Variable readSkillManifest : string -> Result SkillManifest.
Variable readHarnessManifest : string -> Result HarnessManifest.

Definition loadSkills (registryRoot : string) : IO (list SkillManifest) :=
  let skillsRoot := Path.join [registryRoot; "skills"] in
  skillDirs <- lift (listDirectories skillsRoot) ;;
  manifests <- promise_all
    (map (fun dir =>
            let manifestPath := Path.join [skillsRoot; dir; "skill.json"] in
            lift (readSkillManifest manifestPath))
         skillDirs) ;;
  ret (Js.sort (fun a b => localeCompare (skill_id a) (skill_id b)) manifests).

Definition loadHarnesses (registryRoot : string) : IO (list HarnessManifest) :=
  let harnessRoot := Path.join [registryRoot; "harnesses"] in
  harnessDirs <- lift (listDirectories harnessRoot) ;;
  manifests <- promise_all
    (map (fun dir =>
            let manifestPath := Path.join [harnessRoot; dir; "harness.json"] in
            lift (readHarnessManifest manifestPath))
         harnessDirs) ;;
  ret (Js.sort (fun a b => localeCompare (harness_id a) (harness_id b)) manifests).

Definition assertValidRegistryIds
  (skills : list SkillManifest) (harnesses : list HarnessManifest) : IO unit :=
  let skillIds := Js.set_of (map skill_id skills) in
  let harnessIds := Js.set_of (map harness_id harnesses) in
  if negb (bool_decide (List.length skillIds = List.length skills)) then
    throw (ZodError ["skills"] "Duplicate skill ids")
  else if negb (bool_decide (List.length harnessIds = List.length harnesses)) then
    throw (ZodError ["harnesses"] "Duplicate harness ids")
  else ret tt.

(** The two loads run under [Promise.all]: each is read only, so their
    order does not show, except in which error is reported when both fail
    (the code reports that of the load that settles first, here that of
    the skills). *)
Definition loadRegistry (registryRoot : string) : IO Registry :=
  skills <- loadSkills registryRoot ;;
  harnesses <- loadHarnesses registryRoot ;;
  assertValidRegistryIds skills harnesses ;;
  ret (mkRegistry skills harnesses).

Definition resolveSkillDir (registryRoot skillId : string) : string :=
  Path.join [registryRoot; "skills"; skillId].

Definition resolveHarnessDir (registryRoot harnessId : string) : string :=
  Path.join [registryRoot; "harnesses"; harnessId].

End Loader.
End RegistryLoader.

(** ** Template renderer ([renderer.ts]) *)

Definition nl : string := String (ascii_of_nat 10) EmptyString.

(** The collaborators of the engine: the registry tree (read only), the
    template compiler, JSON, the clock-independent answers of the user. *)
Record Env := mkEnv {
  (** [fs.readFile(templatePath, "utf8")] on the registry tree *)
  readTemplate : string -> option string;
  (** [Handlebars.compile(raw, { noEscape: true })(context)]; [None] when
      compiling or applying the template throws *)
  handlebars : string -> TemplateContext -> option string;
  (** [JSON.stringify(state, null, 2)] *)
  json_stringify : ManagerState -> string;
  (** [JSON.parse(raw)] read as a [ManagerState]; [None] on a syntax error *)
  json_parse : string -> option ManagerState;
  localeCompare : string -> string -> Z;
  listDirectories : string -> Result (list string);
  readSkillManifest : string -> Result SkillManifest;
  readHarnessManifest : string -> Result HarnessManifest;
  (** [fs.readdir(projectRoot, { withFileTypes: true })] *)
  readdir : string -> list Dirent;
  (** the choices the user ticks in the skill and harness multiselect *)
  tick_skill : string -> bool;
  tick_harness : string -> bool;
  (** the value the user enters for a question of a skill; [None] when the
      prompt is aborted *)
  prompt_value : string -> Question -> option string
}.

Module Renderer.
Section Render.

Variable env : Env.

Definition renderTemplateFile (templatePath : string) (context : TemplateContext)
  : IO string :=
  match readTemplate env templatePath with
  | None => throw (ENOENT templatePath)
  | Some raw =>
      match handlebars env raw context with
      | Some text => ret text
      | None => throw (TemplateError templatePath)
      end
  end.

Definition writeRenderedOutput (projectRoot : string) (output : OutputTemplate)
  (templateRoot : string) (context : TemplateContext) (backup : BackupOptions)
  : IO string :=
  let templatePath := Path.join [templateRoot; template output] in
  let targetPath := Path.join [projectRoot; target output] in
  contents <- renderTemplateFile templatePath context ;;
  writeFileAlways targetPath contents backup ;;
  ret targetPath.

End Render.
End Renderer.

(** ** Document assembler ([agents.ts]) *)

Module Agents.
Section Assemble.

Variable env : Env.

Record AgentsAssemblyInput := mkInput {
  projectName : string;
  in_harnesses : list string;
  in_skills : list SkillManifest;
  selectedSkillIds : list string;
  skillAnswers : gmap string SkillAnswerMap;
  registryRoot : string
}.

Definition buildSkillIndexTable (skills : list SkillManifest) : string :=
  if bool_decide (List.length skills = 0) then "No skills selected."
  else
    let rows :=
      map (fun skill =>
             "| " +:+ skill_id skill +:+ " | " +:+ skill_name skill +:+ " | "
                  +:+ skill_description skill +:+ " |")
          skills in
    Js.join nl ("| Id | Name | Description |" :: "| --- | --- | --- |" :: rows).

(** The locals [selectedSkills], [plannerSkill] and [guideSkills] of
    [buildAgentsMarkdown]. *)
Definition selectedSkills (input : AgentsAssemblyInput) : list SkillManifest :=
  List.filter (fun skill => Js.includes (selectedSkillIds input) (skill_id skill))
              (in_skills input).

Definition plannerSkill (input : AgentsAssemblyInput) : option SkillManifest :=
  Js.find (fun skill => bool_decide (skill_id skill = "planner")) (selectedSkills input).

Definition guideSkills (input : AgentsAssemblyInput) : list SkillManifest :=
  List.filter (fun skill => negb (bool_decide (skill_id skill = "planner")))
              (selectedSkills input).

(** The two callbacks mapped over the skills: the snippet of a guide
    skill and the activation rules of a skill that declares some. *)
Definition renderSnippet (input : AgentsAssemblyInput) (skill : SkillManifest)
  : IO string :=
  let templatePath :=
    Path.join [registryRoot input; "skills"; skill_id skill; agentsSnippetTemplate skill] in
  let context := CtxSkill skill (default [] (skillAnswers input !! skill_id skill)) in
  Renderer.renderTemplateFile env templatePath context.

Definition renderActivationRule (input : AgentsAssemblyInput) (skill : SkillManifest)
  : IO string :=
  let templatePath :=
    Path.join [registryRoot input; "skills"; skill_id skill;
               default "" (activationRulesTemplate skill)] in
  let context := CtxSkill skill (default [] (skillAnswers input !! skill_id skill)) in
  Renderer.renderTemplateFile env templatePath context.

(** The field [harnessNotes] of the template context. *)
Definition harnessNotes (input : AgentsAssemblyInput) : string :=
  if negb (bool_decide (List.length (in_harnesses input) = 0))
  then Js.join nl (map (fun harness => "- " +:+ harness) (in_harnesses input))
  else "- None".

(** The [templateContext] object of [buildAgentsMarkdown]. *)
Definition templateContext (input : AgentsAssemblyInput) : IO TemplateContext :=
  snippets <- promise_all (map (renderSnippet input) (guideSkills input)) ;;
  activationRules <- promise_all
    (map (renderActivationRule input)
         (List.filter (fun skill => truthy (activationRulesTemplate skill))
                      (selectedSkills input))) ;;
  planSection <-
    match plannerSkill input with
    | Some planner =>
        let templatePath :=
          Path.join [registryRoot input; "skills"; skill_id planner;
                     agentsSnippetTemplate planner] in
        Renderer.renderTemplateFile env templatePath (CtxSkill planner [])
    | None => ret ""
    end ;;
  ret (CtxAgents (projectName input) (harnessNotes input) planSection
                 (buildSkillIndexTable (selectedSkills input))
                 (Js.join (nl +:+ nl) snippets)
                 (Js.join (nl +:+ nl) activationRules)).

Definition buildAgentsMarkdown (input : AgentsAssemblyInput) : IO string :=
  context <- templateContext input ;;
  let baseTemplatePath := Path.join [registryRoot input; "templates"; "agents.base.md.hbs"] in
  Renderer.renderTemplateFile env baseTemplatePath context.

End Assemble.
End Agents.

(** ** The command line entry point: reconciliation *)

Module Cli.

Definition CURRENT_VERSION : string := "0.1.0".

Inductive Action := Add | Remove.

(** What a command reports on the console. *)
Inductive Outcome :=
| AlreadyInitialized
| InitComplete (createdFiles : list string) (statePath : string)
| NotInitialized
| NoneAvailable
| NothingSelected
| Updated (createdFiles : list string).

Definition scanProjectFacts (projectRoot : string) (entries : list Dirent)
  : option Facts :=
  let directories := map d_name (List.filter d_isDirectory entries) in
  let fileNames := map d_name (List.filter d_isFile entries) in
  let packageManager :=
    if Js.includes fileNames "pnpm-lock.yaml" then Some "pnpm"
    else if Js.includes fileNames "yarn.lock" then Some "yarn"
    else if Js.includes fileNames "package-lock.json" then Some "npm"
    else if Js.includes fileNames "bun.lockb" then Some "bun"
    else None in
  let tsconfigPaths :=
    map (fun name => Path.join [projectRoot; name])
        (List.filter (fun name => Js.startsWith name "tsconfig" && Js.endsWith name ".json")
                     fileNames) in
  let facts :=
    mkFacts packageManager
            (if bool_decide (List.length tsconfigPaths = 0) then None else Some tsconfigPaths)
            (if bool_decide (List.length directories = 0) then None else Some directories) in
  match facts with
  | mkFacts None None None => None
  | _ => Some facts
  end.

Definition collectOutputTargets
  (skills : list SkillManifest) (harnesses : list HarnessManifest)
  (skillIds harnessIds : list string) : list string :=
  let targets := [] in
  let targets :=
    fold_left
      (fun targets skillId =>
         match Js.find (fun skill => bool_decide (skill_id skill = skillId)) skills with
         | None => targets
         | Some manifest =>
             fold_left (fun targets output => Js.set_add (target output) targets)
                       (skill_outputs manifest) targets
         end)
      skillIds targets in
  let targets :=
    fold_left
      (fun targets harnessId =>
         match Js.find (fun harness => bool_decide (harness_id harness = harnessId))
                       harnesses with
         | None => targets
         | Some manifest =>
             fold_left (fun targets output => Js.set_add (target output) targets)
                       (harness_outputs manifest) targets
         end)
      harnessIds targets in
  let targets := Js.set_add "ai/agents.md" targets in
  let targets := Js.set_add "ai/ai-manager.json" targets in
  targets.

(** [new Set(Array.from(previousTargets).filter((t) => !nextTargets.has(t)))] *)
Definition staleTargets (previousTargets nextTargets : list string) : list string :=
  Js.set_of (List.filter (fun target => negb (Js.set_has nextTargets target))
                         previousTargets).

Definition removeStaleOutputs (projectRoot : string) (staleTargets : list string)
  (backup : BackupOptions) : IO unit :=
  for_each staleTargets
    (fun target =>
       let fullPath := Path.join [projectRoot; target] in
       backupExistingFile fullPath backup ;;
       fs_rm_force fullPath).

(** [now] is [new Date().toISOString()]. *)
Definition buildBackupOptions (projectRoot : string) (enableBackup : bool)
  (now : string) : BackupOptions :=
  if negb enableBackup then mkBackup false None
  else
    let timestamp := Js.replace_colon_dot now in
    let backupRoot := Path.join [projectRoot; "ai"; ".backups"; timestamp] in
    mkBackup true (Some backupRoot).

Section Commands.

Variable env : Env.
Variable registryRoot : string.

(** [loadRegistry(registryRoot)] on the registry of [env]. *)
Definition loadRegistry : IO Registry :=
  RegistryLoader.loadRegistry (localeCompare env) (listDirectories env)
    (readSkillManifest env) (readHarnessManifest env) registryRoot.

(** [readJsonFile<ManagerState>] and [writeJsonFile] of [fs-utils.ts], for
    the one type they are used at on the project tree.  The code casts
    what [JSON.parse] returns to the type the caller names without
    checking it: [json_parse] is [JSON.parse] on the texts that hold a
    state, and [None] is its syntax error. *)
Definition readJsonFile (filePath : string) : IO ManagerState :=
  raw <- fs_readFile filePath ;;
  match json_parse env raw with
  | Some value => ret value
  | None => throw (JsonSyntaxError filePath)
  end.

Definition writeJsonFile (targetPath : string) (data : ManagerState)
  (backup : BackupOptions) : IO unit :=
  let contents := json_stringify env data +:+ nl in
  writeFileAlways targetPath contents backup.

Definition findManagerState (projectRoot : string) : IO (option ManagerState) :=
  let statePath := Path.join [projectRoot; "ai"; "ai-manager.json"] in
  exists_ <- pathExists statePath ;;
  if negb exists_ then ret None
  else state <- readJsonFile statePath ;; ret (Some state).

Definition isInited (projectRoot : string) : IO bool :=
  let agentsPath := Path.join [projectRoot; "ai"; "agents.md"] in
  let statePath := Path.join [projectRoot; "ai"; "ai-manager.json"] in
  agentsExists <- pathExists agentsPath ;;
  stateExists <- pathExists statePath ;;
  ret (agentsExists && stateExists).

(** The prompts of [askSkillQuestions]; the detected default directory is
    only the initial value shown to the user. *)
Definition askSkillQuestions (skill : SkillManifest) (projectRoot : string)
  : IO SkillAnswerMap :=
  fold_left
    (fun (acc : IO SkillAnswerMap) question =>
       answers <- acc ;;
       match prompt_value env (skill_id skill) question with
       | None => throw Cancelled
       | Some value => ret (Js.assign (q_id question) value answers)
       end)
    (questions skill) (ret []).

(** A multiselect prompt returns the values of the ticked choices;
    an aborted prompt yields [[]] through [?? []]. *)
Definition selectSkills (skills : list SkillManifest) : list string :=
  List.filter (tick_skill env) (map skill_id skills).

Definition selectHarnesses (harnesses : list HarnessManifest) : list string :=
  List.filter (tick_harness env) (map harness_id harnesses).

(** [registry.harnesses.find((harness) => harness.id === id)?.version ?? "unknown"] *)
Definition harnessVersion (registry : Registry) (id : string) : string :=
  match Js.find (fun harness => bool_decide (harness_id harness = id)) (harnesses registry) with
  | Some harness => harness_version harness
  | None => "unknown"
  end.

(** One round of the two loops of [renderAll]: the outputs of a selected
    skill and of a selected harness, none when [find] returns nothing. *)
Definition renderSkillOutputs (projectRoot : string) (skills : list SkillManifest)
  (backup : BackupOptions) (selected : SelectedSkill) : IO (list string) :=
  match Js.find (fun skill => bool_decide (skill_id skill = sel_id selected)) skills with
  | None => ret []
  | Some manifest =>
      let templateRoot := RegistryLoader.resolveSkillDir registryRoot (skill_id manifest) in
      for_of (skill_outputs manifest)
        (fun output =>
           Renderer.writeRenderedOutput env projectRoot output templateRoot
             (CtxSkill manifest (answers selected)) backup)
  end.

Definition renderHarnessOutputs (projectRoot : string) (harnesses : list HarnessManifest)
  (backup : BackupOptions) (selected : SelectedHarness) : IO (list string) :=
  match Js.find (fun harness => bool_decide (harness_id harness = selh_id selected))
                harnesses with
  | None => ret []
  | Some manifest =>
      let templateRoot :=
        RegistryLoader.resolveHarnessDir registryRoot (harness_id manifest) in
      for_of (harness_outputs manifest)
        (fun output =>
           Renderer.writeRenderedOutput env projectRoot output templateRoot
             (CtxHarness manifest) backup)
  end.

Definition renderAll (projectRoot : string)
  (skills : list SkillManifest) (harnesses : list HarnessManifest)
  (selectedSkills : list SelectedSkill) (selectedHarnesses : list SelectedHarness)
  (backup : BackupOptions) : IO (list string) :=
  let skillAnswerMap :=
    Js.fromEntries (map (fun skill => (sel_id skill, answers skill)) selectedSkills) in
  agentsContents <- Agents.buildAgentsMarkdown env
    (Agents.mkInput (Path.basename projectRoot)
                    (map selh_id selectedHarnesses)
                    skills
                    (map sel_id selectedSkills)
                    skillAnswerMap
                    registryRoot) ;;
  let agentsPath := Path.join [projectRoot; "ai"; "agents.md"] in
  Renderer.writeRenderedOutput env projectRoot
    (mkOutput "ai/agents.md" "templates/agents.generated.md.hbs")
    registryRoot (CtxContent agentsContents) backup ;;
  fromSkills <- for_of selectedSkills (renderSkillOutputs projectRoot skills backup) ;;
  fromHarnesses <-
    for_of selectedHarnesses (renderHarnessOutputs projectRoot harnesses backup) ;;
  ret (agentsPath :: concat fromSkills ++ concat fromHarnesses).

Definition writeState (projectRoot : string) (state : ManagerState)
  (backup : BackupOptions) : IO string :=
  let statePath := Path.join [projectRoot; "ai"; "ai-manager.json"] in
  writeJsonFile statePath state backup ;;
  ret statePath.

(** The loop of [runInit] and of [runSkillsAddRemove] over the picked
    ids: each skill found, with the answers to its questions. *)
Definition askSelected (registry : Registry) (projectRoot : string)
  (ids : list string) : IO (list SelectedSkill) :=
  asked <- for_of ids
    (fun skillId =>
       match Js.find (fun item => bool_decide (skill_id item = skillId)) (skills registry) with
       | None => ret []
       | Some skill =>
           answers <- askSkillQuestions skill projectRoot ;;
           ret [mkSelectedSkill (skill_id skill) (skill_version skill) answers]
       end) ;;
  ret (concat asked).

(** [t_backup] and [now] are the two readings of the clock. *)
Definition runInit (projectRoot : string) (enableBackup : bool)
  (t_backup now : string) : IO Outcome :=
  registry <- loadRegistry ;;
  let facts := scanProjectFacts projectRoot (readdir env projectRoot) in
  let selectedSkillIds := selectSkills (skills registry) in
  selectedSkills <- askSelected registry projectRoot selectedSkillIds ;;
  let selectedHarnessIds := selectHarnesses (harnesses registry) in
  let backup := buildBackupOptions projectRoot enableBackup t_backup in
  let selectedHarnesses :=
    map (fun id => mkSelectedHarness id (harnessVersion registry id)) selectedHarnessIds in
  createdFiles <- renderAll projectRoot (skills registry) (harnesses registry)
                    selectedSkills selectedHarnesses backup ;;
  let state :=
    mkState CURRENT_VERSION now now projectRoot facts selectedSkills selectedHarnesses in
  statePath <- writeState projectRoot state backup ;;
  ret (InitComplete createdFiles statePath).

Definition runSkillsAddRemove (projectRoot : string) (action : Action)
  (enableBackup : bool) (t_backup now : string) : IO Outcome :=
  found <- findManagerState projectRoot ;;
  match found with
  | None => ret NotInitialized
  | Some state =>
      registry <- loadRegistry ;;
      let currentSkillIds := Js.set_of (map sel_id (st_skills state)) in
      let choices :=
        List.filter
          (fun skill =>
             match action with
             | Add => negb (Js.set_has currentSkillIds (skill_id skill))
             | Remove => Js.set_has currentSkillIds (skill_id skill)
             end)
          (skills registry) in
      if bool_decide (List.length choices = 0) then ret NoneAvailable
      else
        let selectedIds := List.filter (tick_skill env) (map skill_id choices) in
        if bool_decide (List.length selectedIds = 0) then ret NothingSelected
        else
          let previousTargets :=
            collectOutputTargets (skills registry) (harnesses registry)
              (map sel_id (st_skills state)) (map selh_id (st_harnesses state)) in
          updatedSkills <-
            match action with
            | Add =>
                added <- askSelected registry projectRoot selectedIds ;;
                ret (st_skills state ++ added)
            | Remove =>
                ret (List.filter
                       (fun skill => negb (Js.includes selectedIds (sel_id skill)))
                       (st_skills state))
            end ;;
          let backup := buildBackupOptions projectRoot enableBackup t_backup in
          match action with
          | Remove =>
              let nextTargets :=
                collectOutputTargets (skills registry) (harnesses registry)
                  (map sel_id updatedSkills) (map selh_id (st_harnesses state)) in
              removeStaleOutputs projectRoot
                (staleTargets previousTargets nextTargets) backup
          | Add => ret tt
          end ;;
          createdFiles <- renderAll projectRoot (skills registry) (harnesses registry)
                            updatedSkills (st_harnesses state) backup ;;
          let nextState := with_skills state now updatedSkills in
          writeState projectRoot nextState backup ;;
          ret (Updated createdFiles)
  end.

Definition runHarnessesAddRemove (projectRoot : string) (action : Action)
  (enableBackup : bool) (t_backup now : string) : IO Outcome :=
  found <- findManagerState projectRoot ;;
  match found with
  | None => ret NotInitialized
  | Some state =>
      registry <- loadRegistry ;;
      let currentHarnessIds := Js.set_of (map selh_id (st_harnesses state)) in
      let choices :=
        List.filter
          (fun harness =>
             match action with
             | Add => negb (Js.set_has currentHarnessIds (harness_id harness))
             | Remove => Js.set_has currentHarnessIds (harness_id harness)
             end)
          (harnesses registry) in
      if bool_decide (List.length choices = 0) then ret NoneAvailable
      else
        let selectedIds := List.filter (tick_harness env) (map harness_id choices) in
        if bool_decide (List.length selectedIds = 0) then ret NothingSelected
        else
          let previousTargets :=
            collectOutputTargets (skills registry) (harnesses registry)
              (map sel_id (st_skills state)) (map selh_id (st_harnesses state)) in
          let updatedHarnesses :=
            match action with
            | Add =>
                st_harnesses state ++
                map (fun id => mkSelectedHarness id (harnessVersion registry id)) selectedIds
            | Remove =>
                List.filter
                  (fun harness => negb (Js.includes selectedIds (selh_id harness)))
                  (st_harnesses state)
            end in
          let backup := buildBackupOptions projectRoot enableBackup t_backup in
          match action with
          | Remove =>
              let nextTargets :=
                collectOutputTargets (skills registry) (harnesses registry)
                  (map sel_id (st_skills state)) (map selh_id updatedHarnesses) in
              removeStaleOutputs projectRoot
                (staleTargets previousTargets nextTargets) backup
          | Add => ret tt
          end ;;
          createdFiles <- renderAll projectRoot (skills registry) (harnesses registry)
                            (st_skills state) updatedHarnesses backup ;;
          let nextState := with_harnesses state now updatedHarnesses in
          writeState projectRoot nextState backup ;;
          ret (Updated createdFiles)
  end.

(** The action of the [init] command. *)
Definition initAction (projectRoot : string) (enableBackup : bool)
  (t_backup now : string) : IO Outcome :=
  alreadyInited <- isInited projectRoot ;;
  if alreadyInited then ret AlreadyInitialized
  else runInit projectRoot enableBackup t_backup now.

End Commands.
End Cli.

(** ** The command line entry point: locating the project *)

Module Locate.
Section Detect.

(** [path.resolve(start)], against the working directory of the process *)
Variable resolve : string -> string.
(** [pathExists(p)] on the tree of the machine, directories included *)
Variable accessible : string -> bool.

(** The [while (true)] loop of [detectProjectRoot], for at most [fuel]
    rounds; [resolved] is [path.resolve(start)]. *)
Fixpoint detectProjectRoot_loop (fuel : nat) (resolved current : string) : option string :=
  match fuel with
  | O => None
  | S fuel' =>
      let gitDir := Path.join [current; ".git"] in
      if accessible gitDir then Some current
      else
        let parent := Path.dirname current in
        if bool_decide (parent = current) then Some resolved
        else detectProjectRoot_loop fuel' resolved parent
  end.

(** The loop is given more rounds than the path has characters, hence
    more than it has enclosing directories; [None] would be a loop that
    has not ended by then. *)
Definition detectProjectRoot (start : string) : option string :=
  let current := resolve start in
  detectProjectRoot_loop (S (S (String.length current))) (resolve start) current.

End Detect.
End Locate.

(** ** The command line entry point: doctor *)

Module Doctor.

(** The first cell of a row: [ICONS.ok] or [ICONS.bad]. *)
Inductive Icon := IconOk | IconBad.

(** A row of the table: icon, item, details. *)
Definition Row : Type := Icon * string * string.

Definition formatStatusRow (label : string) (ok : bool) (detail : string) : Row :=
  (if ok then IconOk else IconBad, label, detail).

(** What [runDoctor] prints after the header. *)
Inductive Report :=
| NotInitialized
| Table (rows : list Row).

Section Run.

Variable env : Env.
Variable registryRoot : string.
(** [path.relative(from, to)] *)
Variable relative : string -> string -> string.

Definition runDoctor (projectRoot : string) : IO Report :=
  found <- Cli.findManagerState env projectRoot ;;
  match found with
  | None => ret NotInitialized
  | Some state =>
      registry <- Cli.loadRegistry env registryRoot ;;
      agentsExists <- pathExists (Path.join [projectRoot; "ai"; "agents.md"]) ;;
      let agentsRow := formatStatusRow "Agents" agentsExists "/ai/agents.md" in
      stateExists <- pathExists (Path.join [projectRoot; "ai"; "ai-manager.json"]) ;;
      let stateRow := formatStatusRow "State" stateExists "/ai/ai-manager.json" in
      skillRows <- for_of (st_skills state)
        (fun skill =>
           let skillPath :=
             Path.join [projectRoot; "ai"; "skills"; sel_id skill +:+ "-skill.md"] in
           exists_ <- pathExists skillPath ;;
           ret (formatStatusRow ("Skill " +:+ sel_id skill) exists_
                                (relative projectRoot skillPath))) ;;
      harnessRows <- for_of (st_harnesses state)
        (fun harness =>
           match Js.find (fun item => bool_decide (harness_id item = selh_id harness))
                         (harnesses registry) with
           | None =>
               ret [formatStatusRow ("Harness " +:+ selh_id harness) false
                                    "Missing in registry"]
           | Some manifest =>
               for_of (harness_outputs manifest)
                 (fun output =>
                    let outputPath := Path.join [projectRoot; target output] in
                    exists_ <- pathExists outputPath ;;
                    ret (formatStatusRow ("Harness " +:+ selh_id harness) exists_
                                         (relative projectRoot outputPath)))
           end) ;;
      ret (Table (agentsRow :: stateRow :: skillRows ++ concat harnessRows))
  end.

End Run.
End Doctor.

(** ** The command line entry point: the update prompt *)

Module Update.

(** [{ deferredVersion?: string; deferredAt?: string }] *)
Record UserConfig := mkConfig {
  deferredVersion : option string;
  deferredAt : option string
}.

(** [choice.action] of the select prompt: undefined when it is aborted *)
Inductive Choice := Install | Later | NoChoice.

(** What [maybeShowUpdatePrompt] did before it returned. *)
Inductive Outcome :=
| NoPrompt
| Postponed
| InstallHint
| Dismissed.

Definition UPDATE_DEFER_DAYS : Z := 7.

Section Prompt.

(** [semver.valid(v)] is not null; [semver.gt(a, b)] *)
Variable semver_valid : string -> bool.
Variable semver_gt : string -> string -> bool.
(** [os.homedir()] *)
Variable homedir : string.
(** [JSON.parse] and [JSON.stringify(data, null, 2)] on the user config *)
Variable config_parse : string -> option UserConfig.
Variable config_stringify : UserConfig -> string.
(** [new Date(s).getTime()], [None] for [NaN] *)
Variable date_getTime : string -> option Z.

Definition configPath : string :=
  Path.join [homedir; ".config"; "ai-manager"; "config.json"].

Definition loadUserConfig : IO UserConfig :=
  exists_ <- pathExists configPath ;;
  if negb exists_ then ret (mkConfig None None)
  else
    raw <- fs_readFile configPath ;;
    match config_parse raw with
    | Some config => ret config
    | None => throw (JsonSyntaxError configPath)
    end.

Definition writeUserConfig (data : UserConfig) : IO unit :=
  ensureDir (Path.dirname configPath) ;;
  fs_writeFile configPath (Utf8 (config_stringify data +:+ nl)).

(** [latest] is what [fetchLatestVersion] returned, [nowMs] is
    [Date.now()], [nowIso] is [new Date().toISOString()] and [choice] is
    the answer to the prompt, should it be shown. *)
Definition maybeShowUpdatePrompt (latest : option string) (nowMs : Z) (nowIso : string)
  (choice : Choice) : IO Outcome :=
  if negb (truthy latest)
     || negb (semver_valid (default "" latest))
     || negb (semver_valid Cli.CURRENT_VERSION)
  then ret NoPrompt
  else
    let latest := default "" latest in
    if negb (semver_gt latest Cli.CURRENT_VERSION) then ret NoPrompt
    else
      config <- loadUserConfig ;;
      let tooSoon :=
        if bool_decide (deferredVersion config = Some latest) && truthy (deferredAt config)
        then
          match date_getTime (default "" (deferredAt config)) with
          | Some deferredAt =>
              bool_decide (nowMs - deferredAt < UPDATE_DEFER_DAYS * 24 * 60 * 60 * 1000)%Z
          | None => false
          end
        else false in
      if tooSoon then ret NoPrompt
      else
        match choice with
        | Later =>
            writeUserConfig (mkConfig (Some latest) (Some nowIso)) ;;
            ret Postponed
        | Install => ret InstallHint
        | NoChoice => ret Dismissed
        end.

End Prompt.
End Update.

(** ** A small registry and project, used to run the model *)

Module Demo.

Definition registryRoot : string := "/reg".
Definition projectRoot : string := "/proj".

Definition frontendDir : Question :=
  mkQuestion "frontendDir" "Frontend directory" QPath true None (Some "/") None.

Definition frontend : SkillManifest :=
  mkSkill "frontend-design" "Frontend design" "UI guidance" "1.0.0" [frontendDir]
    [mkOutput "ai/skills/frontend-design-skill.md" "templates/skill.md.hbs"]
    "templates/agents-snippet.md.hbs" (Some "templates/activation.md.hbs").

Definition planner : SkillManifest :=
  mkSkill "planner" "Planner" "Planning guidance" "1.0.0" []
    [mkOutput "ai/skills/planner-skill.md" "templates/skill.md.hbs"]
    "templates/agents-snippet.md.hbs" None.

Definition cursor : HarnessManifest :=
  mkHarness "cursor" "Cursor" "1.0.0"
    [mkOutput ".cursor/rules/ai-manager.mdc" "templates/rules.mdc.hbs"].

Definition codex : HarnessManifest :=
  mkHarness "codex" "Codex" "1.0.0" [mkOutput "AGENTS.md" "templates/AGENTS.md.hbs"].

Definition show_answers (a : SkillAnswerMap) : string :=
  Js.join "," (map (fun kv => kv.1 +:+ "=" +:+ kv.2) a).

(** A stand-in for Handlebars: the template text followed by the fields
    of the context; a template starting with an open brace does not
    compile. *)
Definition handlebars (raw : string) (ctx : TemplateContext) : option string :=
  if Js.startsWith raw "{" then None
  else Some (raw +:+
    match ctx with
    | CtxSkill skill a => skill_id skill +:+ "(" +:+ show_answers a +:+ ")"
    | CtxHarness harness => harness_id harness
    | CtxContent content => content
    | CtxAgents projectName harnessNotes planSection table guides rules =>
        Js.join nl [projectName; harnessNotes; planSection; table; guides; rules]
    end).

Definition readTemplate (p : string) : option string :=
  if Js.startsWith p "/reg/" && Js.endsWith p ".hbs" then Some ("<" +:+ p +:+ ">")
  else None.

Definition json_stringify (st : ManagerState) : string :=
  "{" +:+ Js.join ","
    [st_version st; createdAt st; updatedAt st; st_projectRoot st;
     Js.join "+" (map (fun sk => sel_id sk +:+ "@" +:+ sel_version sk
                                  +:+ "(" +:+ show_answers (answers sk) +:+ ")")
                      (st_skills st));
     Js.join "+" (map (fun h => selh_id h +:+ "@" +:+ selh_version h) (st_harnesses st))]
    +:+ "}".

Definition state0 : ManagerState :=
  mkState "0.1.0" "2026-01-01T00:00:00.000Z" "2026-01-01T00:00:00.000Z" "/proj" None
    [mkSelectedSkill "frontend-design" "1.0.0" [("frontendDir", "/web")];
     mkSelectedSkill "planner" "1.0.0" []]
    [mkSelectedHarness "cursor" "1.0.0"; mkSelectedHarness "codex" "1.0.0"].

(** A state whose selection names a skill and a harness that the
    registry does not have. *)
Definition state_unknown : ManagerState :=
  mkState "0.1.0" "2026-01-01T00:00:00.000Z" "2026-01-01T00:00:00.000Z" "/proj" None
    [mkSelectedSkill "frontend-design" "1.0.0" [("frontendDir", "/web")];
     mkSelectedSkill "retired" "0.9.0" []]
    [mkSelectedHarness "cursor" "1.0.0"; mkSelectedHarness "gone" "0.1.0"].

(** The states this stand-in for [JSON.parse] recognises. *)
Definition known_states : list ManagerState := [state0; state_unknown].

Definition json_parse (raw : string) : option ManagerState :=
  List.find (fun st => bool_decide (json_stringify st +:+ nl = raw)) known_states.

Definition compare_Z (a b : string) : Z :=
  match String.compare a b with
  | Lt => (-1)%Z
  | Eq => 0%Z
  | Gt => 1%Z
  end.

Definition listDirectories (root : string) : Result (list string) :=
  if bool_decide (root = "/reg/skills") then Ok ["planner"; "frontend-design"]
  else if bool_decide (root = "/reg/harnesses") then Ok ["cursor"; "codex"]
  else Err (ENOENT root).

Definition readSkillManifest (p : string) : Result SkillManifest :=
  if bool_decide (p = "/reg/skills/planner/skill.json") then Ok planner
  else if bool_decide (p = "/reg/skills/frontend-design/skill.json") then Ok frontend
  else Err (ENOENT p).

Definition readHarnessManifest (p : string) : Result HarnessManifest :=
  if bool_decide (p = "/reg/harnesses/cursor/harness.json") then Ok cursor
  else if bool_decide (p = "/reg/harnesses/codex/harness.json") then Ok codex
  else Err (ENOENT p).

Definition env (tickSkill tickHarness : string -> bool) : Env :=
  mkEnv readTemplate handlebars json_stringify json_parse compare_Z
        listDirectories readSkillManifest readHarnessManifest
        (fun _ => [mkDirent "src" true false; mkDirent "pnpm-lock.yaml" false true])
        tickSkill tickHarness
        (fun _ question => Some "/web").

Definition all (_ : string) : bool := true.
Definition only (id : string) (x : string) : bool := bool_decide (x = id).

Definition registry : Registry := mkRegistry [frontend; planner] [codex; cursor].

Definition now : string := "2026-02-02T10:20:30.456Z".
Definition later : string := "2026-03-03T11:00:00.000Z".

(** A project initialised with [state0]. *)
Definition fs_inited : gmap string string :=
  <["/proj/ai/ai-manager.json" := json_stringify state0 +:+ nl]>
    (<["/proj/ai/skills/frontend-design-skill.md" := "old skill"]>
       (<["/proj/ai/agents.md" := "old agents"]> ∅)).

(** A project whose persisted selection is [state_unknown]. *)
Definition fs_unknown : gmap string string :=
  <["/proj/ai/ai-manager.json" := json_stringify state_unknown +:+ nl]>
    (<["/proj/ai/agents.md" := "old agents"]> ∅).

(** A project whose agents document was deleted by hand. *)
Definition fs_partial : gmap string string :=
  <["/proj/ai/ai-manager.json" := json_stringify state0 +:+ nl]> ∅.

(** A stand-in for [JSON.parse] that recognises the given states. *)
Definition json_parse_among (known : list ManagerState) (raw : string)
  : option ManagerState :=
  List.find (fun st => bool_decide (json_stringify st +:+ nl = raw)) known.

(** The collaborators of [env], with the states [JSON.parse] recognises
    and the answers to the questions of the skills left open. *)
Definition env_with (known : list ManagerState) (tickSkill tickHarness : string -> bool)
  (prompt : string -> Question -> option string) : Env :=
  mkEnv readTemplate handlebars json_stringify (json_parse_among known) compare_Z
        listDirectories readSkillManifest readHarnessManifest
        (fun _ => [mkDirent "src" true false; mkDirent "pnpm-lock.yaml" false true])
        tickSkill tickHarness prompt.

Definition answered (_ : string) (_ : Question) : option string := Some "/web".
Definition aborted (_ : string) (_ : Question) : option string := None.

(** A project where only the planner and one harness are selected. *)
Definition state_planner : ManagerState :=
  mkState "0.1.0" "2026-01-01T00:00:00.000Z" "2026-01-01T00:00:00.000Z" "/proj" None
    [mkSelectedSkill "planner" "1.0.0" []]
    [mkSelectedHarness "cursor" "1.0.0"].

Definition fs_planner : gmap string string :=
  <["/proj/ai/ai-manager.json" := json_stringify state_planner +:+ nl]>
    (<["/proj/ai/agents.md" := "old agents"]> ∅).

(** The state [init] writes at [now] when every skill and harness is
    ticked. *)
Definition state_init : ManagerState :=
  mkState "0.1.0" now now "/proj"
    (Some (mkFacts (Some "pnpm") None (Some ["src"])))
    [mkSelectedSkill "frontend-design" "1.0.0" [("frontendDir", "/web")];
     mkSelectedSkill "planner" "1.0.0" []]
    [mkSelectedHarness "codex" "1.0.0"; mkSelectedHarness "cursor" "1.0.0"].

(** A project whose state file is not JSON. *)
Definition fs_corrupt : gmap string string :=
  <["/proj/ai/ai-manager.json" := "{"]> (<["/proj/ai/agents.md" := "old agents"]> ∅).

(** A skill whose snippet template is not in the registry. *)
Definition broken : SkillManifest :=
  mkSkill "broken" "Broken" "No snippet" "1.0.0" []
    [mkOutput "ai/skills/broken-skill.md" "templates/skill.md.hbs"]
    "templates/agents-snippet.txt" None.

(** A skill whose snippet is in the registry and whose output template
    is not. *)
Definition unrendered : SkillManifest :=
  mkSkill "unrendered" "Unrendered" "No output template" "1.0.0" []
    [mkOutput "ai/skills/unrendered-skill.md" "templates/skill.txt"]
    "templates/agents-snippet.md.hbs" None.

(** A stand-in for [path.relative] from a directory to a path below it. *)
Definition relative (from to : string) : string :=
  Path.slice_from (S (String.length from)) to.

(** The machine: a repository at [/work/repo]. *)
Definition resolve (start : string) : string := start.
Definition accessible (p : string) : bool := bool_decide (p = "/work/repo/.git").

(** Stand-ins for semver, the user config and the clock. *)
Definition semver_valid (v : string) : bool := negb (Js.startsWith v "v").
Definition semver_gt (a b : string) : bool :=
  match String.compare a b with
  | Gt => true
  | _ => false
  end.

Definition homedir : string := "/home/dev".

Definition config_stringify (config : Update.UserConfig) : string :=
  "{" +:+ default "" (Update.deferredVersion config) +:+ ","
      +:+ default "" (Update.deferredAt config) +:+ "}".

Definition deferred : Update.UserConfig := Update.mkConfig (Some "0.2.0") (Some now).

Definition config_parse (raw : string) : option Update.UserConfig :=
  if bool_decide (raw = config_stringify deferred +:+ nl) then Some deferred else None.

Definition date_getTime (s : string) : option Z :=
  if bool_decide (s = now) then Some 1770027630456%Z else None.

(** A skill that declares the state file as its output, spelt with a
    leading [./]. *)
Definition mirror : SkillManifest :=
  mkSkill "mirror" "Mirror" "A copy of the state" "1.0.0" []
    [mkOutput "./ai/ai-manager.json" "templates/skill.md.hbs"]
    "templates/agents-snippet.md.hbs" None.

Definition registry_mirror : Registry := mkRegistry [mirror] [].

Definition state_mirror : ManagerState :=
  mkState "0.1.0" "2026-01-01T00:00:00.000Z" "2026-01-01T00:00:00.000Z" "/proj" None
    [mkSelectedSkill "mirror" "1.0.0" []] [].

(** The collaborators of a registry that holds this skill alone. *)
Definition env_mirror : Env :=
  mkEnv readTemplate handlebars json_stringify
        (json_parse_among [state_mirror]) compare_Z
        (fun root =>
           if bool_decide (root = "/reg/skills") then Ok ["mirror"]
           else if bool_decide (root = "/reg/harnesses") then Ok []
           else Err (ENOENT root))
        (fun p =>
           if bool_decide (p = "/reg/skills/mirror/skill.json") then Ok mirror
           else Err (ENOENT p))
        (fun p => Err (ENOENT p))
        (fun _ => [])
        all all answered.

Definition fs_mirror : gmap string string :=
  <["/proj/ai/ai-manager.json" := json_stringify state_mirror +:+ nl]>
    (<["/proj/ai/agents.md" := "old agents"]> ∅).

End Demo.

(** * Vocabulary of the specification *)

(** The targets a selected id declares: those of the manifest [find]
    returns for it, none when the registry has no such manifest. *)
Definition findSkill (skills : list SkillManifest) (id : string) : option SkillManifest :=
  Js.find (fun skill => bool_decide (skill_id skill = id)) skills.

Definition findHarness (harnesses : list HarnessManifest) (id : string)
  : option HarnessManifest :=
  Js.find (fun harness => bool_decide (harness_id harness = id)) harnesses.

Definition declaredSkillTargets (skills : list SkillManifest) (id : string) : list string :=
  match findSkill skills id with
  | Some manifest => map target (skill_outputs manifest)
  | None => []
  end.

Definition declaredHarnessTargets (harnesses : list HarnessManifest) (id : string)
  : list string :=
  match findHarness harnesses id with
  | Some manifest => map target (harness_outputs manifest)
  | None => []
  end.

(** Two positions of a list of ids hold the same id. *)
Definition duplicate_ids (ids : list string) : Prop :=
  ∃ i j id, i ≠ j ∧ ids !! i = Some id ∧ ids !! j = Some id.

(** The order [arr.sort((a, b) => compare(a, b))] sorts into. *)
Definition sorted_by {A} (compare : A → A → Z) (l : list A) : Prop :=
  StronglySorted (fun a b => (compare a b <= 0)%Z) l.

(** A comparator is consistent when it is total and transitive. *)
Definition consistent (compare : string → string → Z) : Prop :=
  (∀ a b, (compare a b <= 0)%Z ∨ (compare b a <= 0)%Z) ∧
  (∀ a b c, (compare a b <= 0)%Z → (compare b c <= 0)%Z → (compare a c <= 0)%Z).

(** What a list of file system calls does to the files. *)
Definition replay (ops : list fs_op) (fs : gmap string string) : gmap string string :=
  fold_left
    (fun fs op =>
       match op with
       | OpMkdir _ => fs
       | OpWriteFile p d => <[p := data_bytes d]> fs
       | OpRm p => delete p fs
       end)
    ops fs.

(** [m], run from [w], issues exactly the calls [ops] and returns [r]. *)
Definition effects {A} (m : IO A) (w : World) (ops : list fs_op) (r : Result A) : Prop :=
  m w = (mkWorld (replay ops (files w)) (trace w ++ ops), r).

(** A computation that never touches the world and returns the same
    result from every world. *)
Definition pure_io {A} (m : IO A) : Prop := ∃ r, ∀ w, m w = (w, r).

(** From every world, [m] returns [r] and issues calls among which the
    writes of generated files are [g], none is a removal, and, when [nb]
    holds, none is a backup copy. *)
Definition writes_only {A} (nb : bool) (m : IO A) (g : list (string * string))
  (r : Result A) : Prop :=
  ∀ w, ∃ ops, effects m w ops r ∧ generated_writes ops = g ∧ removed_paths ops = []
              ∧ (nb = true → backup_writes ops = []).

(** The generated writes and the result of [m] depend neither on the world
    nor on the backup options. *)
Definition deterministic {A} (m : BackupOptions → IO A) : Prop :=
  ∃ g r, ∀ backup, writes_only (negb (enabled backup)) (m backup) g r.

(** Writing a list of files in order. *)
Definition apply_writes (g : list (string * string)) (fs : gmap string string)
  : gmap string string :=
  fold_left (fun fs pc => <[pc.1 := pc.2]> fs) g fs.

(** [{ ...state, updatedAt: now, skills, harnesses }] *)
Definition nextState (state : ManagerState) (now : string)
  (sk : list SelectedSkill) (hs : list SelectedHarness) : ManagerState :=
  {| st_version := st_version state; createdAt := createdAt state; updatedAt := now;
     st_projectRoot := st_projectRoot state; facts := facts state;
     st_skills := sk; st_harnesses := hs |}.

(** The reconciliation proper, shared by the add and remove commands:
    render everything for the desired selection, then persist the state. *)
Definition reconcile (env : Env) (registryRoot projectRoot : string) (registry : Registry)
  (state : ManagerState) (sk : list SelectedSkill) (hs : list SelectedHarness)
  (backup : BackupOptions) (now : string) : IO (list string) :=
  (createdFiles <- Cli.renderAll env registryRoot projectRoot
                     (skills registry) (harnesses registry) sk hs backup ;;
   Cli.writeState env projectRoot (nextState state now sk hs) backup ;;
   ret createdFiles)%io.

(** A computation that removes no file. *)
Definition rm_silent {A} (m : IO A) : Prop :=
  ∀ w, removed_paths (trace (m w).1) = removed_paths (trace w).


(** A computation that removes no file and leaves every file there is in
    place, possibly with new contents. *)
Definition keeps_files {A} (m : IO A) : Prop :=
  ∀ w p, is_Some (files w !! p) → is_Some (files (m w).1 !! p).

(** The targets [collectOutputTargets] computes for a selection, given
    by its ids. *)
Definition targetSet (registry : Registry) (selection : list string * list string)
  : list string :=
  Cli.collectOutputTargets (skills registry) (harnesses registry) selection.1 selection.2.

(** The target set of the specification, in its words: the union of
    every declared [output.target] across the manifests of the selected
    skills and harnesses, plus the two always-present targets, the agents
    document and the state file. *)
Definition spec_targetSet (registry : Registry) (selection : list string * list string)
  : gset string :=
  list_to_set
    (flat_map (fun skill => map target (skill_outputs skill))
       (filter (fun skill => skill_id skill ∈ selection.1) (skills registry)))
  ∪ list_to_set
      (flat_map (fun harness => map target (harness_outputs harness))
         (filter (fun harness => harness_id harness ∈ selection.2) (harnesses registry)))
  ∪ {[ "ai/agents.md"; "ai/ai-manager.json" ]}.

(** The files a set of targets names in a project. *)
Definition targetFiles (projectRoot : string) (targets : gset string) : gset string :=
  set_map (fun t => Path.join [projectRoot; t]) targets.

Definition selectionOf (state : ManagerState) : list string * list string :=
  (map sel_id (st_skills state), map selh_id (st_harnesses state)).

(** The ids offered by, and the ids picked in, the prompt of
    [skills remove] and [harnesses remove]. *)
Definition pickedSkills (env : Env) (registry : Registry) (state : ManagerState)
  : list string :=
  List.filter (tick_skill env)
    (map skill_id
       (List.filter
          (fun skill => Js.set_has (Js.set_of (map sel_id (st_skills state))) (skill_id skill))
          (skills registry))).

Definition pickedHarnesses (env : Env) (registry : Registry) (state : ManagerState)
  : list string :=
  List.filter (tick_harness env)
    (map harness_id
       (List.filter
          (fun harness =>
             Js.set_has (Js.set_of (map selh_id (st_harnesses state))) (harness_id harness))
          (harnesses registry))).

(** The desired selection of [skills remove] and of [harnesses remove]. *)
Definition afterSkillsRemove (env : Env) (registry : Registry) (state : ManagerState)
  : list string * list string :=
  (map sel_id
     (List.filter (fun skill => negb (Js.includes (pickedSkills env registry state)
                                                  (sel_id skill)))
                  (st_skills state)),
   map selh_id (st_harnesses state)).

Definition afterHarnessesRemove (env : Env) (registry : Registry) (state : ManagerState)
  : list string * list string :=
  (map sel_id (st_skills state),
   map selh_id
     (List.filter (fun harness => negb (Js.includes (pickedHarnesses env registry state)
                                                    (selh_id harness)))
                  (st_harnesses state))).


(** The backup directory of a run started at [now] with backups enabled. *)
Definition backupRootAt (projectRoot now : string) : string :=
  Path.join [projectRoot; "ai"; ".backups"; Js.replace_colon_dot now].

(** A string without separator. *)
Definition no_slash (seg : string) : Prop :=
  forallb (fun c => negb (Path.is_slash c)) (list_ascii_of_string seg) = true.

(** A path segment proper: not empty, not [.] nor [..], without separator. *)
Definition clean_segment (seg : string) : bool :=
  negb (bool_decide (seg = "")) && negb (bool_decide (seg = "."))
  && negb (bool_decide (seg = ".."))
  && forallb (fun c => negb (Path.is_slash c)) (list_ascii_of_string seg).

(** The absolute path with the given segments. *)
Definition absolute_of (segs : list string) : string := "/" +:+ Path.join_slash segs.

(** Where the specification places the backup of a target: under the
    backup directory [stamp], at the path of the target relative to the
    project root. *)
Definition claimed_backup_path (projectRoot stamp target : string) : string :=
  Path.join [projectRoot; "ai"; ".backups"; stamp; target].

(** [s.replace(/:/g, "-")], the time stamp as the specification words it. *)
Fixpoint replace_colon (s : string) : string :=
  match s with
  | EmptyString => EmptyString
  | String c rest =>
      String (if bool_decide (c = ":"%char) then "-"%char else c) (replace_colon rest)
  end.




(** A computation that leaves the file system and the trace as they are. *)
Definition readonly {A} (m : IO A) : Prop := ∀ w, (m w).1 = w.

(** The ids picked in the prompt of [skills add] and [harnesses add]: the
    ticked ones among the registry ids that are not selected yet. *)
Definition pickedNewSkills (env : Env) (registry : Registry) (state : ManagerState)
  : list string :=
  List.filter (tick_skill env)
    (map skill_id
       (List.filter
          (fun skill =>
             negb (Js.set_has (Js.set_of (map sel_id (st_skills state))) (skill_id skill)))
          (skills registry))).

Definition pickedNewHarnesses (env : Env) (registry : Registry) (state : ManagerState)
  : list string :=
  List.filter (tick_harness env)
    (map harness_id
       (List.filter
          (fun harness =>
             negb (Js.set_has (Js.set_of (map selh_id (st_harnesses state)))
                              (harness_id harness)))
          (harnesses registry))).

(** The answers object after the prompts for [qs] were answered with
    [values], starting from [answers]. *)
Definition recordAnswers (qs : list Question) (values : list string)
  (answers : SkillAnswerMap) : SkillAnswerMap :=
  fold_left (fun answers qv => Js.assign (q_id qv.1) qv.2 answers) (zip qs values) answers.

(** The paths [renderAll] writes for a selected skill and a selected
    harness, and for a whole selection: those of the outputs of the
    manifest [find] returns, after the agents document. *)
Definition skillOutputPaths (projectRoot : string) (skills : list SkillManifest)
  (selected : SelectedSkill) : list string :=
  match findSkill skills (sel_id selected) with
  | Some manifest =>
      map (fun output => Path.join [projectRoot; target output]) (skill_outputs manifest)
  | None => []
  end.

Definition harnessOutputPaths (projectRoot : string) (harnesses : list HarnessManifest)
  (selected : SelectedHarness) : list string :=
  match findHarness harnesses (selh_id selected) with
  | Some manifest =>
      map (fun output => Path.join [projectRoot; target output]) (harness_outputs manifest)
  | None => []
  end.

Definition renderedPaths (projectRoot : string)
  (skills : list SkillManifest) (harnesses : list HarnessManifest)
  (selectedSkills : list SelectedSkill) (selectedHarnesses : list SelectedHarness)
  : list string :=
  Path.join [projectRoot; "ai"; "agents.md"]
  :: concat (map (skillOutputPaths projectRoot skills) selectedSkills)
  ++ concat (map (harnessOutputPaths projectRoot harnesses) selectedHarnesses).

(** [m] removes nothing; when it succeeds it returns [expected] and the
    generated files it wrote are [paths], in this order; when it fails
    it wrote the first of them only, at least one short. *)
Definition yields {A} (paths : list string) (expected : A) (m : IO A) : Prop :=
  ∀ w w' r, m w = (w', r) →
    ∃ ops, w' = mkWorld (replay ops (files w)) (trace w ++ ops)
           ∧ removed_paths ops = []
           ∧ match r with
             | Ok a => a = expected ∧ map fst (generated_writes ops) = paths
             | Err _ =>
                 map fst (generated_writes ops) `prefix_of` paths
                 ∧ (List.length (generated_writes ops) < List.length paths)%nat
             end.

(** The number of rounds of [path.dirname] a path admits at most before
    it is its own parent. *)
Definition dirname_rounds (p : string) : nat :=
  if bool_decide (p = ".") then 0 else S (String.length p).

(** The [n]-th enclosing directory of a path. *)
Definition ancestor (n : nat) (p : string) : string := Nat.iter n Path.dirname p.

(** The rows of the doctor for a state, read off the files: what
    [runDoctor] prints when the state and the registry are loaded. *)
Definition doctorRows (relative : string → string → string) (projectRoot : string)
  (registry : Registry) (state : ManagerState) (fs : gmap string string)
  : list Doctor.Row :=
  let present p := bool_decide (is_Some (fs !! p)) in
  Doctor.formatStatusRow "Agents" (present (Path.join [projectRoot; "ai"; "agents.md"]))
                         "/ai/agents.md"
  :: Doctor.formatStatusRow "State"
       (present (Path.join [projectRoot; "ai"; "ai-manager.json"])) "/ai/ai-manager.json"
  :: map (fun skill =>
            let skillPath :=
              Path.join [projectRoot; "ai"; "skills"; sel_id skill +:+ "-skill.md"] in
            Doctor.formatStatusRow ("Skill " +:+ sel_id skill) (present skillPath)
                                   (relative projectRoot skillPath))
         (st_skills state)
  ++ concat
       (map (fun harness =>
               match findHarness (harnesses registry) (selh_id harness) with
               | None =>
                   [Doctor.formatStatusRow ("Harness " +:+ selh_id harness) false
                                           "Missing in registry"]
               | Some manifest =>
                   map (fun output =>
                          let outputPath := Path.join [projectRoot; target output] in
                          Doctor.formatStatusRow ("Harness " +:+ selh_id harness)
                            (present outputPath) (relative projectRoot outputPath))
                       (harness_outputs manifest)
               end)
            (st_harnesses state)).

(** A version for which the update prompt is due: a valid one, newer
    than the running one. *)
Definition update_due (semver_valid : string → bool) (semver_gt : string → string → bool)
  (latest : string) : Prop :=
  latest ≠ "" ∧ semver_valid latest = true ∧ semver_valid Cli.CURRENT_VERSION = true
  ∧ semver_gt latest Cli.CURRENT_VERSION = true.

(** * Properties *)

(** ** Lists *)

Section Lists.

Lemma elem_of_map {A B} (f : A → B) (l : list A) (y : B) :
  y ∈ map f l ↔ ∃ x, y = f x ∧ x ∈ l.
Proof. apply (list_elem_of_fmap f). Qed.

Lemma elem_of_List_filter {A} (f : A → bool) (l : list A) (x : A) :
  x ∈ List.filter f l ↔ f x = true ∧ x ∈ l.
Proof. rewrite !list_elem_of_In, filter_In. tauto. Qed.

Lemma NoDup_List_filter {A} (f : A → bool) (l : list A) :
  NoDup l → NoDup (List.filter f l).
Proof.
  induction 1 as [| x l Hx Hnd IH]; simpl; [constructor |].
  destruct (f x); [| done]. constructor; [| done].
  rewrite elem_of_List_filter. tauto.
Qed.

Lemma duplicate_ids_spec (ids : list string) : duplicate_ids ids ↔ ¬ NoDup ids.
Proof.
  unfold duplicate_ids. rewrite NoDup_alt. split.
  - intros (i & j & id & Hne & Hi & Hj) Hnd. apply Hne. eauto.
  - intros Hnot.
    destruct (decide (NoDup ids)) as [Hnd | Hnd].
    { exfalso. apply Hnot. by apply NoDup_alt. }
    clear Hnot. induction ids as [| x ids IH]; [exfalso; apply Hnd; constructor |].
    destruct (decide (x ∈ ids)) as [Hx | Hx].
    + apply list_elem_of_lookup in Hx as [j Hj].
      exists 0, (S j), x. split_and!; done.
    + destruct IH as (i & j & id & Hne & Hi & Hj).
      { intros H. apply Hnd. by constructor. }
      exists (S i), (S j), id. split_and!; [lia | done | done].
Qed.

End Lists.

(** ** Sets of strings *)

Section JsSets.

Lemma set_add_elem (x y : string) (set : list string) :
  x ∈ Js.set_add y set ↔ x = y ∨ x ∈ set.
Proof.
  unfold Js.set_add. case_bool_decide as Hy.
  - split; [auto | intros [-> | ?]; done].
  - rewrite elem_of_app, list_elem_of_singleton. tauto.
Qed.

Lemma set_add_NoDup (y : string) (set : list string) :
  NoDup set → NoDup (Js.set_add y set).
Proof.
  intros Hnd. unfold Js.set_add. case_bool_decide as Hy; [done |].
  apply NoDup_app. split_and!; [done | | apply NoDup_singleton].
  intros x Hx ->%list_elem_of_singleton. done.
Qed.

Lemma set_add_length (y : string) (set : list string) :
  List.length (Js.set_add y set) = if bool_decide (y ∈ set) then List.length set else S (List.length set).
Proof.
  unfold Js.set_add. case_bool_decide; [done |].
  rewrite length_app. simpl. lia.
Qed.

(** Adding the images of a list, as [forEach((o) => set.add(f(o)))] does. *)
Lemma fold_set_add_elem {A} (f : A → string) (l : list A) (acc : list string) (x : string) :
  x ∈ fold_left (fun set o => Js.set_add (f o) set) l acc ↔ x ∈ acc ∨ x ∈ map f l.
Proof.
  revert acc. induction l as [| o l IH]; intros acc; simpl.
  - rewrite elem_of_nil. tauto.
  - rewrite IH, set_add_elem, elem_of_cons. tauto.
Qed.

Lemma fold_set_add_NoDup {A} (f : A → string) (l : list A) (acc : list string) :
  NoDup acc → NoDup (fold_left (fun set o => Js.set_add (f o) set) l acc).
Proof.
  revert acc. induction l as [| o l IH]; intros acc Hnd; simpl; [done |].
  apply IH, set_add_NoDup, Hnd.
Qed.

Lemma fold_set_add_length_le (l acc : list string) :
  (List.length (fold_left (fun set x => Js.set_add x set) l acc)
   <= List.length acc + List.length l)%nat.
Proof.
  revert acc. induction l as [| x l IH]; intros acc; simpl; [lia |].
  etrans; [apply IH |]. rewrite set_add_length. case_bool_decide; lia.
Qed.

Lemma fold_set_add_length_eq (l acc : list string) :
  List.length (fold_left (fun set x => Js.set_add x set) l acc) = List.length acc + List.length l
  ↔ NoDup l ∧ ∀ x, x ∈ l → x ∉ acc.
Proof.
  revert acc. induction l as [| x l IH]; intros acc; simpl.
  - split; [intros _ | lia]. split; [constructor | intros x Hx; by apply elem_of_nil in Hx].
  - destruct (decide (x ∈ acc)) as [Hin | Hnin].
    + assert (Js.set_add x acc = acc) as -> by (unfold Js.set_add; by rewrite bool_decide_eq_true_2).
      split.
      * intros Heq. pose proof (fold_set_add_length_le l acc). lia.
      * intros [_ Hdisj]. exfalso. apply (Hdisj x); [left | done].
    + assert (Js.set_add x acc = acc ++ [x]) as ->
          by (unfold Js.set_add; by rewrite bool_decide_eq_false_2).
      replace (List.length acc + S (List.length l)) with (List.length (acc ++ [x]) + List.length l)
        by (rewrite length_app; simpl; lia).
      rewrite IH, NoDup_cons. split.
      * intros [Hnd Hdisj]. split; [split; [| done] |].
        -- intros Hx. apply (Hdisj x Hx). apply elem_of_app. right. by left.
        -- intros y [-> | Hy]%elem_of_cons; [done |].
           intros Hacc. apply (Hdisj y Hy). apply elem_of_app. by left.
      * intros [[Hx Hnd] Hdisj]. split; [done |].
        intros y Hy [Hacc | ->%list_elem_of_singleton]%elem_of_app; [| done].
        apply (Hdisj y); [by right | done].
Qed.

Lemma set_of_elem (l : list string) (x : string) : x ∈ Js.set_of l ↔ x ∈ l.
Proof.
  unfold Js.set_of. rewrite (fold_set_add_elem id), map_id, elem_of_nil. tauto.
Qed.

Lemma set_of_NoDup (l : list string) : NoDup (Js.set_of l).
Proof. apply (fold_set_add_NoDup id). constructor. Qed.

(** [new Set(arr).size === arr.length] exactly when [arr] has no
    duplicate. *)
Lemma set_of_size (l : list string) : List.length (Js.set_of l) = List.length l ↔ NoDup l.
Proof.
  unfold Js.set_of. rewrite (fold_set_add_length_eq l []). split; [tauto |].
  intros Hnd. split; [done |]. intros x _ Hx. by apply elem_of_nil in Hx.
Qed.

Lemma fold_set_add_fresh (l acc : list string) :
  NoDup l → (∀ x, x ∈ l → x ∉ acc) →
  fold_left (fun set x => Js.set_add x set) l acc = acc ++ l.
Proof.
  revert acc. induction l as [| x l IH]; intros acc Hnd Hdisj; simpl.
  - by rewrite app_nil_r.
  - apply NoDup_cons in Hnd as [Hx Hnd].
    assert (Js.set_add x acc = acc ++ [x]) as ->.
    { unfold Js.set_add. rewrite bool_decide_eq_false_2; [done |].
      apply Hdisj. by left. }
    rewrite IH, <- app_assoc; [done | done |].
    intros y Hy [Hacc | ->%list_elem_of_singleton]%elem_of_app; [| done].
    apply (Hdisj y); [by right | done].
Qed.

Lemma set_of_NoDup_id (l : list string) : NoDup l → Js.set_of l = l.
Proof.
  intros Hnd. unfold Js.set_of. rewrite fold_set_add_fresh; [done | done |].
  intros x _ Hx. by apply elem_of_nil in Hx.
Qed.

End JsSets.

(** ** The monad *)

Section Monad.

Lemma bind_ok {A B} (m : IO A) (k : A → IO B) w w' a :
  m w = (w', Ok a) → bind m k w = k a w'.
Proof. intros H. unfold bind. by rewrite H. Qed.

Lemma bind_err {A B} (m : IO A) (k : A → IO B) w w' e :
  m w = (w', Err e) → bind m k w = (w', Err e).
Proof. intros H. unfold bind. by rewrite H. Qed.

Lemma bind_inv_ok {A B} (m : IO A) (k : A → IO B) w w2 b :
  bind m k w = (w2, Ok b) → ∃ w1 a, m w = (w1, Ok a) ∧ k a w1 = (w2, Ok b).
Proof.
  unfold bind. destruct (m w) as [w1 [a | e]]; intros H; [eauto | discriminate].
Qed.

Lemma bind_readonly {A B} (m : IO A) (k : A → IO B) w :
  readonly m →
  bind m k w = match (m w).2 with Ok a => k a w | Err e => (w, Err e) end.
Proof.
  intros Hm. unfold bind. specialize (Hm w).
  destruct (m w) as [w1 [a | e]]; simpl in *; by subst.
Qed.

Lemma readonly_ret {A} (a : A) : readonly (ret a).
Proof. done. Qed.

Lemma readonly_throw {A} (e : Error) : readonly (@throw A e).
Proof. done. Qed.

Lemma readonly_lift {A} (r : Result A) : readonly (lift r).
Proof. done. Qed.

Lemma readonly_bind {A B} (m : IO A) (k : A → IO B) :
  readonly m → (∀ a, readonly (k a)) → readonly (bind m k).
Proof.
  intros Hm Hk w. rewrite bind_readonly by done.
  destruct (m w).2; [apply Hk | done].
Qed.

Lemma readonly_promise_all {A} (ps : list (IO A)) :
  Forall readonly ps → readonly (promise_all ps).
Proof.
  induction 1 as [| p ps Hp _ IH]; simpl; [apply readonly_ret |].
  apply readonly_bind; [done |]. intros x.
  apply readonly_bind; [done |]. intros xs. apply readonly_ret.
Qed.

Lemma readonly_for_of {A B} (xs : list A) (body : A → IO B) :
  (∀ x, readonly (body x)) → readonly (for_of xs body).
Proof.
  intros Hbody. apply readonly_promise_all, Forall_forall.
  intros p (x & -> & _)%elem_of_map. apply Hbody.
Qed.

Lemma readonly_pathExists p : readonly (pathExists p).
Proof. done. Qed.

Lemma readonly_fs_readFile p : readonly (fs_readFile p).
Proof. intros w. unfold fs_readFile. by destruct (files w !! p). Qed.

End Monad.

Create HintDb readonly.
#[local] Hint Resolve readonly_ret readonly_throw readonly_lift readonly_pathExists
  readonly_fs_readFile : readonly.

(** ** Sorting *)

Section Sorting.

Context {A : Type} (compare : A → A → Z).
Hypothesis compare_total : ∀ a b, (compare a b <= 0)%Z ∨ (compare b a <= 0)%Z.
Hypothesis compare_trans :
  ∀ a b c, (compare a b <= 0)%Z → (compare b c <= 0)%Z → (compare a c <= 0)%Z.

Let le (a b : A) : Prop := (compare a b <= 0)%Z.

Lemma sort_insert_Permutation (x : A) (l : list A) :
  Permutation (x :: l) (Js.sort_insert compare x l).
Proof.
  induction l as [| y l IH]; simpl; [done |].
  destruct (compare x y <=? 0)%Z; [done |].
  rewrite <- IH. apply perm_swap.
Qed.

Lemma sort_Permutation (l : list A) : Permutation l (Js.sort compare l).
Proof.
  induction l as [| x l IH]; simpl; [done |].
  rewrite <- sort_insert_Permutation. by constructor.
Qed.

Lemma sort_insert_HdRel (a x : A) (l : list A) :
  le a x → HdRel le a l → HdRel le a (Js.sort_insert compare x l).
Proof.
  intros Hax Hl. destruct l as [| y l]; simpl; [by constructor |].
  destruct (compare x y <=? 0)%Z; constructor; [done |].
  by inversion Hl.
Qed.

Lemma sort_insert_Sorted (x : A) (l : list A) :
  Sorted le l → Sorted le (Js.sort_insert compare x l).
Proof.
  induction 1 as [| y l Hl IH Hy]; simpl; [by repeat constructor |].
  destruct (compare x y <=? 0)%Z eqn:Hxy.
  - constructor; [by constructor |]. constructor. by apply Z.leb_le.
  - constructor; [done |]. apply sort_insert_HdRel; [| done].
    apply Z.leb_gt in Hxy. destruct (compare_total x y) as [H | H]; [lia | done].
Qed.

Lemma sort_Sorted (l : list A) : Sorted le (Js.sort compare l).
Proof.
  induction l as [| x l IH]; simpl; [constructor |]. by apply sort_insert_Sorted.
Qed.

Lemma sort_sorted_by (l : list A) : sorted_by compare (Js.sort compare l).
Proof.
  apply Sorted_StronglySorted; [| apply sort_Sorted].
  intros a b c. apply compare_trans.
Qed.

End Sorting.

(** ** Target sets *)

Section Targets.

Lemma findSkill_id skills id manifest :
  findSkill skills id = Some manifest → skill_id manifest = id ∧ manifest ∈ skills.
Proof.
  unfold findSkill, Js.find. intros [Hin Hid]%find_some.
  apply bool_decide_eq_true in Hid. by rewrite list_elem_of_In.
Qed.

Lemma findHarness_id harnesses id manifest :
  findHarness harnesses id = Some manifest →
  harness_id manifest = id ∧ manifest ∈ harnesses.
Proof.
  unfold findHarness, Js.find. intros [Hin Hid]%find_some.
  apply bool_decide_eq_true in Hid. by rewrite list_elem_of_In.
Qed.

(** One of the two loops of [collectOutputTargets], over any way
    [declared] of finding the outputs of an id. *)
Lemma collect_loop_elem {M} (lookup : string → option M) (outputs : M → list OutputTemplate)
  (ids acc : list string) (t : string) :
  t ∈ fold_left
        (fun targets id =>
           match lookup id with
           | None => targets
           | Some manifest =>
               fold_left (fun targets output => Js.set_add (target output) targets)
                         (outputs manifest) targets
           end) ids acc
  ↔ t ∈ acc ∨ ∃ id manifest, id ∈ ids ∧ lookup id = Some manifest
                             ∧ t ∈ map target (outputs manifest).
Proof.
  revert acc. induction ids as [| id ids IH]; intros acc; simpl.
  - split; [auto |]. intros [? | (id & m & []%elem_of_nil & _)]. done.
  - rewrite IH. destruct (lookup id) as [m |] eqn:Hm.
    + rewrite fold_set_add_elem. split.
      * intros [[? | Ht] | (id' & m' & Hin & Hl & Ht)]; [by left | |].
        -- right. exists id, m. split_and!; [by left | done | done].
        -- right. exists id', m'. split_and!; [by right | done | done].
      * intros [? | (id' & m' & [-> | Hin]%elem_of_cons & Hl & Ht)]; [by left; left | |].
        -- left. right. congruence.
        -- right. eauto.
    + split.
      * intros [? | (id' & m' & Hin & Hl & Ht)]; [by left |].
        right. exists id', m'. split_and!; [by right | done | done].
      * intros [? | (id' & m' & [-> | Hin]%elem_of_cons & Hl & Ht)]; [by left | |].
        -- congruence.
        -- right. eauto.
Qed.

Lemma collect_loop_NoDup {M} (lookup : string → option M)
  (outputs : M → list OutputTemplate) (ids acc : list string) :
  NoDup acc →
  NoDup (fold_left
           (fun targets id =>
              match lookup id with
              | None => targets
              | Some manifest =>
                  fold_left (fun targets output => Js.set_add (target output) targets)
                            (outputs manifest) targets
              end) ids acc).
Proof.
  revert acc. induction ids as [| id ids IH]; intros acc Hnd; simpl; [done |].
  apply IH. destruct (lookup id); [by apply fold_set_add_NoDup | done].
Qed.

Lemma collectOutputTargets_NoDup skills harnesses skillIds harnessIds :
  NoDup (Cli.collectOutputTargets skills harnesses skillIds harnessIds).
Proof.
  unfold Cli.collectOutputTargets.
  do 2 apply set_add_NoDup. do 2 apply collect_loop_NoDup. constructor.
Qed.

Lemma collectOutputTargets_elem skills harnesses skillIds harnessIds t :
  t ∈ Cli.collectOutputTargets skills harnesses skillIds harnessIds
  ↔ (∃ id, id ∈ skillIds ∧ t ∈ declaredSkillTargets skills id)
    ∨ (∃ id, id ∈ harnessIds ∧ t ∈ declaredHarnessTargets harnesses id)
    ∨ t = "ai/agents.md" ∨ t = "ai/ai-manager.json".
Proof.
  unfold Cli.collectOutputTargets.
  rewrite !set_add_elem.
  rewrite (collect_loop_elem (findHarness harnesses) harness_outputs).
  rewrite (collect_loop_elem (findSkill skills) skill_outputs).
  rewrite elem_of_nil.
  unfold declaredSkillTargets, declaredHarnessTargets.
  split.
  - intros [? | [? | [[[] | (id & m & Hin & Hf & Ht)] | (id & m & Hin & Hf & Ht)]]]; auto.
    + left. exists id. by rewrite Hf.
    + right. left. exists id. by rewrite Hf.
  - intros [(id & Hin & Ht) | [(id & Hin & Ht) | [? | ?]]]; auto.
    + destruct (findSkill skills id) as [m |] eqn:Hf; [| by apply elem_of_nil in Ht].
      do 2 right. left. right. eauto.
    + destruct (findHarness harnesses id) as [m |] eqn:Hf; [| by apply elem_of_nil in Ht].
      do 3 right. eauto.
Qed.

Lemma staleTargets_elem (previousTargets nextTargets : list string) (t : string) :
  t ∈ Cli.staleTargets previousTargets nextTargets
  ↔ t ∈ previousTargets ∧ t ∉ nextTargets.
Proof.
  unfold Cli.staleTargets, Js.set_has.
  rewrite set_of_elem, elem_of_List_filter, negb_true_iff, bool_decide_eq_false. tauto.
Qed.

Lemma staleTargets_NoDup (previousTargets nextTargets : list string) :
  NoDup (Cli.staleTargets previousTargets nextTargets).
Proof. apply set_of_NoDup. Qed.

Lemma findSkill_unique skills manifest :
  NoDup (map skill_id skills) → manifest ∈ skills →
  findSkill skills (skill_id manifest) = Some manifest.
Proof.
  unfold findSkill, Js.find.
  induction skills as [| s skills IH]; intros Hnd Hin; [by apply elem_of_nil in Hin |].
  simpl in *. apply NoDup_cons in Hnd as [Hs Hnd].
  case_bool_decide as Hid.
  - apply elem_of_cons in Hin as [-> | Hin]; [done |].
    destruct Hs. rewrite Hid. apply elem_of_map. eauto.
  - apply elem_of_cons in Hin as [-> | Hin]; [done | by apply IH].
Qed.

Lemma findHarness_unique harnesses manifest :
  NoDup (map harness_id harnesses) → manifest ∈ harnesses →
  findHarness harnesses (harness_id manifest) = Some manifest.
Proof.
  unfold findHarness, Js.find.
  induction harnesses as [| h harnesses IH]; intros Hnd Hin; [by apply elem_of_nil in Hin |].
  simpl in *. apply NoDup_cons in Hnd as [Hh Hnd].
  case_bool_decide as Hid.
  - apply elem_of_cons in Hin as [-> | Hin]; [done |].
    destruct Hh. rewrite Hid. apply elem_of_map. eauto.
  - apply elem_of_cons in Hin as [-> | Hin]; [done | by apply IH].
Qed.

(** On a registry without duplicate ids, the targets the code collects
    are the target set of the specification. *)
Lemma collectOutputTargets_spec registry selection t :
  NoDup (map skill_id (skills registry)) →
  NoDup (map harness_id (harnesses registry)) →
  t ∈ targetSet registry selection ↔ t ∈ spec_targetSet registry selection.
Proof.
  intros Hs Hh. unfold targetSet, spec_targetSet.
  rewrite collectOutputTargets_elem, !elem_of_union, !elem_of_list_to_set.
  rewrite !list_elem_of_In, !in_flat_map. setoid_rewrite <- list_elem_of_In.
  setoid_rewrite list_elem_of_filter.
  unfold declaredSkillTargets, declaredHarnessTargets.
  rewrite !elem_of_singleton.
  split.
  - intros [(id & Hin & Ht) | [(id & Hin & Ht) | [-> | ->]]]; [| | by right; left | by right; right].
    + destruct (findSkill (skills registry) id) as [m |] eqn:Hf; [| by apply elem_of_nil in Ht].
      apply findSkill_id in Hf as [<- Hm]. left. left. eauto.
    + destruct (findHarness (harnesses registry) id) as [m |] eqn:Hf;
        [| by apply elem_of_nil in Ht].
      apply findHarness_id in Hf as [<- Hm]. left. right. eauto.
  - intros [[(m & [Hid Hm] & Ht) | (m & [Hid Hm] & Ht)] | [-> | ->]]; [| | auto ..].
    + left. exists (skill_id m). split; [done |]. by rewrite findSkill_unique.
    + right. left. exists (harness_id m). split; [done |]. by rewrite findHarness_unique.
Qed.


Lemma stale_difference registry S1 S2 :
  NoDup (map skill_id (skills registry)) →
  NoDup (map harness_id (harnesses registry)) →
  (list_to_set (Cli.staleTargets (targetSet registry S1) (targetSet registry S2))
     : gset string)
  = spec_targetSet registry S1 ∖ spec_targetSet registry S2.
Proof.
  intros Hs Hh. apply set_eq. intros t.
  rewrite elem_of_list_to_set, staleTargets_elem, elem_of_difference.
  by rewrite !collectOutputTargets_spec.
Qed.

(** The files of a difference of target sets are the difference of the
    files when no two spellings name one file. *)
Lemma targetFiles_difference projectRoot (T1 T2 : gset string) :
  (∀ t1 t2, t1 ∈ T1 → t2 ∈ T2 →
            Path.join [projectRoot; t1] = Path.join [projectRoot; t2] → t1 = t2) →
  targetFiles projectRoot (T1 ∖ T2) = targetFiles projectRoot T1 ∖ targetFiles projectRoot T2.
Proof.
  intros Hinj. apply set_eq. intros p. unfold targetFiles.
  rewrite elem_of_difference, !fin_sets.elem_of_map. split.
  - intros (t & -> & [Ht1 Ht2]%elem_of_difference). split; [eauto |].
    intros (t2 & Heq & Hin2). apply Ht2. by rewrite (Hinj t t2).
  - intros [(t & -> & Ht1) Hnot]. exists t. split; [done |].
    apply elem_of_difference. split; [done |]. intros Ht2. apply Hnot. eauto.
Qed.

(** C4. The target set is a total function of the selection: it holds
    the declared targets of the selected skills and harnesses and the two
    fixed targets [ai/agents.md] and [ai/ai-manager.json], without
    duplicates; for the empty selection it is exactly the two fixed
    targets; the fixed targets are never stale in a transition. *)
Theorem collectOutputTargets_total_fixed
  (skills : list SkillManifest) (harnesses : list HarnessManifest)
  (skillIds harnessIds : list string) :
  let targets := Cli.collectOutputTargets skills harnesses skillIds harnessIds in
  NoDup targets
  ∧ (∀ t, t ∈ targets
          ↔ (∃ id, id ∈ skillIds ∧ t ∈ declaredSkillTargets skills id)
            ∨ (∃ id, id ∈ harnessIds ∧ t ∈ declaredHarnessTargets harnesses id)
            ∨ t = "ai/agents.md" ∨ t = "ai/ai-manager.json")
  ∧ Cli.collectOutputTargets skills harnesses [] [] = ["ai/agents.md"; "ai/ai-manager.json"]
  ∧ (∀ previousTargets,
       ("ai/agents.md" ∉ Cli.staleTargets previousTargets targets)
       ∧ ("ai/ai-manager.json" ∉ Cli.staleTargets previousTargets targets)).
Proof.
  intros targets. split_and!.
  - apply collectOutputTargets_NoDup.
  - apply collectOutputTargets_elem.
  - reflexivity.
  - intros previousTargets.
    split; rewrite staleTargets_elem; intros [_ Hnot]; apply Hnot;
      apply collectOutputTargets_elem; auto.
Qed.

End Targets.

(** ** Registry loading *)

Section RegistryProps.

Variable localeCompare : string → string → Z.
Variable listDirectories : string → Result (list string).
Variable readSkillManifest : string → Result SkillManifest.
Variable readHarnessManifest : string → Result HarnessManifest.

Abbreviation loadSkills :=
  (RegistryLoader.loadSkills localeCompare listDirectories readSkillManifest).
Abbreviation loadHarnesses :=
  (RegistryLoader.loadHarnesses localeCompare listDirectories readHarnessManifest).
Abbreviation loadRegistry :=
  (RegistryLoader.loadRegistry localeCompare listDirectories
     readSkillManifest readHarnessManifest).

Lemma readonly_loadSkills root : readonly (loadSkills root).
Proof.
  unfold RegistryLoader.loadSkills.
  apply readonly_bind; [apply readonly_lift |]. intros dirs.
  apply readonly_bind; [| intros; apply readonly_ret].
  apply readonly_promise_all, Forall_forall.
  intros p (dir & -> & _)%elem_of_map. apply readonly_lift.
Qed.

Lemma readonly_loadHarnesses root : readonly (loadHarnesses root).
Proof.
  unfold RegistryLoader.loadHarnesses.
  apply readonly_bind; [apply readonly_lift |]. intros dirs.
  apply readonly_bind; [| intros; apply readonly_ret].
  apply readonly_promise_all, Forall_forall.
  intros p (dir & -> & _)%elem_of_map. apply readonly_lift.
Qed.

Lemma readonly_assertValidRegistryIds skills harnesses :
  readonly (RegistryLoader.assertValidRegistryIds skills harnesses).
Proof.
  unfold RegistryLoader.assertValidRegistryIds.
  repeat case_match; auto with readonly.
Qed.

Lemma readonly_loadRegistry root : readonly (loadRegistry root).
Proof.
  unfold RegistryLoader.loadRegistry.
  apply readonly_bind; [apply readonly_loadSkills |]. intros skills.
  apply readonly_bind; [apply readonly_loadHarnesses |]. intros harnesses.
  apply readonly_bind; [apply readonly_assertValidRegistryIds |]. intros _.
  apply readonly_ret.
Qed.

Lemma loadSkills_sorted root w skills :
  consistent localeCompare →
  (loadSkills root w).2 = Ok skills →
  sorted_by (fun a b => localeCompare (skill_id a) (skill_id b)) skills.
Proof.
  intros [Htotal Htrans]. unfold RegistryLoader.loadSkills.
  rewrite bind_readonly by apply readonly_lift.
  destruct (lift (listDirectories _) w).2 as [dirs |]; [| done].
  unfold bind at 1. destruct (promise_all _ w) as [w' [manifests |]]; [| done].
  intros [= <-]. apply sort_sorted_by; eauto.
Qed.

Lemma loadHarnesses_sorted root w harnesses :
  consistent localeCompare →
  (loadHarnesses root w).2 = Ok harnesses →
  sorted_by (fun a b => localeCompare (harness_id a) (harness_id b)) harnesses.
Proof.
  intros [Htotal Htrans]. unfold RegistryLoader.loadHarnesses.
  rewrite bind_readonly by apply readonly_lift.
  destruct (lift (listDirectories _) w).2 as [dirs |]; [| done].
  unfold bind at 1. destruct (promise_all _ w) as [w' [manifests |]]; [| done].
  intros [= <-]. apply sort_sorted_by; eauto.
Qed.

(** What [loadRegistry] returns, once both lists are loaded. *)
Lemma loadRegistry_loaded root w skills harnesses :
  (loadSkills root w).2 = Ok skills →
  (loadHarnesses root w).2 = Ok harnesses →
  loadRegistry root w =
    (w, if negb (bool_decide (NoDup (map skill_id skills)))
        then Err (ZodError ["skills"] "Duplicate skill ids")
        else if negb (bool_decide (NoDup (map harness_id harnesses)))
             then Err (ZodError ["harnesses"] "Duplicate harness ids")
             else Ok (mkRegistry skills harnesses)).
Proof.
  intros Hs Hh. unfold RegistryLoader.loadRegistry.
  rewrite bind_readonly, Hs by apply readonly_loadSkills.
  rewrite bind_readonly, Hh by apply readonly_loadHarnesses.
  unfold RegistryLoader.assertValidRegistryIds.
  assert (bool_decide (List.length (Js.set_of (map skill_id skills)) = List.length skills)
          = bool_decide (NoDup (map skill_id skills))) as ->.
  { apply bool_decide_ext. by rewrite <- set_of_size, length_map. }
  assert (bool_decide (List.length (Js.set_of (map harness_id harnesses))
                       = List.length harnesses)
          = bool_decide (NoDup (map harness_id harnesses))) as ->.
  { apply bool_decide_ext. by rewrite <- set_of_size, length_map. }
  destruct (bool_decide (NoDup (map skill_id skills))); simpl; [| done].
  destruct (bool_decide (NoDup (map harness_id harnesses))); done.
Qed.

(** C6. When the loaded skill list or the loaded harness list holds two
    manifests with the same id, [loadRegistry] fails with a validation
    error and returns no registry; when the ids of both lists are unique
    it returns the two lists, each sorted by id. *)
Theorem loadRegistry_unique_ids (registryRoot : string) (w : World)
  (skills : list SkillManifest) (harnesses : list HarnessManifest) :
  consistent localeCompare →
  (loadSkills registryRoot w).2 = Ok skills →
  (loadHarnesses registryRoot w).2 = Ok harnesses →
  (duplicate_ids (map skill_id skills) ∨ duplicate_ids (map harness_id harnesses) →
     ∃ path message, loadRegistry registryRoot w = (w, Err (ZodError path message)))
  ∧ (NoDup (map skill_id skills) ∧ NoDup (map harness_id harnesses) →
       loadRegistry registryRoot w = (w, Ok (mkRegistry skills harnesses))
       ∧ sorted_by (fun a b => localeCompare (skill_id a) (skill_id b)) skills
       ∧ sorted_by (fun a b => localeCompare (harness_id a) (harness_id b)) harnesses).
Proof.
  intros Hcmp Hs Hh. rewrite (loadRegistry_loaded _ _ _ _ Hs Hh). split.
  - rewrite !duplicate_ids_spec. intros Hdup.
    destruct (decide (NoDup (map skill_id skills))) as [Hnd | Hnd].
    + destruct Hdup as [Hdup | Hdup]; [done |].
      rewrite (bool_decide_eq_true_2 _ Hnd), (bool_decide_eq_false_2 _ Hdup). simpl. eauto.
    + rewrite (bool_decide_eq_false_2 _ Hnd). simpl. eauto.
  - intros [Hns Hnh].
    rewrite (bool_decide_eq_true_2 _ Hns), (bool_decide_eq_true_2 _ Hnh). simpl.
    split_and!; [done | by eapply loadSkills_sorted | by eapply loadHarnesses_sorted].
Qed.

End RegistryProps.

(** ** File utilities *)

Section FsUtilsProps.

Lemma replay_app ops1 ops2 fs : replay (ops1 ++ ops2) fs = replay ops2 (replay ops1 fs).
Proof. unfold replay. apply fold_left_app. Qed.

Lemma effects_bind_ok {A B} (m : IO A) (k : A → IO B) w ops1 a ops2 r :
  effects m w ops1 (Ok a) →
  effects (k a) (mkWorld (replay ops1 (files w)) (trace w ++ ops1)) ops2 r →
  effects (bind m k) w (ops1 ++ ops2) r.
Proof.
  unfold effects. intros Hm Hk. rewrite (bind_ok _ _ _ _ _ Hm), Hk. simpl.
  by rewrite replay_app, app_assoc.
Qed.

Lemma effects_bind_err {A B} (m : IO A) (k : A → IO B) w ops e :
  effects m w ops (Err e) → effects (bind m k) w ops (Err e).
Proof. unfold effects. intros Hm. by rewrite (bind_err _ _ _ _ _ Hm). Qed.

Lemma effects_ops {A} (m : IO A) w ops ops' r :
  effects m w ops r → ops = ops' → effects m w ops' r.
Proof. by intros H <-. Qed.

Lemma effects_ret {A} (a : A) w : effects (ret a) w [] (Ok a).
Proof. unfold effects, ret. simpl. rewrite app_nil_r. by destruct w. Qed.

Lemma effects_fs_rm_force p w : effects (fs_rm_force p) w [OpRm p] (Ok tt).
Proof. done. Qed.

Lemma path_join_nonempty (args : list string) : Path.join args ≠ "".
Proof.
  unfold Path.join. destruct (filter _ args) as [| a parts]; [done |].
  unfold Path.normalize. repeat case_match; try done.
  - destruct (Path.normalizeString _ _); [by case_bool_decide | done].
  - by case_bool_decide.
Qed.

Lemma buildBackupOptions_enabled projectRoot now :
  Cli.buildBackupOptions projectRoot true now
  = mkBackup true (Some (backupRootAt projectRoot now)).
Proof. done. Qed.

Lemma truthy_backupRootAt projectRoot now :
  truthy (Some (backupRootAt projectRoot now)) = true.
Proof.
  simpl. rewrite bool_decide_eq_false_2; [done | apply path_join_nonempty].
Qed.

(** The calls of [writeFileAlways]. *)
Lemma writeFileAlways_effects targetPath contents backup w :
  effects (writeFileAlways targetPath contents backup) w
    (match files w !! targetPath with
     | Some existing =>
         if enabled backup && truthy (backupRoot backup) then
           let backupPath :=
             resolveBackupPath targetPath (default "" (backupRoot backup)) in
           [OpMkdir (Path.dirname backupPath); OpWriteFile backupPath (Buffer existing)]
         else []
     | None => []
     end ++ [OpMkdir (Path.dirname targetPath); OpWriteFile targetPath (Utf8 contents)])
    (Ok tt).
Proof.
  unfold effects, writeFileAlways, bind, pathExists, ensureDir, fs_writeFile, fs_readFile, ret.
  destruct (files w !! targetPath) as [existing |] eqn:Hex; simpl.
  - destruct (enabled backup && truthy (backupRoot backup)); simpl.
    + rewrite Hex. simpl. by rewrite <- !app_assoc.
    + by rewrite <- !app_assoc.
  - by rewrite <- !app_assoc.
Qed.

(** The calls of [backupExistingFile]. *)
Lemma backupExistingFile_effects targetPath backup w :
  effects (backupExistingFile targetPath backup) w
    (match files w !! targetPath with
     | Some existing =>
         if enabled backup && truthy (backupRoot backup) then
           let backupPath :=
             resolveBackupPath targetPath (default "" (backupRoot backup)) in
           [OpMkdir (Path.dirname backupPath); OpWriteFile backupPath (Buffer existing)]
         else []
     | None => []
     end)
    (Ok tt).
Proof.
  unfold effects, backupExistingFile.
  destruct (enabled backup), (truthy (backupRoot backup)); simpl;
    try (destruct (files w !! targetPath); simpl; rewrite app_nil_r; by destruct w).
  unfold bind, pathExists, ensureDir, fs_writeFile, fs_readFile, ret.
  destruct (files w !! targetPath) as [existing |] eqn:Hex; simpl.
  - rewrite Hex. simpl. by rewrite <- !app_assoc.
  - rewrite app_nil_r. by destruct w.
Qed.

End FsUtilsProps.

(** ** Paths in normal form *)

Section PathProps.

Lemma append_cons c s t : String c s +:+ t = String c (s +:+ t).
Proof. done. Qed.

Lemma append_nil t : "" +:+ t = t.
Proof. done. Qed.

Lemma append_assoc (a b c : string) : (a +:+ b) +:+ c = a +:+ (b +:+ c).
Proof. induction a as [| x a IH]; [done |]. by rewrite !append_cons, IH. Qed.

Lemma append_nonempty_r (a b : string) : b ≠ "" → a +:+ b ≠ "".
Proof. destruct a; [by rewrite append_nil | by rewrite append_cons]. Qed.

Lemma clean_segment_spec seg :
  clean_segment seg = true ↔ seg ≠ "" ∧ seg ≠ "." ∧ seg ≠ ".." ∧ no_slash seg.
Proof.
  unfold clean_segment, no_slash.
  rewrite !andb_true_iff, !negb_true_iff, !bool_decide_eq_false. tauto.
Qed.

Lemma no_slash_cons c seg :
  no_slash (String c seg) ↔ Path.is_slash c = false ∧ no_slash seg.
Proof. unfold no_slash. simpl. by rewrite andb_true_iff, negb_true_iff. Qed.

Lemma split_slash_cons_slash s : Path.split_slash ("/" +:+ s) = "" :: Path.split_slash s.
Proof. done. Qed.

Lemma split_slash_no_slash seg : no_slash seg → Path.split_slash seg = [seg].
Proof.
  induction seg as [| c seg IH]; [done |].
  intros [Hc Hseg]%no_slash_cons. simpl. by rewrite Hc, IH.
Qed.

Lemma split_slash_app seg rest :
  no_slash seg → Path.split_slash (seg +:+ "/" +:+ rest) = seg :: Path.split_slash rest.
Proof.
  induction seg as [| c seg IH]; [done |].
  intros [Hc Hseg]%no_slash_cons. rewrite append_cons. simpl. by rewrite Hc, IH.
Qed.

Lemma join_slash_cons seg segs :
  segs ≠ [] → Path.join_slash (seg :: segs) = seg +:+ "/" +:+ Path.join_slash segs.
Proof. by destruct segs. Qed.

Lemma split_join_slash segs :
  segs ≠ [] → Forall no_slash segs → Path.split_slash (Path.join_slash segs) = segs.
Proof.
  induction segs as [| seg segs IH]; [done |]. intros _ Hall.
  apply Forall_cons in Hall as [Hseg Hall].
  destruct segs as [| seg' segs]; [by apply split_slash_no_slash |].
  rewrite join_slash_cons by done. rewrite split_slash_app by done.
  by rewrite IH.
Qed.

Lemma join_slash_app segs1 segs2 :
  segs1 ≠ [] → segs2 ≠ [] →
  Path.join_slash (segs1 ++ segs2)
  = Path.join_slash segs1 +:+ "/" +:+ Path.join_slash segs2.
Proof.
  induction segs1 as [| seg segs1 IH]; [done |]. intros _ Hne.
  destruct segs1 as [| seg' segs1].
  - simpl. by destruct segs2.
  - change ((seg :: seg' :: segs1) ++ segs2) with (seg :: ((seg' :: segs1) ++ segs2)).
    rewrite !join_slash_cons by done. rewrite IH by done. by rewrite !append_assoc.
Qed.

Lemma join_slash_nonempty segs :
  segs ≠ [] → Forall (fun seg => seg ≠ "") segs → Path.join_slash segs ≠ "".
Proof.
  destruct segs as [| seg segs]; [done |]. intros _ [Hseg _]%Forall_cons.
  destruct segs; [done |]. rewrite join_slash_cons by done.
  destruct seg; [done | by rewrite append_cons].
Qed.

Lemma normalize_step_clean allowAboveRoot res seg :
  clean_segment seg = true → Path.normalize_step allowAboveRoot res seg = seg :: res.
Proof.
  intros (H1 & H2 & H3 & _)%clean_segment_spec. unfold Path.normalize_step.
  by rewrite !bool_decide_eq_false_2.
Qed.

Lemma normalize_steps_clean allowAboveRoot segs res :
  Forall (fun seg => clean_segment seg = true) segs →
  fold_left (Path.normalize_step allowAboveRoot) segs res = rev segs ++ res.
Proof.
  revert res. induction segs as [| seg segs IH]; intros res Hall; [done |].
  apply Forall_cons in Hall as [Hseg Hall]. simpl.
  rewrite normalize_step_clean, IH by done. by rewrite <- app_assoc.
Qed.

Lemma last_char_cons c s : s ≠ "" → Path.last_char (String c s) = Path.last_char s.
Proof. by destruct s. Qed.

Lemma last_char_app a b : b ≠ "" → Path.last_char (a +:+ b) = Path.last_char b.
Proof.
  intros Hb. induction a as [| c a IH]; [done |].
  rewrite append_cons, last_char_cons; [done | by apply append_nonempty_r].
Qed.

Lemma no_trailing_slash_segment seg :
  seg ≠ "" → no_slash seg → Path.has_trailing_slash seg = false.
Proof.
  unfold Path.has_trailing_slash.
  induction seg as [| c seg IH]; [done |]. intros _ [Hc Hseg]%no_slash_cons.
  destruct seg as [| c' seg]; [done |].
  rewrite last_char_cons by done. by apply IH.
Qed.

Lemma no_trailing_slash_join segs :
  segs ≠ [] → Forall (fun seg => clean_segment seg = true) segs →
  Path.has_trailing_slash (Path.join_slash segs) = false.
Proof.
  induction segs as [| seg segs IH]; [done |]. intros _ Hall.
  apply Forall_cons in Hall as [Hseg Hall].
  apply clean_segment_spec in Hseg as (Hne & _ & _ & Hns).
  destruct segs as [| seg' segs]; [by apply no_trailing_slash_segment |].
  rewrite join_slash_cons by done.
  assert (Path.join_slash (seg' :: segs) ≠ "") as Hrest.
  { apply join_slash_nonempty; [done |]. eapply Forall_impl; [exact Hall |].
    simpl. by intros s (? & _)%clean_segment_spec. }
  unfold Path.has_trailing_slash in *.
  rewrite last_char_app by (by apply append_nonempty_r).
  rewrite (last_char_app "/") by done. by apply IH.
Qed.

(** An absolute path of clean segments is its own normal form. *)
Lemma normalize_absolute_of segs :
  segs ≠ [] → Forall (fun seg => clean_segment seg = true) segs →
  Path.normalize (absolute_of segs) = absolute_of segs.
Proof.
  intros Hne Hall.
  assert (Forall no_slash segs) as Hns.
  { eapply Forall_impl; [exact Hall |].
    simpl. by intros s (_ & _ & _ & ?)%clean_segment_spec. }
  assert (Path.join_slash segs ≠ "") as Hbody.
  { apply join_slash_nonempty; [done |]. eapply Forall_impl; [exact Hall |].
    simpl. by intros s (? & _)%clean_segment_spec. }
  unfold Path.normalize, absolute_of.
  rewrite bool_decide_eq_false_2 by done.
  change (Path.isAbsolute ("/" +:+ Path.join_slash segs)) with true.
  assert (Path.normalizeString ("/" +:+ Path.join_slash segs) (negb true)
          = Path.join_slash segs) as ->.
  { unfold Path.normalizeString.
    rewrite split_slash_cons_slash, split_join_slash by done. simpl.
    change (Path.normalize_step false [] "") with (@nil string).
    rewrite normalize_steps_clean by done. by rewrite app_nil_r, rev_involutive. }
  rewrite bool_decide_eq_false_2 by done.
  assert (Path.has_trailing_slash ("/" +:+ Path.join_slash segs) = false) as ->.
  { unfold Path.has_trailing_slash. rewrite last_char_app by done.
    by apply no_trailing_slash_join. }
  done.
Qed.

(** Joining an absolute path of clean segments with a relative one. *)
Lemma join_absolute_of segs1 segs2 :
  segs1 ≠ [] → segs2 ≠ [] →
  Forall (fun seg => clean_segment seg = true) segs1 →
  Forall (fun seg => clean_segment seg = true) segs2 →
  Path.join [absolute_of segs1; Path.join_slash segs2] = absolute_of (segs1 ++ segs2)
  ∧ absolute_of (segs1 ++ segs2) = absolute_of segs1 +:+ "/" +:+ Path.join_slash segs2.
Proof.
  intros Hne1 Hne2 Hall1 Hall2.
  assert (absolute_of (segs1 ++ segs2)
          = absolute_of segs1 +:+ "/" +:+ Path.join_slash segs2) as Happ.
  { unfold absolute_of. rewrite join_slash_app by done. by rewrite !append_assoc. }
  split; [| exact Happ].
  assert (Path.join_slash segs2 ≠ "") as Hrel.
  { apply join_slash_nonempty; [done |]. eapply Forall_impl; [exact Hall2 |].
    simpl. by intros s (? & _)%clean_segment_spec. }
  unfold Path.join. rewrite !filter_cons, filter_nil.
  rewrite decide_True by done. rewrite decide_True by done.
  change (Path.join_slash [absolute_of segs1; Path.join_slash segs2])
    with (absolute_of segs1 +:+ "/" +:+ Path.join_slash segs2).
  rewrite <- Happ. apply normalize_absolute_of.
  - by destruct segs1.
  - by apply Forall_app.
Qed.

End PathProps.

(** ** Backups *)

Lemma exec_effects {A} (m : IO A) fs ops r :
  effects m (mkWorld fs []) ops r → exec m fs = (mkWorld (replay ops fs) ops, r).
Proof. done. Qed.

Ltac enabled_effects lemma Hex :=
  rewrite buildBackupOptions_enabled;
  let H := fresh "H" in
  pose proof lemma as H;
  cbn [files enabled backupRoot andb] in H;
  rewrite Hex, truthy_backupRootAt in H;
  apply exec_effects in H.

Section BackupProps.

(** The backup directory of a project at an absolute path of clean
    segments. *)
Lemma backupRootAt_absolute_of rootSegs now :
  rootSegs ≠ [] →
  Forall (fun seg => clean_segment seg = true) rootSegs →
  clean_segment (Js.replace_colon_dot now) = true →
  backupRootAt (absolute_of rootSegs) now
  = absolute_of (rootSegs ++ ["ai"; ".backups"; Js.replace_colon_dot now])
  ∧ backupRootAt (absolute_of rootSegs) now
    = absolute_of rootSegs +:+ "/ai/.backups/" +:+ Js.replace_colon_dot now.
Proof.
  intros Hne Hroot Hstamp.
  assert (Forall (fun seg => clean_segment seg = true)
                 ["ai"; ".backups"; Js.replace_colon_dot now]) as Hdir
    by (repeat constructor; done).
  destruct (join_absolute_of rootSegs ["ai"; ".backups"; Js.replace_colon_dot now])
    as [Hjoin Happ]; [done | done | done | done |].
  assert (backupRootAt (absolute_of rootSegs) now
          = Path.join [absolute_of rootSegs;
                       Path.join_slash ["ai"; ".backups"; Js.replace_colon_dot now]]) as Heq.
  { apply clean_segment_spec in Hstamp as (Hs & _).
    unfold backupRootAt, Path.join. rewrite !filter_cons, !filter_nil.
    rewrite !(decide_True (P := Js.replace_colon_dot now ≠ "")) by done.
    repeat case_decide; try done. }
  split; [by rewrite Heq |]. by rewrite Heq, Hjoin, Happ.
Qed.

(** C2, as the code has it. With backups enabled, the backup of an
    existing file with an absolute path is written under the backup
    directory [<projectRoot>/ai/.backups/<stamp>], the stamp being the
    time of the run with colons and dots replaced by dashes, at the
    absolute path of the file without its leading separator: the backup
    tree mirrors the absolute path, not the path relative to the project
    root.  For a project root and a target made of clean segments the
    backup path is the backup directory followed by the whole target
    path. *)
Theorem backup_mirrors_absolute_path
  (projectRoot now targetPath contents : string) (fs : gmap string string)
  (existing : string) :
  Path.isAbsolute targetPath = true →
  fs !! targetPath = Some existing →
  let backup := Cli.buildBackupOptions projectRoot true now in
  let backupPath :=
    Path.join [Path.join [projectRoot; "ai"; ".backups"; Js.replace_colon_dot now];
               Path.slice_from 1 targetPath] in
  backup_writes (trace (exec (writeFileAlways targetPath contents backup) fs).1)
  = [(backupPath, existing)]
  ∧ backup_writes (trace (exec (backupExistingFile targetPath backup) fs).1)
    = [(backupPath, existing)]
  ∧ (∀ rootSegs targetSegs,
       rootSegs ≠ [] → targetSegs ≠ [] →
       Forall (fun seg => clean_segment seg = true) rootSegs →
       Forall (fun seg => clean_segment seg = true) targetSegs →
       clean_segment (Js.replace_colon_dot now) = true →
       projectRoot = absolute_of rootSegs →
       targetPath = Path.join [projectRoot; Path.join_slash targetSegs] →
       targetPath = projectRoot +:+ "/" +:+ Path.join_slash targetSegs
       ∧ backupPath
         = projectRoot +:+ "/ai/.backups/" +:+ Js.replace_colon_dot now +:+ targetPath).
Proof.
  intros Habs Hex backup backupPath. subst backup.
  assert (resolveBackupPath targetPath (backupRootAt projectRoot now) = backupPath) as Hbp.
  { unfold resolveBackupPath, Path.root. by rewrite Habs. }
  split_and!.
  - enabled_effects
      (writeFileAlways_effects targetPath contents
         (mkBackup true (Some (backupRootAt projectRoot now))) (mkWorld fs [])) Hex.
    rewrite H. cbn [fst trace]. simpl. by rewrite Hbp.
  - enabled_effects
      (backupExistingFile_effects targetPath
         (mkBackup true (Some (backupRootAt projectRoot now))) (mkWorld fs [])) Hex.
    rewrite H. cbn [fst trace]. simpl. by rewrite Hbp.
  - intros rootSegs targetSegs Hne1 Hne2 Hroot Htarget Hstamp -> Htp.
    destruct (join_absolute_of rootSegs targetSegs) as [Hjoin Happ]; [done .. |].
    rewrite Hjoin in Htp.
    split; [by rewrite Htp, Happ |].
    destruct (backupRootAt_absolute_of rootSegs now) as [Hdir Hdir']; [done .. |].
    subst backupPath.
    change (Path.join [absolute_of rootSegs; "ai"; ".backups"; Js.replace_colon_dot now])
      with (backupRootAt (absolute_of rootSegs) now).
    rewrite Htp at 1.
    change (Path.slice_from 1 (absolute_of (rootSegs ++ targetSegs)))
      with (Path.join_slash (rootSegs ++ targetSegs)).
    rewrite Hdir.
    destruct (join_absolute_of (rootSegs ++ ["ai"; ".backups"; Js.replace_colon_dot now])
                (rootSegs ++ targetSegs)) as [Hjoin2 Happ2].
    { by destruct rootSegs. }
    { by destruct rootSegs. }
    { apply Forall_app. split; [done |]. repeat constructor; done. }
    { by apply Forall_app. }
    rewrite Hjoin2, Happ2, <- Hdir, Hdir', Htp.
    unfold absolute_of at 3. by rewrite !append_assoc.
Qed.

End BackupProps.

(** ** Determinism of rendering *)

Section Determinism.

Lemma generated_writes_app ops1 ops2 :
  generated_writes (ops1 ++ ops2) = generated_writes ops1 ++ generated_writes ops2.
Proof. apply omap_app. Qed.

Lemma removed_paths_app ops1 ops2 :
  removed_paths (ops1 ++ ops2) = removed_paths ops1 ++ removed_paths ops2.
Proof. apply omap_app. Qed.

Lemma backup_writes_app ops1 ops2 :
  backup_writes (ops1 ++ ops2) = backup_writes ops1 ++ backup_writes ops2.
Proof. apply omap_app. Qed.

Lemma pure_io_readonly {A} (m : IO A) : pure_io m → readonly m.
Proof. intros [r Hr] w. by rewrite Hr. Qed.

Lemma pure_ret {A} (a : A) : pure_io (ret a).
Proof. by exists (Ok a). Qed.

Lemma pure_throw {A} (e : Error) : pure_io (@throw A e).
Proof. by exists (Err e). Qed.

Lemma pure_lift {A} (r : Result A) : pure_io (lift r).
Proof. by exists r. Qed.

Lemma pure_bind {A B} (m : IO A) (k : A → IO B) :
  pure_io m → (∀ a, pure_io (k a)) → pure_io (bind m k).
Proof.
  intros [[a | e] Hm] Hk.
  - destruct (Hk a) as [r Hr]. exists r. intros w. unfold bind. by rewrite Hm, Hr.
  - exists (Err e). intros w. unfold bind. by rewrite Hm.
Qed.

Lemma pure_promise_all {A} (ps : list (IO A)) :
  Forall pure_io ps → pure_io (promise_all ps).
Proof.
  induction 1 as [| p ps Hp _ IH]; simpl; [apply pure_ret |].
  apply pure_bind; [done |]. intros x.
  apply pure_bind; [done |]. intros xs. apply pure_ret.
Qed.

Lemma pure_for_of {A B} (xs : list A) (body : A → IO B) :
  (∀ x, pure_io (body x)) → pure_io (for_of xs body).
Proof.
  intros Hbody. apply pure_promise_all, Forall_forall.
  intros p (x & -> & _)%elem_of_map. apply Hbody.
Qed.

Lemma writes_only_pure {A} nb (m : IO A) r :
  (∀ w, m w = (w, r)) → writes_only nb m [] r.
Proof.
  intros Hm w. exists []. split_and!; try done.
  unfold effects. rewrite Hm. simpl. rewrite app_nil_r. by destruct w.
Qed.

Lemma writes_only_bind_ok {A B} nb (m : IO A) (k : A → IO B) g1 a g2 r :
  writes_only nb m g1 (Ok a) → writes_only nb (k a) g2 r →
  writes_only nb (bind m k) (g1 ++ g2) r.
Proof.
  intros Hm Hk w.
  destruct (Hm w) as (ops1 & He1 & Hg1 & Hr1 & Hb1).
  destruct (Hk (mkWorld (replay ops1 (files w)) (trace w ++ ops1)))
    as (ops2 & He2 & Hg2 & Hr2 & Hb2).
  exists (ops1 ++ ops2). split_and!.
  - by eapply effects_bind_ok.
  - by rewrite generated_writes_app, Hg1, Hg2.
  - by rewrite removed_paths_app, Hr1, Hr2.
  - intros Hnb. by rewrite backup_writes_app, Hb1, Hb2.
Qed.

Lemma writes_only_bind_err {A B} nb (m : IO A) (k : A → IO B) g e :
  writes_only nb m g (Err e) → writes_only nb (bind m k) g (Err e).
Proof.
  intros Hm w. destruct (Hm w) as (ops & He & Hg & Hr & Hb).
  exists ops. split_and!; try done. by apply effects_bind_err.
Qed.

Lemma deterministic_pure {A} (m : IO A) : pure_io m → deterministic (fun _ => m).
Proof.
  intros [r Hr]. exists [], r. intros backup. by apply writes_only_pure.
Qed.

Lemma deterministic_bind {A B} (m : BackupOptions → IO A)
  (k : A → BackupOptions → IO B) :
  deterministic m → (∀ a, deterministic (k a)) →
  deterministic (fun backup => bind (m backup) (fun a => k a backup)).
Proof.
  intros (g1 & [a | e] & Hm) Hk.
  - destruct (Hk a) as (g2 & r & Hka). exists (g1 ++ g2), r. intros backup.
    eapply writes_only_bind_ok; [apply Hm | apply Hka].
  - exists g1, (Err e). intros backup. apply writes_only_bind_err, Hm.
Qed.

Lemma deterministic_for_of {A B} (xs : list A) (body : A → BackupOptions → IO B) :
  (∀ x, deterministic (body x)) →
  deterministic (fun backup => for_of xs (fun x => body x backup)).
Proof.
  intros Hbody. unfold for_of. induction xs as [| x xs IH]; simpl.
  - apply (deterministic_pure (ret [])), pure_ret.
  - apply (deterministic_bind (body x) (fun y backup => _)); [done |]. intros y.
    apply (deterministic_bind _ (fun ys backup => ret (y :: ys))); [done |].
    intros ys. apply (deterministic_pure (ret (y :: ys))), pure_ret.
Qed.

Lemma writeFileAlways_writes_only targetPath contents backup :
  writes_only (negb (enabled backup)) (writeFileAlways targetPath contents backup)
    [(targetPath, contents)] (Ok tt).
Proof.
  intros w. eexists. split; [apply writeFileAlways_effects |].
  destruct (files w !! targetPath) as [existing |]; [| done].
  destruct (enabled backup); simpl; [| done].
  destruct (truthy (backupRoot backup)); simpl; done.
Qed.

Lemma deterministic_writeFileAlways targetPath contents :
  deterministic (writeFileAlways targetPath contents).
Proof.
  exists [(targetPath, contents)], (Ok tt). intros backup.
  apply writeFileAlways_writes_only.
Qed.

Lemma writes_only_then_ret {A B} nb (m : IO A) g a (b : B) :
  writes_only nb m g (Ok a) → writes_only nb (bind m (fun _ => ret b)) g (Ok b).
Proof.
  intros Hm w. destruct (Hm w) as (ops & He & Hg & Hr & Hb).
  exists ops. split_and!; try done.
  unfold effects in *. by rewrite (bind_ok _ _ _ _ _ He).
Qed.

End Determinism.

(** ** Rendering *)

Section RenderProps.

Variable env : Env.
Variable registryRoot : string.

Lemma pure_renderTemplateFile templatePath context :
  pure_io (Renderer.renderTemplateFile env templatePath context).
Proof.
  unfold Renderer.renderTemplateFile.
  destruct (readTemplate env templatePath) as [raw |]; [| apply pure_throw].
  destruct (handlebars env raw context); [apply pure_ret | apply pure_throw].
Qed.

Lemma pure_templateContext input : pure_io (Agents.templateContext env input).
Proof.
  unfold Agents.templateContext.
  apply pure_bind.
  { apply pure_promise_all, Forall_forall. intros p (x & -> & _)%elem_of_map.
    apply pure_renderTemplateFile. }
  intros snippets. apply pure_bind.
  { apply pure_promise_all, Forall_forall. intros p (x & -> & _)%elem_of_map.
    apply pure_renderTemplateFile. }
  intros rules. apply pure_bind.
  { destruct (Agents.plannerSkill input); [apply pure_renderTemplateFile | apply pure_ret]. }
  intros plan. apply pure_ret.
Qed.

Lemma pure_buildAgentsMarkdown input : pure_io (Agents.buildAgentsMarkdown env input).
Proof.
  unfold Agents.buildAgentsMarkdown. apply pure_bind; [apply pure_templateContext |].
  intros context. apply pure_renderTemplateFile.
Qed.

Lemma deterministic_writeRenderedOutput projectRoot output templateRoot context :
  deterministic (Renderer.writeRenderedOutput env projectRoot output templateRoot context).
Proof.
  unfold Renderer.writeRenderedOutput.
  apply (deterministic_bind (fun _ => _) (fun contents backup => _)).
  { apply deterministic_pure, pure_renderTemplateFile. }
  intros contents.
  apply (deterministic_bind (writeFileAlways _ contents) (fun _ backup => ret _)).
  { apply deterministic_writeFileAlways. }
  intros _. apply (deterministic_pure (ret _)), pure_ret.
Qed.

Lemma deterministic_renderSkillOutputs projectRoot skills selected :
  deterministic
    (fun backup => Cli.renderSkillOutputs env registryRoot projectRoot skills backup selected).
Proof.
  unfold Cli.renderSkillOutputs. destruct (Js.find _ skills) as [manifest |].
  - apply (deterministic_for_of _ (fun output backup => _)). intros output.
    apply deterministic_writeRenderedOutput.
  - apply (deterministic_pure (ret [])), pure_ret.
Qed.

Lemma deterministic_renderHarnessOutputs projectRoot harnesses selected :
  deterministic
    (fun backup =>
       Cli.renderHarnessOutputs env registryRoot projectRoot harnesses backup selected).
Proof.
  unfold Cli.renderHarnessOutputs. destruct (Js.find _ harnesses) as [manifest |].
  - apply (deterministic_for_of _ (fun output backup => _)). intros output.
    apply deterministic_writeRenderedOutput.
  - apply (deterministic_pure (ret [])), pure_ret.
Qed.

Lemma deterministic_renderAll projectRoot skills harnesses selectedSkills selectedHarnesses :
  deterministic
    (Cli.renderAll env registryRoot projectRoot skills harnesses
       selectedSkills selectedHarnesses).
Proof.
  unfold Cli.renderAll.
  apply (deterministic_bind (fun _ => _) (fun agentsContents backup => _)).
  { apply deterministic_pure, pure_buildAgentsMarkdown. }
  intros agentsContents.
  apply (deterministic_bind
           (Renderer.writeRenderedOutput env projectRoot _ registryRoot _)
           (fun _ backup => _)).
  { apply deterministic_writeRenderedOutput. }
  intros _.
  apply (deterministic_bind
           (fun backup => for_of selectedSkills
                            (Cli.renderSkillOutputs env registryRoot projectRoot skills backup))
           (fun fromSkills backup => _)).
  { apply (deterministic_for_of _ (fun selected backup => _)). intros selected.
    apply deterministic_renderSkillOutputs. }
  intros fromSkills.
  apply (deterministic_bind
           (fun backup => for_of selectedHarnesses
                            (Cli.renderHarnessOutputs env registryRoot projectRoot
                               harnesses backup))
           (fun fromHarnesses backup => ret _)).
  { apply (deterministic_for_of _ (fun selected backup => _)). intros selected.
    apply deterministic_renderHarnessOutputs. }
  intros fromHarnesses. apply (deterministic_pure (ret _)), pure_ret.
Qed.

(** [writeState] always succeeds; its one generated write is the state. *)
Lemma writeState_writes_only projectRoot state backup :
  writes_only (negb (enabled backup)) (Cli.writeState env projectRoot state backup)
    [(Path.join [projectRoot; "ai"; "ai-manager.json"], json_stringify env state +:+ nl)]
    (Ok (Path.join [projectRoot; "ai"; "ai-manager.json"])).
Proof.
  unfold Cli.writeState, Cli.writeJsonFile.
  eapply writes_only_then_ret, writeFileAlways_writes_only.
Qed.

End RenderProps.

(** ** Idempotence of the reconciliation *)

Section Idempotence.

Lemma apply_writes_snoc g p c fs :
  apply_writes (g ++ [(p, c)]) fs = <[p := c]> (apply_writes g fs).
Proof. unfold apply_writes. by rewrite fold_left_app. Qed.

(** A path that is written holds what was written last, whatever the
    files were before. *)
Lemma apply_writes_written g fs fs' p :
  p ∈ map fst g → apply_writes g fs !! p = apply_writes g fs' !! p.
Proof.
  induction g as [| [q c] g IH] using rev_ind.
  { simpl. by intros []%elem_of_nil. }
  rewrite map_app, elem_of_app, !apply_writes_snoc. simpl.
  intros Hin. destruct (decide (q = p)) as [-> | Hne].
  - by rewrite !lookup_insert_eq.
  - rewrite !lookup_insert_ne by done. apply IH.
    destruct Hin as [? | [-> | []%elem_of_nil]%elem_of_cons]; done.
Qed.

Lemma apply_writes_other g fs p : p ∉ map fst g → apply_writes g fs !! p = fs !! p.
Proof.
  induction g as [| [q c] g IH] using rev_ind; [done |].
  rewrite map_app, elem_of_app, apply_writes_snoc. simpl. intros Hnin.
  rewrite lookup_insert_ne.
  - apply IH. tauto.
  - intros ->. apply Hnin. right. by left.
Qed.

(** Writing the same files again changes nothing. *)
Lemma apply_writes_idempotent g fs : apply_writes g (apply_writes g fs) = apply_writes g fs.
Proof.
  apply map_eq. intros p. destruct (decide (p ∈ map fst g)) as [Hin | Hnin].
  - by apply apply_writes_written.
  - by rewrite apply_writes_other.
Qed.

Lemma apply_writes_again g p c1 c2 fs :
  apply_writes (g ++ [(p, c2)]) (apply_writes (g ++ [(p, c1)]) fs)
  = <[p := c2]> (apply_writes (g ++ [(p, c1)]) fs).
Proof.
  rewrite !apply_writes_snoc. apply map_eq. intros q.
  destruct (decide (p = q)) as [-> | Hne]; [by rewrite !lookup_insert_eq |].
  rewrite !lookup_insert_ne by done.
  destruct (decide (q ∈ map fst g)) as [Hin | Hnin].
  - by apply apply_writes_written.
  - rewrite (apply_writes_other g (<[p := c1]> _)) by done.
    by rewrite lookup_insert_ne.
Qed.

Lemma replay_generated ops fs :
  removed_paths ops = [] → backup_writes ops = [] →
  replay ops fs = apply_writes (generated_writes ops) fs.
Proof.
  revert fs. induction ops as [| op ops IH]; intros fs Hrm Hbk; [done |].
  destruct op as [dir | p [b | t] | p]; simpl in *; try discriminate.
  - by apply IH.
  - by apply IH.
Qed.

Variable env : Env.
Variable registryRoot projectRoot : string.
Variable registry : Registry.
Variable state : ManagerState.
Variable sk : list SelectedSkill.
Variable hs : list SelectedHarness.

Let statePath := Path.join [projectRoot; "ai"; "ai-manager.json"].
Let persisted now := json_stringify env (nextState state now sk hs) +:+ nl.

(** The generated writes of [reconcile]: those of the rendering, which do
    not depend on the time nor on the backups, then the state. *)
Lemma reconcile_writes_only :
  ∃ g r, ∀ backup now,
    writes_only (negb (enabled backup))
      (reconcile env registryRoot projectRoot registry state sk hs backup now)
      (g ++ match r with Ok _ => [(statePath, persisted now)] | Err _ => [] end) r.
Proof.
  destruct (deterministic_renderAll env registryRoot projectRoot
              (skills registry) (harnesses registry) sk hs) as (g & [created | e] & Hg).
  - exists g, (Ok created). intros backup now. unfold reconcile.
    eapply writes_only_bind_ok; [apply Hg |].
    eapply writes_only_then_ret, writeState_writes_only.
  - exists g, (Err e). intros backup now. unfold reconcile. rewrite app_nil_r.
    apply writes_only_bind_err, Hg.
Qed.

(** C3. A reconciliation that succeeded, run again from the files it
    left with the same previous state and the same desired selection,
    succeeds again with the same list of target files and issues the same
    writes of generated files, byte for byte, except that the persisted
    state carries the new [updatedAt]; it removes nothing; and when both
    runs are without backups the files on disk are those of the first run
    but for the state file. *)
Theorem reconcile_idempotent (backup1 backup2 : BackupOptions) (now1 now2 : string)
  (fs0 : gmap string string) (w1 : World) (created : list string) :
  exec (reconcile env registryRoot projectRoot registry state sk hs backup1 now1) fs0
  = (w1, Ok created) →
  ∃ w2 generated,
    exec (reconcile env registryRoot projectRoot registry state sk hs backup2 now2)
         (files w1)
    = (w2, Ok created)
    ∧ generated_writes (trace w1)
      = generated ++ [(statePath, json_stringify env (nextState state now1 sk hs) +:+ nl)]
    ∧ generated_writes (trace w2)
      = generated ++ [(statePath, json_stringify env (nextState state now2 sk hs) +:+ nl)]
    ∧ removed_paths (trace w2) = []
    ∧ (enabled backup1 = false → enabled backup2 = false →
       files w2
       = <[statePath := json_stringify env (nextState state now2 sk hs) +:+ nl]> (files w1)).
Proof.
  intros Hrun1. destruct reconcile_writes_only as (g & r & Hspec).
  destruct (Hspec backup1 now1 (mkWorld fs0 [])) as (ops1 & He1 & Hg1 & Hr1 & Hb1).
  apply exec_effects in He1. rewrite Hrun1 in He1.
  injection He1 as Hw1 Hres. subst w1 r. simpl in *.
  destruct (Hspec backup2 now2 (mkWorld (replay ops1 fs0) [])) as (ops2 & He2 & Hg2 & Hr2 & Hb2).
  apply exec_effects in He2.
  exists (mkWorld (replay ops2 (replay ops1 fs0)) ops2), g.
  split_and!; try done.
  intros Hoff1 Hoff2. simpl.
  rewrite (replay_generated ops2), (replay_generated ops1), Hg1, Hg2;
    [| done | by apply Hb1; rewrite Hoff1 | done | by apply Hb2; rewrite Hoff2].
  apply apply_writes_again.
Qed.

End Idempotence.

(** ** Commands *)

Section CommandProps.

Variable env : Env.
Variable registryRoot : string.

Lemma readonly_cli_loadRegistry : readonly (Cli.loadRegistry env registryRoot).
Proof. apply readonly_loadRegistry. Qed.

Lemma readonly_readJsonFile filePath : readonly (Cli.readJsonFile env filePath).
Proof.
  unfold Cli.readJsonFile. apply readonly_bind; [apply readonly_fs_readFile |].
  intros raw. destruct (json_parse env raw); auto with readonly.
Qed.

Lemma readonly_findManagerState projectRoot :
  readonly (Cli.findManagerState env projectRoot).
Proof.
  unfold Cli.findManagerState. apply readonly_bind; [apply readonly_pathExists |].
  intros [|]; simpl; [| apply readonly_ret].
  apply readonly_bind; [apply readonly_readJsonFile | intros; apply readonly_ret].
Qed.

Lemma readonly_isInited projectRoot : readonly (Cli.isInited projectRoot).
Proof.
  unfold Cli.isInited. repeat (apply readonly_bind; [apply readonly_pathExists | intros ?]).
  apply readonly_ret.
Qed.

Lemma readonly_askSkillQuestions skill projectRoot :
  readonly (Cli.askSkillQuestions env skill projectRoot).
Proof.
  unfold Cli.askSkillQuestions.
  assert (∀ qs (acc : IO SkillAnswerMap), readonly acc →
            readonly (fold_left
                        (fun (acc : IO SkillAnswerMap) question =>
                           bind acc (fun answers =>
                             match prompt_value env (skill_id skill) question with
                             | None => throw Cancelled
                             | Some value => ret (Js.assign (q_id question) value answers)
                             end)) qs acc)) as H.
  { induction qs as [| q qs IH]; intros acc Hacc; simpl; [done |].
    apply IH, readonly_bind; [done |]. intros answers.
    destruct (prompt_value env (skill_id skill) q); auto with readonly. }
  apply H, readonly_ret.
Qed.

Lemma readonly_askSelected registry projectRoot ids :
  readonly (Cli.askSelected env registry projectRoot ids).
Proof.
  unfold Cli.askSelected. apply readonly_bind; [| intros; apply readonly_ret].
  apply readonly_for_of. intros skillId.
  destruct (Js.find _ (skills registry)); [| apply readonly_ret].
  apply readonly_bind; [apply readonly_askSkillQuestions | intros; apply readonly_ret].
Qed.

Lemma isInited_result projectRoot w :
  (Cli.isInited projectRoot w).2
  = Ok (bool_decide (is_Some (files w !! Path.join [projectRoot; "ai"; "agents.md"]))
        && bool_decide (is_Some (files w !! Path.join [projectRoot; "ai"; "ai-manager.json"]))).
Proof. done. Qed.

(** A registry that loads has no two skills and no two harnesses with
    the same id. *)
Lemma loadRegistry_NoDup w w' registry :
  Cli.loadRegistry env registryRoot w = (w', Ok registry) →
  NoDup (map skill_id (skills registry)) ∧ NoDup (map harness_id (harnesses registry)).
Proof.
  unfold Cli.loadRegistry, RegistryLoader.loadRegistry.
  intros (w1 & skills & _ & H)%bind_inv_ok.
  apply bind_inv_ok in H as (w2 & harnesses & _ & H).
  apply bind_inv_ok in H as (w3 & [] & Hvalid & Hret).
  injection Hret as _ <-. simpl.
  unfold RegistryLoader.assertValidRegistryIds in Hvalid.
  case_bool_decide as Hs; [| done]. case_bool_decide as Hh; [| done].
  rewrite <- (length_map skill_id) in Hs. rewrite <- (length_map harness_id) in Hh.
  split; by apply set_of_size.
Qed.

Lemma loadRegistry_exec fs registry :
  (exec (Cli.loadRegistry env registryRoot) fs).2 = Ok registry →
  Cli.loadRegistry env registryRoot (mkWorld fs []) = (mkWorld fs [], Ok registry).
Proof.
  unfold exec. intros H.
  pose proof (readonly_cli_loadRegistry (mkWorld fs [])) as Hro.
  destruct (Cli.loadRegistry env registryRoot (mkWorld fs [])) as [w r].
  simpl in *. by subst.
Qed.

(** *** Removals *)

Lemma rm_silent_readonly {A} (m : IO A) : readonly m → rm_silent m.
Proof. intros Hm w. by rewrite Hm. Qed.

Lemma rm_silent_bind {A B} (m : IO A) (k : A → IO B) :
  rm_silent m → (∀ a, rm_silent (k a)) → rm_silent (bind m k).
Proof.
  intros Hm Hk w. unfold bind. specialize (Hm w).
  destruct (m w) as [w' [a | e]]; simpl in *; [| done].
  by rewrite Hk.
Qed.

Lemma rm_silent_writes_only {A} nb (m : IO A) g r : writes_only nb m g r → rm_silent m.
Proof.
  intros Hm w. destruct (Hm w) as (ops & He & _ & Hr & _).
  unfold effects in He. rewrite He. simpl.
  by rewrite removed_paths_app, Hr, app_nil_r.
Qed.

Lemma rm_silent_deterministic {A} (m : BackupOptions → IO A) backup :
  deterministic m → rm_silent (m backup).
Proof. intros (g & r & H). eapply rm_silent_writes_only, H. Qed.

Lemma rm_silent_renderAll projectRoot skills harnesses sk hs backup :
  rm_silent (Cli.renderAll env registryRoot projectRoot skills harnesses sk hs backup).
Proof.
  apply (rm_silent_deterministic
           (Cli.renderAll env registryRoot projectRoot skills harnesses sk hs)).
  apply deterministic_renderAll.
Qed.

Lemma rm_silent_writeState projectRoot state backup :
  rm_silent (Cli.writeState env projectRoot state backup).
Proof. eapply rm_silent_writes_only, writeState_writes_only. Qed.

Lemma remove_one_removed fullPath backup w :
  ∃ w', bind (backupExistingFile fullPath backup) (fun _ => fs_rm_force fullPath) w
        = (w', Ok tt)
        ∧ removed_paths (trace w') = removed_paths (trace w) ++ [fullPath].
Proof.
  pose proof (backupExistingFile_effects fullPath backup w) as Hb.
  unfold effects in Hb. rewrite (bind_ok _ _ _ _ _ Hb).
  eexists. split; [reflexivity |]. simpl.
  rewrite !removed_paths_app. simpl.
  destruct (files w !! fullPath); [| by rewrite app_nil_r].
  destruct (enabled backup && truthy (backupRoot backup)); simpl; by rewrite app_nil_r.
Qed.

(** The removals of [removeStaleOutputs] are the stale targets, in order. *)
Lemma removeStaleOutputs_removed projectRoot stale backup w :
  ∃ w', Cli.removeStaleOutputs projectRoot stale backup w = (w', Ok tt)
        ∧ removed_paths (trace w')
          = removed_paths (trace w) ++ map (fun t => Path.join [projectRoot; t]) stale.
Proof.
  unfold Cli.removeStaleOutputs. revert w.
  induction stale as [| t stale IH]; intros w; simpl.
  - exists w. by rewrite app_nil_r.
  - destruct (remove_one_removed (Path.join [projectRoot; t]) backup w)
      as (w1 & Hone & Hrm1).
    destruct (IH w1) as (w' & Hrest & Hrm).
    exists w'. rewrite (bind_ok _ _ _ _ _ Hone). split; [exact Hrest |].
    by rewrite Hrm, Hrm1, <- app_assoc.
Qed.

Lemma filter_all {A} (f : A → bool) (l : list A) :
  (∀ x, x ∈ l → f x = true) → List.filter f l = l.
Proof.
  induction l as [| x l IH]; intros H; simpl; [done |].
  rewrite (H x) by (by left). rewrite IH; [done |]. intros y Hy. apply H. by right.
Qed.

Lemma filter_none {A} (f : A → bool) (l : list A) :
  (∀ x, x ∈ l → f x = false) → List.filter f l = [].
Proof.
  induction l as [| x l IH]; intros H; simpl; [done |].
  rewrite (H x) by (by left). apply IH. intros y Hy. apply H. by right.
Qed.

Lemma staleTargets_self (targets : list string) : Cli.staleTargets targets targets = [].
Proof.
  unfold Cli.staleTargets. rewrite filter_none; [done |].
  intros t Ht. unfold Js.set_has. by rewrite bool_decide_eq_true_2.
Qed.

Lemma length_zero_nil {A} (l : list A) : bool_decide (List.length l = 0) = true → l = [].
Proof. intros H%bool_decide_eq_true. by destruct l. Qed.

Lemma rm_silent_ret {A} (a : A) : rm_silent (ret a).
Proof. done. Qed.

Ltac rm_silent_step :=
  first
    [ apply rm_silent_ret
    | apply rm_silent_renderAll
    | apply rm_silent_writeState
    | apply rm_silent_readonly;
      first [ apply readonly_findManagerState | apply readonly_cli_loadRegistry
            | apply readonly_askSelected | apply readonly_isInited
            | apply readonly_ret | apply readonly_throw ]
    | apply rm_silent_bind; [| intros ?] ].

Lemma rm_silent_runInit projectRoot enableBackup t_backup now :
  rm_silent (Cli.runInit env registryRoot projectRoot enableBackup t_backup now).
Proof. unfold Cli.runInit. repeat rm_silent_step. Qed.

Lemma rm_silent_initAction projectRoot enableBackup t_backup now :
  rm_silent (Cli.initAction env registryRoot projectRoot enableBackup t_backup now).
Proof.
  unfold Cli.initAction. rm_silent_step; [rm_silent_step |].
  destruct a; [rm_silent_step | apply rm_silent_runInit].
Qed.

Lemma rm_silent_skills_add projectRoot enableBackup t_backup now :
  rm_silent (Cli.runSkillsAddRemove env registryRoot projectRoot Cli.Add
               enableBackup t_backup now).
Proof.
  unfold Cli.runSkillsAddRemove. rm_silent_step; [rm_silent_step |].
  destruct a as [state |]; [| rm_silent_step].
  rm_silent_step; [rm_silent_step |].
  repeat case_bool_decide; repeat rm_silent_step.
Qed.

Lemma rm_silent_harnesses_add projectRoot enableBackup t_backup now :
  rm_silent (Cli.runHarnessesAddRemove env registryRoot projectRoot Cli.Add
               enableBackup t_backup now).
Proof.
  unfold Cli.runHarnessesAddRemove. rm_silent_step; [rm_silent_step |].
  destruct a as [state |]; [| rm_silent_step].
  rm_silent_step; [rm_silent_step |].
  repeat case_bool_decide; repeat rm_silent_step.
Qed.

Lemma rm_silent_exec {A} (m : IO A) fs :
  rm_silent m → removed_paths (trace (exec m fs).1) = [].
Proof. intros Hm. unfold exec. by rewrite Hm. Qed.

Lemma skills_remove_removed projectRoot enableBackup t_backup now fs state registry :
  (exec (Cli.findManagerState env projectRoot) fs).2 = Ok (Some state) →
  (exec (Cli.loadRegistry env registryRoot) fs).2 = Ok registry →
  removed_paths
    (trace (exec (Cli.runSkillsAddRemove env registryRoot projectRoot Cli.Remove
                    enableBackup t_backup now) fs).1)
  = map (fun t => Path.join [projectRoot; t])
        (Cli.staleTargets (targetSet registry (selectionOf state))
                          (targetSet registry (afterSkillsRemove env registry state))).
Proof.
  unfold exec. intros Hst Hreg. unfold Cli.runSkillsAddRemove.
  rewrite bind_readonly, Hst by apply readonly_findManagerState.
  rewrite bind_readonly, Hreg by apply readonly_cli_loadRegistry.
  unfold afterSkillsRemove, pickedSkills, targetSet, selectionOf. cbn [fst snd].
  case_bool_decide as Hchoices.
  { apply (length_zero_nil _ ∘ bool_decide_eq_true_2 _) in Hchoices.
    rewrite Hchoices. simpl. rewrite filter_all by done.
    by rewrite staleTargets_self. }
  case_bool_decide as Hpicked.
  { apply (length_zero_nil _ ∘ bool_decide_eq_true_2 _) in Hpicked.
    rewrite Hpicked. simpl. rewrite filter_all by done.
    by rewrite staleTargets_self. }
  unfold bind at 1. unfold ret at 1.
  match goal with
  | |- context [bind (Cli.removeStaleOutputs ?r ?s ?b) ?k ?w] =>
      destruct (removeStaleOutputs_removed r s b w) as (w' & Hrm & Hpaths);
      rewrite (bind_ok _ _ _ _ _ Hrm)
  end.
  rewrite rm_silent_bind; [exact Hpaths | apply rm_silent_renderAll |].
  intros created. repeat rm_silent_step.
Qed.

Lemma harnesses_remove_removed projectRoot enableBackup t_backup now fs state registry :
  (exec (Cli.findManagerState env projectRoot) fs).2 = Ok (Some state) →
  (exec (Cli.loadRegistry env registryRoot) fs).2 = Ok registry →
  removed_paths
    (trace (exec (Cli.runHarnessesAddRemove env registryRoot projectRoot Cli.Remove
                    enableBackup t_backup now) fs).1)
  = map (fun t => Path.join [projectRoot; t])
        (Cli.staleTargets (targetSet registry (selectionOf state))
                          (targetSet registry (afterHarnessesRemove env registry state))).
Proof.
  unfold exec. intros Hst Hreg. unfold Cli.runHarnessesAddRemove.
  rewrite bind_readonly, Hst by apply readonly_findManagerState.
  rewrite bind_readonly, Hreg by apply readonly_cli_loadRegistry.
  unfold afterHarnessesRemove, pickedHarnesses, targetSet, selectionOf. cbn [fst snd].
  case_bool_decide as Hchoices.
  { apply (length_zero_nil _ ∘ bool_decide_eq_true_2 _) in Hchoices.
    rewrite Hchoices. simpl. rewrite filter_all by done.
    by rewrite staleTargets_self. }
  case_bool_decide as Hpicked.
  { apply (length_zero_nil _ ∘ bool_decide_eq_true_2 _) in Hpicked.
    rewrite Hpicked. simpl. rewrite filter_all by done.
    by rewrite staleTargets_self. }
  match goal with
  | |- context [bind (Cli.removeStaleOutputs ?r ?s ?b) ?k ?w] =>
      destruct (removeStaleOutputs_removed r s b w) as (w' & Hrm & Hpaths);
      rewrite (bind_ok _ _ _ _ _ Hrm)
  end.
  rewrite rm_silent_bind; [exact Hpaths | apply rm_silent_renderAll |].
  intros created. repeat rm_silent_step.
Qed.

Lemma skills_remove_without_state projectRoot enableBackup t_backup now fs :
  (exec (Cli.findManagerState env projectRoot) fs).2 = Ok None
  ∨ (∃ e, (exec (Cli.findManagerState env projectRoot) fs).2 = Err e)
  ∨ (∃ e, (exec (Cli.loadRegistry env registryRoot) fs).2 = Err e) →
  removed_paths
    (trace (exec (Cli.runSkillsAddRemove env registryRoot projectRoot Cli.Remove
                    enableBackup t_backup now) fs).1) = [].
Proof.
  unfold exec. intros Hnone. unfold Cli.runSkillsAddRemove.
  rewrite bind_readonly by apply readonly_findManagerState.
  destruct (Cli.findManagerState env projectRoot _).2 as [[state |] | e]; [| done ..].
  rewrite bind_readonly by apply readonly_cli_loadRegistry.
  destruct (Cli.loadRegistry env registryRoot _).2 as [registry | e]; [| done].
  destruct Hnone as [? | [[? ?] | [? ?]]]; done.
Qed.

Lemma harnesses_remove_without_state projectRoot enableBackup t_backup now fs :
  (exec (Cli.findManagerState env projectRoot) fs).2 = Ok None
  ∨ (∃ e, (exec (Cli.findManagerState env projectRoot) fs).2 = Err e)
  ∨ (∃ e, (exec (Cli.loadRegistry env registryRoot) fs).2 = Err e) →
  removed_paths
    (trace (exec (Cli.runHarnessesAddRemove env registryRoot projectRoot Cli.Remove
                    enableBackup t_backup now) fs).1) = [].
Proof.
  unfold exec. intros Hnone. unfold Cli.runHarnessesAddRemove.
  rewrite bind_readonly by apply readonly_findManagerState.
  destruct (Cli.findManagerState env projectRoot _).2 as [[state |] | e]; [| done ..].
  rewrite bind_readonly by apply readonly_cli_loadRegistry.
  destruct (Cli.loadRegistry env registryRoot _).2 as [registry | e]; [| done].
  destruct Hnone as [? | [[? ?] | [? ?]]]; done.
Qed.

(** C1, as the code has it.  From a persisted selection [S1], the
    paths a remove command deletes are the targets of [targetSet(S1)] that
    are not in [targetSet(S2)], each once and resolved against the project
    root, [S2] being the desired selection: the target sets are those of
    the specification, made of the declared outputs of the manifests and
    not of the files on disk, and they are compared as the strings the
    manifests declare.  The files deleted are therefore the files of
    [targetSet(S1)] that are not files of [targetSet(S2)] when no target
    of the one names the same file as a target of the other under another
    spelling.  Nothing else is ever deleted: a remove command that finds
    no state or no registry, the add commands and [init] delete
    nothing. *)
Theorem removal_is_target_set_difference
  (projectRoot : string) (enableBackup : bool) (t_backup now : string)
  (fs : gmap string string) :
  let removedBy (command : IO Cli.Outcome) := removed_paths (trace (exec command fs).1) in
  let skillsRemove :=
    Cli.runSkillsAddRemove env registryRoot projectRoot Cli.Remove enableBackup t_backup now in
  let harnessesRemove :=
    Cli.runHarnessesAddRemove env registryRoot projectRoot Cli.Remove
      enableBackup t_backup now in
  (∀ state registry,
     (exec (Cli.findManagerState env projectRoot) fs).2 = Ok (Some state) →
     (exec (Cli.loadRegistry env registryRoot) fs).2 = Ok registry →
     let T1 := spec_targetSet registry (selectionOf state) in
     let removes (command : IO Cli.Outcome) (T2 : gset string) :=
       (∃ stale,
          removedBy command = map (fun t => Path.join [projectRoot; t]) stale
          ∧ NoDup stale
          ∧ list_to_set stale = T1 ∖ T2)
       ∧ list_to_set (removedBy command) = targetFiles projectRoot (T1 ∖ T2)
       ∧ ((∀ t1 t2, t1 ∈ T1 → t2 ∈ T2 →
                    Path.join [projectRoot; t1] = Path.join [projectRoot; t2] → t1 = t2) →
          list_to_set (removedBy command)
          = targetFiles projectRoot T1 ∖ targetFiles projectRoot T2) in
     removes skillsRemove (spec_targetSet registry (afterSkillsRemove env registry state))
     ∧ removes harnessesRemove
         (spec_targetSet registry (afterHarnessesRemove env registry state)))
  ∧ ((exec (Cli.findManagerState env projectRoot) fs).2 = Ok None
     ∨ (∃ e, (exec (Cli.findManagerState env projectRoot) fs).2 = Err e)
     ∨ (∃ e, (exec (Cli.loadRegistry env registryRoot) fs).2 = Err e) →
     removedBy skillsRemove = [] ∧ removedBy harnessesRemove = [])
  ∧ removedBy (Cli.runSkillsAddRemove env registryRoot projectRoot Cli.Add
                 enableBackup t_backup now) = []
  ∧ removedBy (Cli.runHarnessesAddRemove env registryRoot projectRoot Cli.Add
                 enableBackup t_backup now) = []
  ∧ removedBy (Cli.initAction env registryRoot projectRoot enableBackup t_backup now) = [].
Proof.
  intros removedBy skillsRemove harnessesRemove.
  subst removedBy skillsRemove harnessesRemove. split_and!.
  - intros state registry Hst Hreg T1 removes. subst T1 removes. cbv beta.
    apply loadRegistry_exec in Hreg as Hload.
    apply loadRegistry_NoDup in Hload as [Hs Hh].
    assert (∀ (removed stale : list string) (T1 T2 : gset string),
              removed = map (fun t => Path.join [projectRoot; t]) stale →
              NoDup stale → list_to_set stale = T1 ∖ T2 →
              (∃ stale,
                 removed = map (fun t => Path.join [projectRoot; t]) stale
                 ∧ NoDup stale ∧ list_to_set stale = T1 ∖ T2)
              ∧ list_to_set removed = targetFiles projectRoot (T1 ∖ T2)
              ∧ ((∀ t1 t2, t1 ∈ T1 → t2 ∈ T2 →
                           Path.join [projectRoot; t1] = Path.join [projectRoot; t2] →
                           t1 = t2) →
                 list_to_set removed
                 = targetFiles projectRoot T1 ∖ targetFiles projectRoot T2)) as Hremoves.
    { intros removed stale T1 T2 -> Hnd Hset.
      assert ((list_to_set (map (fun t => Path.join [projectRoot; t]) stale) : gset string)
              = targetFiles projectRoot (T1 ∖ T2)) as Hfiles.
      { rewrite <- Hset. apply set_eq. intros p. unfold targetFiles.
        rewrite elem_of_list_to_set, elem_of_map, fin_sets.elem_of_map.
        by setoid_rewrite elem_of_list_to_set. }
      split_and!; [by exists stale | done |].
      intros Hinj. by rewrite Hfiles, targetFiles_difference. }
    split.
    + eapply Hremoves;
        [by apply skills_remove_removed | apply staleTargets_NoDup | by apply stale_difference].
    + eapply Hremoves;
        [by apply harnesses_remove_removed | apply staleTargets_NoDup
        | by apply stale_difference].
  - intros Hnone. split.
    + by apply skills_remove_without_state.
    + by apply harnesses_remove_without_state.
  - apply rm_silent_exec, rm_silent_skills_add.
  - apply rm_silent_exec, rm_silent_harnesses_add.
  - apply rm_silent_exec, rm_silent_initAction.
Qed.

(** The tail of the add and remove commands is the reconciliation. *)
Lemma skills_command_reconciles projectRoot registry state updatedSkills backup now w :
  bind (Cli.renderAll env registryRoot projectRoot (skills registry) (harnesses registry)
          updatedSkills (st_harnesses state) backup)
       (fun createdFiles =>
          bind (Cli.writeState env projectRoot (with_skills state now updatedSkills) backup)
               (fun _ => ret (Cli.Updated createdFiles))) w
  = bind (reconcile env registryRoot projectRoot registry state
            updatedSkills (st_harnesses state) backup now)
         (fun createdFiles => ret (Cli.Updated createdFiles)) w.
Proof.
  unfold reconcile, bind.
  destruct (Cli.renderAll _ _ _ _ _ _ _ _ w) as [w1 [createdFiles | e]]; [| done].
  change (nextState state now updatedSkills (st_harnesses state))
    with (with_skills state now updatedSkills).
  by destruct (Cli.writeState _ _ _ _ w1) as [w2 [statePath | e]].
Qed.

Lemma harnesses_command_reconciles projectRoot registry state updatedHarnesses backup now w :
  bind (Cli.renderAll env registryRoot projectRoot (skills registry) (harnesses registry)
          (st_skills state) updatedHarnesses backup)
       (fun createdFiles =>
          bind (Cli.writeState env projectRoot (with_harnesses state now updatedHarnesses)
                  backup)
               (fun _ => ret (Cli.Updated createdFiles))) w
  = bind (reconcile env registryRoot projectRoot registry state
            (st_skills state) updatedHarnesses backup now)
         (fun createdFiles => ret (Cli.Updated createdFiles)) w.
Proof.
  unfold reconcile, bind.
  destruct (Cli.renderAll _ _ _ _ _ _ _ _ w) as [w1 [createdFiles | e]]; [| done].
  change (nextState state now (st_skills state) updatedHarnesses)
    with (with_harnesses state now updatedHarnesses).
  by destruct (Cli.writeState _ _ _ _ w1) as [w2 [statePath | e]].
Qed.

(** *** Initialisation *)

Lemma join_ai_agents projectRoot :
  Path.join [projectRoot; "ai/agents.md"] = Path.join [projectRoot; "ai"; "agents.md"].
Proof.
  unfold Path.join. rewrite !filter_cons, !filter_nil.
  destruct (decide (projectRoot ≠ "")); repeat case_decide; try done.
Qed.

Lemma replay_keeps ops fs p :
  removed_paths ops = [] → is_Some (fs !! p) → is_Some (replay ops fs !! p).
Proof.
  revert fs. induction ops as [| op ops IH]; intros fs Hrm Hp; [done |].
  destruct op as [dir | q d | q]; simpl in *; try discriminate.
  - by apply IH.
  - apply IH; [done |]. rewrite lookup_insert. case_decide; [done | exact Hp].
Qed.

Lemma keeps_files_writes_only {A} nb (m : IO A) g r : writes_only nb m g r → keeps_files m.
Proof.
  intros Hm w p Hp. destruct (Hm w) as (ops & He & _ & Hr & _).
  unfold effects in He. rewrite He. simpl. by apply replay_keeps.
Qed.

Lemma keeps_files_deterministic {A} (m : BackupOptions → IO A) backup :
  deterministic m → keeps_files (m backup).
Proof. intros (g & r & H). eapply keeps_files_writes_only, H. Qed.

Lemma writeFileAlways_lookup targetPath contents backup w :
  files (writeFileAlways targetPath contents backup w).1 !! targetPath = Some contents.
Proof.
  pose proof (writeFileAlways_effects targetPath contents backup w) as He.
  unfold effects in He. rewrite He. simpl. rewrite replay_app. simpl.
  apply lookup_insert_eq.
Qed.

Lemma writeState_lookup projectRoot state backup w :
  files (Cli.writeState env projectRoot state backup w).1
    !! Path.join [projectRoot; "ai"; "ai-manager.json"]
  = Some (json_stringify env state +:+ nl).
Proof.
  unfold Cli.writeState, Cli.writeJsonFile, bind.
  pose proof (writeFileAlways_lookup (Path.join [projectRoot; "ai"; "ai-manager.json"])
                (json_stringify env state +:+ nl) backup w) as H.
  destruct (writeFileAlways _ _ backup w) as [w' [[] | e]]; exact H.
Qed.

Lemma renderAll_agents_written projectRoot skills harnesses sk hs backup w w' created :
  Cli.renderAll env registryRoot projectRoot skills harnesses sk hs backup w
  = (w', Ok created) →
  is_Some (files w' !! Path.join [projectRoot; "ai"; "agents.md"]).
Proof.
  unfold Cli.renderAll. intros (w1 & contents & _ & H)%bind_inv_ok.
  apply bind_inv_ok in H as (w2 & agentsTarget & Hagents & H).
  assert (is_Some (files w2 !! Path.join [projectRoot; "ai"; "agents.md"])) as Hw2.
  { unfold Renderer.writeRenderedOutput in Hagents.
    apply bind_inv_ok in Hagents as (w1' & rendered & _ & Hwrite).
    apply bind_inv_ok in Hwrite as (w1'' & [] & Hwrite & Hret).
    injection Hret as -> _.
    pose proof (writeFileAlways_lookup
                  (Path.join [projectRoot; target (mkOutput "ai/agents.md"
                                                     "templates/agents.generated.md.hbs")])
                  rendered backup w1') as Hl.
    rewrite Hwrite in Hl. simpl in Hl. rewrite join_ai_agents in Hl. by rewrite Hl. }
  apply bind_inv_ok in H as (w3 & fromSkills & Hskills & H).
  apply bind_inv_ok in H as (w4 & fromHarnesses & Hharnesses & Hret).
  injection Hret as -> _.
  assert (is_Some (files w3 !! Path.join [projectRoot; "ai"; "agents.md"])) as Hw3.
  { pose proof (keeps_files_deterministic
                  (fun backup => for_of sk (Cli.renderSkillOutputs env registryRoot
                                              projectRoot skills backup)) backup) as Hk.
    specialize (Hk (deterministic_for_of _ (fun selected backup => _)
                      (deterministic_renderSkillOutputs env registryRoot projectRoot skills))).
    specialize (Hk w2 _ Hw2). cbv beta in Hk. by rewrite Hskills in Hk. }
  pose proof (keeps_files_deterministic
                (fun backup => for_of hs (Cli.renderHarnessOutputs env registryRoot
                                            projectRoot harnesses backup)) backup) as Hk.
  specialize (Hk (deterministic_for_of _ (fun selected backup => _)
                    (deterministic_renderHarnessOutputs env registryRoot projectRoot
                       harnesses))).
  specialize (Hk w3 _ Hw3). cbv beta in Hk. by rewrite Hharnesses in Hk.
Qed.

(** What a completed [runInit] leaves: the outcome, the agents document,
    and a state created at [now]. *)
Lemma runInit_completed projectRoot enableBackup t_backup now w w' out :
  Cli.runInit env registryRoot projectRoot enableBackup t_backup now w = (w', Ok out) →
  is_Some (files w' !! Path.join [projectRoot; "ai"; "agents.md"])
  ∧ ∃ selectedSkills selectedHarnesses createdFiles,
      out = Cli.InitComplete createdFiles (Path.join [projectRoot; "ai"; "ai-manager.json"])
      ∧ files w' !! Path.join [projectRoot; "ai"; "ai-manager.json"]
        = Some (json_stringify env
                  (mkState Cli.CURRENT_VERSION now now projectRoot
                     (Cli.scanProjectFacts projectRoot (readdir env projectRoot))
                     selectedSkills selectedHarnesses) +:+ nl).
Proof.
  unfold Cli.runInit. intros (w1 & registry & _ & H)%bind_inv_ok.
  apply bind_inv_ok in H as (w2 & selectedSkills & _ & H).
  apply bind_inv_ok in H as (w3 & createdFiles & Hrender & H).
  apply bind_inv_ok in H as (w4 & statePath & Hstate & Hret).
  injection Hret as -> <-.
  pose proof (writeState_lookup projectRoot
                (mkState Cli.CURRENT_VERSION now now projectRoot
                   (Cli.scanProjectFacts projectRoot (readdir env projectRoot))
                   selectedSkills
                   (map (fun id => mkSelectedHarness id (Cli.harnessVersion registry id))
                        (Cli.selectHarnesses env (harnesses registry))))
                (Cli.buildBackupOptions projectRoot enableBackup t_backup) w3) as Hl.
  pose proof (keeps_files_writes_only _ _ _ _
                (writeState_writes_only env projectRoot
                   (mkState Cli.CURRENT_VERSION now now projectRoot
                      (Cli.scanProjectFacts projectRoot (readdir env projectRoot))
                      selectedSkills
                      (map (fun id => mkSelectedHarness id (Cli.harnessVersion registry id))
                           (Cli.selectHarnesses env (harnesses registry))))
                   (Cli.buildBackupOptions projectRoot enableBackup t_backup))
                w3 _ (renderAll_agents_written _ _ _ _ _ _ _ _ _ Hrender)) as Hk.
  rewrite Hstate in Hl, Hk. simpl in Hl, Hk.
  split; [exact Hk |].
  exists selectedSkills. eexists. exists createdFiles. split; [| exact Hl].
  f_equal. unfold Cli.writeState in Hstate.
  apply bind_inv_ok in Hstate as (? & ? & _ & Hret). by injection Hret as _ ->.
Qed.

Lemma initAction_guard projectRoot enableBackup t_backup now fs :
  exec (Cli.initAction env registryRoot projectRoot enableBackup t_backup now) fs
  = if bool_decide (is_Some (fs !! Path.join [projectRoot; "ai"; "agents.md"]))
       && bool_decide (is_Some (fs !! Path.join [projectRoot; "ai"; "ai-manager.json"]))
    then (mkWorld fs [], Ok Cli.AlreadyInitialized)
    else exec (Cli.runInit env registryRoot projectRoot enableBackup t_backup now) fs.
Proof.
  unfold exec, Cli.initAction.
  rewrite bind_readonly, isInited_result by apply readonly_isInited. simpl.
  by destruct (_ && _).
Qed.

(** C7. When [ai/agents.md] and [ai/ai-manager.json] both exist, [init]
    is refused: it reports that the project is already initialised and
    issues no call that writes or removes a file; this is so, in
    particular, after any [init] that ran to its end. *)
Theorem init_refused_when_initialized
  (projectRoot : string) (enableBackup : bool) (t_backup now : string) :
  (∀ fs,
     is_Some (fs !! Path.join [projectRoot; "ai"; "agents.md"]) →
     is_Some (fs !! Path.join [projectRoot; "ai"; "ai-manager.json"]) →
     exec (Cli.initAction env registryRoot projectRoot enableBackup t_backup now) fs
     = (mkWorld fs [], Ok Cli.AlreadyInitialized))
  ∧ (∀ enableBackup0 t_backup0 now0 fs0 w1 out,
       exec (Cli.initAction env registryRoot projectRoot enableBackup0 t_backup0 now0) fs0
       = (w1, Ok out) →
       exec (Cli.initAction env registryRoot projectRoot enableBackup t_backup now)
            (files w1)
       = (mkWorld (files w1) [], Ok Cli.AlreadyInitialized)).
Proof.
  assert (∀ fs,
     is_Some (fs !! Path.join [projectRoot; "ai"; "agents.md"]) →
     is_Some (fs !! Path.join [projectRoot; "ai"; "ai-manager.json"]) →
     exec (Cli.initAction env registryRoot projectRoot enableBackup t_backup now) fs
     = (mkWorld fs [], Ok Cli.AlreadyInitialized)) as Hrefused.
  { intros fs Hagents Hstate. rewrite initAction_guard.
    by rewrite !bool_decide_eq_true_2. }
  split; [exact Hrefused |].
  intros enableBackup0 t_backup0 now0 fs0 w1 out. rewrite initAction_guard.
  destruct (bool_decide (is_Some (fs0 !! Path.join [projectRoot; "ai"; "agents.md"])))
    eqn:Hagents;
    [destruct (bool_decide (is_Some (fs0 !! Path.join [projectRoot; "ai"; "ai-manager.json"])))
       eqn:Hstate |]; simpl.
  - intros [= <- <-]. simpl.
    apply Hrefused; by eapply bool_decide_eq_true_1.
  - intros (Ha & ? & ? & ? & _ & Hs)%runInit_completed.
    apply Hrefused; [done | by rewrite Hs].
  - intros (Ha & ? & ? & ? & _ & Hs)%runInit_completed.
    apply Hrefused; [done | by rewrite Hs].
Qed.

(** C10. When exactly one of [ai/agents.md] and [ai/ai-manager.json]
    exists, the guard of [init] does not fire: [init] runs.  With the
    registry loaded, the prompts answered, the documents written and the
    state written, it reports completion, and the state file then holds
    a fresh state, created at the current time and made of the ticked
    selection alone, whatever state was persisted before. *)
Theorem init_proceeds_on_partial_marker
  (projectRoot : string) (enableBackup : bool) (t_backup now : string)
  (fs : gmap string string) (registry : Registry) (selectedSkills : list SelectedSkill)
  (createdFiles : list string) (written : string) (w1 w2 : World) :
  let agentsPath := Path.join [projectRoot; "ai"; "agents.md"] in
  let statePath := Path.join [projectRoot; "ai"; "ai-manager.json"] in
  let backup := Cli.buildBackupOptions projectRoot enableBackup t_backup in
  let selectedHarnesses :=
    map (fun id => mkSelectedHarness id (Cli.harnessVersion registry id))
        (Cli.selectHarnesses env (harnesses registry)) in
  let fresh :=
    mkState Cli.CURRENT_VERSION now now projectRoot
      (Cli.scanProjectFacts projectRoot (readdir env projectRoot))
      selectedSkills selectedHarnesses in
  ((exec (pathExists agentsPath) fs).2 = Ok true
   ∧ (exec (pathExists statePath) fs).2 = Ok false)
  ∨ ((exec (pathExists agentsPath) fs).2 = Ok false
     ∧ (exec (pathExists statePath) fs).2 = Ok true) →
  (exec (Cli.loadRegistry env registryRoot) fs).2 = Ok registry →
  (exec (Cli.askSelected env registry projectRoot
           (Cli.selectSkills env (skills registry))) fs).2 = Ok selectedSkills →
  exec (Cli.renderAll env registryRoot projectRoot (skills registry) (harnesses registry)
          selectedSkills selectedHarnesses backup) fs = (w1, Ok createdFiles) →
  Cli.writeState env projectRoot fresh backup w1 = (w2, Ok written) →
  exec (Cli.initAction env registryRoot projectRoot enableBackup t_backup now) fs
  = exec (Cli.runInit env registryRoot projectRoot enableBackup t_backup now) fs
  ∧ exec (Cli.initAction env registryRoot projectRoot enableBackup t_backup now) fs
    = (w2, Ok (Cli.InitComplete createdFiles statePath))
  ∧ files w2 !! statePath = Some (json_stringify env fresh +:+ nl)
  ∧ createdAt fresh = now.
Proof.
  intros agentsPath statePath backup selectedHarnesses fresh
    Hpartial Hreg Hask Hrender Hstate.
  assert (exec (Cli.initAction env registryRoot projectRoot enableBackup t_backup now) fs
          = exec (Cli.runInit env registryRoot projectRoot enableBackup t_backup now) fs)
    as Hguard.
  { rewrite initAction_guard. fold agentsPath statePath.
    unfold exec, pathExists in Hpartial. cbn [fst snd files] in Hpartial.
    destruct Hpartial as [[_ [= ->]] | [[= ->] _]]; [by rewrite andb_false_r | done]. }
  assert (written = statePath) as ->.
  { unfold Cli.writeState in Hstate.
    apply bind_inv_ok in Hstate as (? & ? & _ & Hret). by injection Hret as _ <-. }
  split; [exact Hguard |]. split_and!; [| | done].
  - rewrite Hguard. unfold exec in *. unfold Cli.runInit.
    rewrite bind_readonly, Hreg by apply readonly_cli_loadRegistry.
    rewrite bind_readonly, Hask by apply readonly_askSelected.
    fold backup selectedHarnesses.
    rewrite (bind_ok _ _ _ _ _ Hrender). fold fresh.
    by rewrite (bind_ok _ _ _ _ _ Hstate).
  - pose proof (writeState_lookup projectRoot fresh backup w1) as Hl.
    by rewrite Hstate in Hl.
Qed.

(** *** Selected ids without a manifest *)

Lemma findSkill_None skills id :
  findSkill skills id = None ↔ id ∉ map skill_id skills.
Proof.
  unfold findSkill, Js.find. split.
  - intros Hnone (skill & -> & Hin)%elem_of_map.
    apply list_elem_of_In in Hin.
    pose proof (find_none _ _ Hnone skill Hin) as H. simpl in H.
    by rewrite bool_decide_eq_true_2 in H.
  - intros Hnin. destruct (List.find _ skills) as [skill |] eqn:Hf; [| done].
    apply find_some in Hf as [Hin Hid]. apply bool_decide_eq_true in Hid.
    exfalso. apply Hnin, elem_of_map. exists skill. by rewrite list_elem_of_In.
Qed.

Lemma findHarness_None harnesses id :
  findHarness harnesses id = None ↔ id ∉ map harness_id harnesses.
Proof.
  unfold findHarness, Js.find. split.
  - intros Hnone (harness & -> & Hin)%elem_of_map.
    apply list_elem_of_In in Hin.
    pose proof (find_none _ _ Hnone harness Hin) as H. simpl in H.
    by rewrite bool_decide_eq_true_2 in H.
  - intros Hnin. destruct (List.find _ harnesses) as [harness |] eqn:Hf; [| done].
    apply find_some in Hf as [Hin Hid]. apply bool_decide_eq_true in Hid.
    exfalso. apply Hnin, elem_of_map. exists harness. by rewrite list_elem_of_In.
Qed.





(** The tail of the add and remove commands leaves the state it is
    given in the state file. *)
Lemma render_then_persist projectRoot skills harnesses sk hs backup state' w w' out :
  bind (Cli.renderAll env registryRoot projectRoot skills harnesses sk hs backup)
       (fun createdFiles =>
          bind (Cli.writeState env projectRoot state' backup)
               (fun _ => ret (Cli.Updated createdFiles))) w
  = (w', Ok out) →
  files w' !! Path.join [projectRoot; "ai"; "ai-manager.json"]
  = Some (json_stringify env state' +:+ nl).
Proof.
  intros (w1 & createdFiles & _ & H)%bind_inv_ok.
  apply bind_inv_ok in H as (w2 & statePath & Hstate & Hret).
  injection Hret as -> _.
  pose proof (writeState_lookup projectRoot state' backup w1) as Hl.
  by rewrite Hstate in Hl.
Qed.




(** *** Backups *)



































End CommandProps.

(** ** The agents document *)

Section AgentsProps.

Variable env : Env.

Lemma buildSkillIndexTable_placeholder (skills : list SkillManifest) :
  Agents.buildSkillIndexTable skills = "No skills selected." ↔ skills = [].
Proof.
  split; [| by intros ->].
  destruct skills as [| skill skills]; [done |].
  unfold Agents.buildSkillIndexTable. simpl.
  rewrite append_cons. discriminate.
Qed.

Lemma bullet_is_none (h rest : string) : h +:+ nl +:+ rest ≠ "None".
Proof.
  unfold nl.
  do 4 (destruct h as [| ? h]; [rewrite append_nil, ?append_cons; discriminate |];
        rewrite append_cons; intros [= -> H]; revert H).
  destruct h; discriminate.
Qed.

Lemma harnessNotes_none (input : Agents.AgentsAssemblyInput) :
  Agents.harnessNotes input = "- None"
  ↔ Agents.in_harnesses input = [] ∨ Agents.in_harnesses input = ["None"].
Proof.
  unfold Agents.harnessNotes.
  destruct (Agents.in_harnesses input) as [| h [| h' rest]]; simpl.
  - split; [by left | done].
  - rewrite !append_cons, append_nil. split.
    + intros [= ->]. by right.
    + by intros [? | [= ->]].
  - split; [| by intros [? | ?]].
    rewrite !append_cons, append_nil. intros [= H]. exfalso.
    by apply bullet_is_none in H.
Qed.

Lemma promise_all_Forall2 {A B} (f : A → IO B) (xs : list A) w w' (ys : list B) :
  (∀ x, readonly (f x)) →
  promise_all (map f xs) w = (w', Ok ys) →
  Forall2 (fun x y => (f x w).2 = Ok y) xs ys.
Proof.
  intros Hf. revert w' ys. induction xs as [| x xs IH]; intros w' ys; simpl.
  - intros [= _ <-]. constructor.
  - rewrite bind_readonly by apply Hf.
    destruct (f x w).2 as [y |] eqn:Hy; [| done].
    intros (w1 & ys' & Hrest & Hret)%bind_inv_ok.
    injection Hret as _ <-.
    assert (w1 = w) as ->.
    { assert (readonly (promise_all (map f xs))) as Hro.
      { apply readonly_promise_all, Forall_forall.
        intros p (x' & -> & _)%elem_of_map. apply Hf. }
      specialize (Hro w). by rewrite Hrest in Hro. }
    constructor; [done | by eapply IH].
Qed.

Lemma selectedSkills_membership (input : Agents.AgentsAssemblyInput) (ids : list string) :
  (∀ id, id ∈ Agents.selectedSkillIds input ↔ id ∈ ids) →
  Agents.selectedSkills
    (Agents.mkInput (Agents.projectName input) (Agents.in_harnesses input)
       (Agents.in_skills input) ids (Agents.skillAnswers input)
       (Agents.registryRoot input))
  = Agents.selectedSkills input.
Proof.
  intros Hids. unfold Agents.selectedSkills. simpl.
  apply filter_ext. intros skill. unfold Js.includes.
  apply bool_decide_ext. by rewrite Hids.
Qed.

(** C8, as the code has it. The context of the agents document holds
    the placeholder for the index table exactly when no skill of the
    registry is selected; its harness notes are the bullet list of the
    harness ids, and ["- None"] when there is none, so they read
    ["- None"] exactly for the empty list and for the one harness id
    ["None"]; the guides are the snippets of the selected skills other
    than the planner, joined by a blank line in the order of the input
    skill list, whatever the order of the selected ids. *)
Theorem agents_document_shape (input : Agents.AgentsAssemblyInput) (w : World) :
  (Agents.buildSkillIndexTable (Agents.selectedSkills input) = "No skills selected."
   ↔ Agents.selectedSkills input = [])
  ∧ (Agents.harnessNotes input = "- None"
     ↔ Agents.in_harnesses input = [] ∨ Agents.in_harnesses input = ["None"])
  ∧ Agents.guideSkills input
    = List.filter (fun skill => negb (bool_decide (skill_id skill = "planner")))
        (List.filter (fun skill => Js.includes (Agents.selectedSkillIds input) (skill_id skill))
           (Agents.in_skills input))
  ∧ (∀ ids, (∀ id, id ∈ Agents.selectedSkillIds input ↔ id ∈ ids) →
            Agents.guideSkills
              (Agents.mkInput (Agents.projectName input) (Agents.in_harnesses input)
                 (Agents.in_skills input) ids (Agents.skillAnswers input)
                 (Agents.registryRoot input))
            = Agents.guideSkills input)
  ∧ (∀ context,
       (Agents.templateContext env input w).2 = Ok context →
       ∃ snippets rules planSection,
         context = CtxAgents (Agents.projectName input) (Agents.harnessNotes input)
                     planSection
                     (Agents.buildSkillIndexTable (Agents.selectedSkills input))
                     (Js.join (nl +:+ nl) snippets) (Js.join (nl +:+ nl) rules)
         ∧ Forall2 (fun skill snippet =>
                      (Agents.renderSnippet env input skill w).2 = Ok snippet)
                   (Agents.guideSkills input) snippets)
  ∧ Agents.buildAgentsMarkdown env input w
    = match (Agents.templateContext env input w).2 with
      | Ok context =>
          Renderer.renderTemplateFile env
            (Path.join [Agents.registryRoot input; "templates"; "agents.base.md.hbs"])
            context w
      | Err e => (w, Err e)
      end.
Proof.
  split_and!.
  - apply buildSkillIndexTable_placeholder.
  - apply harnessNotes_none.
  - done.
  - intros ids Hids. unfold Agents.guideSkills. by rewrite selectedSkills_membership.
  - intros context. destruct (Agents.templateContext env input w) as [w' r] eqn:Hctx.
    simpl. intros ->. unfold Agents.templateContext in Hctx.
    apply bind_inv_ok in Hctx as (w1 & snippets & Hsnippets & H).
    apply bind_inv_ok in H as (w2 & rules & _ & H).
    apply bind_inv_ok in H as (w3 & planSection & _ & Hret).
    injection Hret as _ <-.
    exists snippets, rules, planSection. split; [done |].
    eapply promise_all_Forall2; [| exact Hsnippets].
    intros skill. apply pure_io_readonly, pure_renderTemplateFile.
  - unfold Agents.buildAgentsMarkdown.
    by rewrite bind_readonly by apply pure_io_readonly, pure_templateContext.
Qed.

End AgentsProps.

(** * Further properties of the code *)

(** ** Project facts *)

Section FactsProps.

(** X1. [scanProjectFacts] returns nothing exactly when the project root has no
    directory, no lock file and no [tsconfig*.json]; otherwise the package
    manager is the first of pnpm, yarn, npm, bun whose lock file is a file of
    the root, and a field is absent rather than an empty list. *)
Theorem scanProjectFacts_precedence (projectRoot : string) (entries : list Dirent) :
  let fileNames := map d_name (List.filter d_isFile entries) in
  let dirs := map d_name (List.filter d_isDirectory entries) in
  let tsconfigs :=
    List.filter (fun name => Js.startsWith name "tsconfig" && Js.endsWith name ".json")
                fileNames in
  (Cli.scanProjectFacts projectRoot entries = None
   ↔ dirs = [] ∧ tsconfigs = []
     ∧ ("pnpm-lock.yaml" ∉ fileNames) ∧ ("yarn.lock" ∉ fileNames)
     ∧ ("package-lock.json" ∉ fileNames) ∧ ("bun.lockb" ∉ fileNames))
  ∧ ∀ facts, Cli.scanProjectFacts projectRoot entries = Some facts →
      ("pnpm-lock.yaml" ∈ fileNames → packageManager facts = Some "pnpm")
      ∧ (("pnpm-lock.yaml" ∉ fileNames) → "yarn.lock" ∈ fileNames →
         packageManager facts = Some "yarn")
      ∧ (("pnpm-lock.yaml" ∉ fileNames) → ("yarn.lock" ∉ fileNames) →
         "package-lock.json" ∈ fileNames → packageManager facts = Some "npm")
      ∧ (("pnpm-lock.yaml" ∉ fileNames) → ("yarn.lock" ∉ fileNames) →
         ("package-lock.json" ∉ fileNames) → "bun.lockb" ∈ fileNames →
         packageManager facts = Some "bun")
      ∧ (("pnpm-lock.yaml" ∉ fileNames) → ("yarn.lock" ∉ fileNames) →
         ("package-lock.json" ∉ fileNames) → ("bun.lockb" ∉ fileNames) →
         packageManager facts = None)
      ∧ (directories facts = if bool_decide (dirs = []) then None else Some dirs)
      ∧ (tsconfigPaths facts
         = if bool_decide (tsconfigs = []) then None
           else Some (map (fun name => Path.join [projectRoot; name]) tsconfigs)).
Proof.
  intros fileNames dirs tsconfigs.
  unfold Cli.scanProjectFacts, Js.includes.
  fold fileNames dirs tsconfigs.
  rewrite length_map.
  assert (∀ {A} (l : list A), bool_decide (List.length l = 0) = bool_decide (l = [])) as Hlen.
  { intros A l. apply bool_decide_ext. by destruct l. }
  rewrite !Hlen.
  split.
  - repeat case_bool_decide; split; try done; try (intros (? & ? & ? & ? & ? & ?); done);
      intros _; done.
  - intros facts.
    repeat case_bool_decide; intros [= <-]; simpl; split_and!; try done.
Qed.

End FactsProps.

(** ** Loading the registry: all or nothing *)

Section LoaderProps.

Variable localeCompare : string → string → Z.
Variable listDirectories : string → Result (list string).
Variable readSkillManifest : string → Result SkillManifest.
Variable readHarnessManifest : string → Result HarnessManifest.

Lemma promise_all_lift_ok {A B} (f : A → Result B) (xs : list A) (ys : list B) w :
  Forall2 (fun x y => f x = Ok y) xs ys →
  promise_all (map (fun x => lift (f x)) xs) w = (w, Ok ys).
Proof.
  induction 1 as [| x y xs ys Hx _ IH]; [done |].
  simpl. unfold bind at 1, lift at 1. rewrite Hx.
  unfold bind at 1. by rewrite IH.
Qed.

Lemma promise_all_lift_err {A B} (f : A → Result B) (xs : list A) w :
  (∃ x e, x ∈ xs ∧ f x = Err e) →
  ∃ x e, x ∈ xs ∧ f x = Err e ∧ promise_all (map (fun x => lift (f x)) xs) w = (w, Err e).
Proof.
  induction xs as [| x xs IH]; intros (x0 & e0 & Hin & Hx0).
  { by apply elem_of_nil in Hin. }
  simpl. unfold bind at 1, lift at 1.
  destruct (f x) as [y | e] eqn:Hx.
  - assert (x0 ∈ xs) as Hin'.
    { apply elem_of_cons in Hin as [-> | ?]; [congruence | done]. }
    destruct IH as (x1 & e1 & Hin1 & Hx1 & Hall); [by eauto |].
    exists x1, e1. split_and!; [by right | done |].
    unfold bind at 1. by rewrite Hall.
  - exists x, e. split_and!; [by left | done | done].
Qed.

Lemma promise_all_lift_inv {A B} (f : A → Result B) (xs : list A) (ys : list B) w w' :
  promise_all (map (fun x => lift (f x)) xs) w = (w', Ok ys) →
  Forall2 (fun x y => f x = Ok y) xs ys.
Proof.
  revert ys w'. induction xs as [| x xs IH]; intros ys w'; simpl.
  { unfold ret. intros [= _ <-]. by apply Forall2_nil. }
  unfold bind at 1, lift at 1. destruct (f x) as [y | e] eqn:Hx; [| done].
  unfold bind at 1. destruct (promise_all _ w) as [w1 [ys' |]] eqn:Hall; [| done].
  unfold ret. intros [= _ <-]. apply Forall2_cons. split; [done | by eapply IH].
Qed.

(** X2. [loadSkills] returns a list only when the directory listing and the
    manifest of every listed directory were read: the list is then the
    manifests read, each once, in sorted order.  When the listing fails it
    fails with that error, and when manifests cannot be read or parsed it
    fails with the error of one of them.  [loadRegistry] then fails as
    well, with this error when the harnesses load; nothing is written
    either way. *)
Theorem loadSkills_all_or_nothing (registryRoot : string) (w : World) :
  let skillsRoot := Path.join [registryRoot; "skills"] in
  let manifestOf dir := readSkillManifest (Path.join [skillsRoot; dir; "skill.json"]) in
  let loadSkills :=
    RegistryLoader.loadSkills localeCompare listDirectories readSkillManifest in
  let loadHarnesses :=
    RegistryLoader.loadHarnesses localeCompare listDirectories readHarnessManifest in
  let loadRegistry :=
    RegistryLoader.loadRegistry localeCompare listDirectories
      readSkillManifest readHarnessManifest in
  (∀ manifests,
     loadSkills registryRoot w = (w, Ok manifests)
     ↔ ∃ dirs raw,
         listDirectories skillsRoot = Ok dirs
         ∧ Forall2 (fun dir manifest => manifestOf dir = Ok manifest) dirs raw
         ∧ manifests = Js.sort (fun a b => localeCompare (skill_id a) (skill_id b)) raw
         ∧ Permutation raw manifests)
  ∧ (∀ e, listDirectories skillsRoot = Err e → loadSkills registryRoot w = (w, Err e))
  ∧ (∀ dirs,
       listDirectories skillsRoot = Ok dirs →
       (∃ dir e, dir ∈ dirs ∧ manifestOf dir = Err e) →
       ∃ dir e, dir ∈ dirs ∧ manifestOf dir = Err e
                ∧ loadSkills registryRoot w = (w, Err e))
  ∧ (∀ e, loadSkills registryRoot w = (w, Err e) →
          ∃ e', loadRegistry registryRoot w = (w, Err e')
                ∧ ∀ harnesses, loadHarnesses registryRoot w = (w, Ok harnesses) → e' = e).
Proof.
  intros skillsRoot manifestOf loadSkills loadHarnesses loadRegistry.
  assert (loadSkills registryRoot w
          = match listDirectories skillsRoot with
            | Ok dirs =>
                match promise_all (map (fun dir => lift (manifestOf dir)) dirs) w with
                | (w1, Ok raw) =>
                    (w1, Ok (Js.sort (fun a b => localeCompare (skill_id a) (skill_id b)) raw))
                | (w1, Err e) => (w1, Err e)
                end
            | Err e => (w, Err e)
            end) as Hload.
  { unfold loadSkills, RegistryLoader.loadSkills. cbv zeta.
    unfold bind at 1, lift at 1. fold skillsRoot.
    destruct (listDirectories skillsRoot) as [dirs | e]; [| done].
    unfold bind at 1. by destruct (promise_all _ w) as [w1 [raw |]]. }
  split_and!.
  - intros manifests. rewrite Hload. split.
    + destruct (listDirectories skillsRoot) as [dirs | e]; [| done].
      destruct (promise_all _ w) as [w1 [raw |]] eqn:Hall; [| done].
      intros [= _ <-]. exists dirs, raw. split_and!; [done | | done |].
      * by eapply (promise_all_lift_inv manifestOf).
      * apply sort_Permutation.
    + intros (dirs & raw & Hdirs & Hraw & -> & _).
      by rewrite Hdirs, (promise_all_lift_ok manifestOf dirs raw w Hraw).
  - intros e He. by rewrite He in Hload.
  - intros dirs Hdirs Hbad.
    destruct (promise_all_lift_err manifestOf dirs w Hbad) as (dir & e & Hin & He & Hall).
    exists dir, e. rewrite Hdirs, Hall in Hload. done.
  - intros e He. exists e. split; [| done].
    unfold loadRegistry, RegistryLoader.loadRegistry.
    by rewrite (bind_err _ _ _ _ _ He).
Qed.

(** X3. The same holds for the harnesses: [loadHarnesses] returns the
    manifests read, each once, in sorted order, and fails when the
    listing fails or a manifest cannot be read or parsed; [loadRegistry]
    then fails with that error although the skills were loaded. *)
Theorem loadHarnesses_all_or_nothing (registryRoot : string) (w : World) :
  let harnessRoot := Path.join [registryRoot; "harnesses"] in
  let manifestOf dir := readHarnessManifest (Path.join [harnessRoot; dir; "harness.json"]) in
  let loadSkills :=
    RegistryLoader.loadSkills localeCompare listDirectories readSkillManifest in
  let loadHarnesses :=
    RegistryLoader.loadHarnesses localeCompare listDirectories readHarnessManifest in
  let loadRegistry :=
    RegistryLoader.loadRegistry localeCompare listDirectories
      readSkillManifest readHarnessManifest in
  (∀ manifests,
     loadHarnesses registryRoot w = (w, Ok manifests)
     ↔ ∃ dirs raw,
         listDirectories harnessRoot = Ok dirs
         ∧ Forall2 (fun dir manifest => manifestOf dir = Ok manifest) dirs raw
         ∧ manifests = Js.sort (fun a b => localeCompare (harness_id a) (harness_id b)) raw
         ∧ Permutation raw manifests)
  ∧ (∀ e, listDirectories harnessRoot = Err e → loadHarnesses registryRoot w = (w, Err e))
  ∧ (∀ dirs,
       listDirectories harnessRoot = Ok dirs →
       (∃ dir e, dir ∈ dirs ∧ manifestOf dir = Err e) →
       ∃ dir e, dir ∈ dirs ∧ manifestOf dir = Err e
                ∧ loadHarnesses registryRoot w = (w, Err e))
  ∧ (∀ e skills,
       loadHarnesses registryRoot w = (w, Err e) →
       loadSkills registryRoot w = (w, Ok skills) →
       loadRegistry registryRoot w = (w, Err e)).
Proof.
  intros harnessRoot manifestOf loadSkills loadHarnesses loadRegistry.
  assert (loadHarnesses registryRoot w
          = match listDirectories harnessRoot with
            | Ok dirs =>
                match promise_all (map (fun dir => lift (manifestOf dir)) dirs) w with
                | (w1, Ok raw) =>
                    (w1, Ok (Js.sort (fun a b => localeCompare (harness_id a) (harness_id b))
                                     raw))
                | (w1, Err e) => (w1, Err e)
                end
            | Err e => (w, Err e)
            end) as Hload.
  { unfold loadHarnesses, RegistryLoader.loadHarnesses. cbv zeta.
    unfold bind at 1, lift at 1. fold harnessRoot.
    destruct (listDirectories harnessRoot) as [dirs | e]; [| done].
    unfold bind at 1. by destruct (promise_all _ w) as [w1 [raw |]]. }
  split_and!.
  - intros manifests. rewrite Hload. split.
    + destruct (listDirectories harnessRoot) as [dirs | e]; [| done].
      destruct (promise_all _ w) as [w1 [raw |]] eqn:Hall; [| done].
      intros [= _ <-]. exists dirs, raw. split_and!; [done | | done |].
      * by eapply (promise_all_lift_inv manifestOf).
      * apply sort_Permutation.
    + intros (dirs & raw & Hdirs & Hraw & -> & _).
      by rewrite Hdirs, (promise_all_lift_ok manifestOf dirs raw w Hraw).
  - intros e He. by rewrite He in Hload.
  - intros dirs Hdirs Hbad.
    destruct (promise_all_lift_err manifestOf dirs w Hbad) as (dir & e & Hin & He & Hall).
    exists dir, e. rewrite Hdirs, Hall in Hload. done.
  - intros e skills He Hs. unfold loadRegistry, RegistryLoader.loadRegistry.
    rewrite (bind_ok _ _ _ _ _ Hs). by rewrite (bind_err _ _ _ _ _ He).
Qed.

End LoaderProps.

(** ** Writing, backing up and removing one file *)

Section FileProps.

(** X4. When [writeFileAlways] completes, the target holds the new
    contents and every other path but that of the backup copy is as
    before; when the target did not exist or backups are disabled the
    target is the only path that changed and no backup copy was written. *)
Theorem writeFileAlways_frame (targetPath contents : string) (backup : BackupOptions)
  (w w' : World) :
  writeFileAlways targetPath contents backup w = (w', Ok tt) →
  let backupPath := resolveBackupPath targetPath (default "" (backupRoot backup)) in
  files w' !! targetPath = Some contents
  ∧ (∀ q, q ≠ targetPath → q ≠ backupPath → files w' !! q = files w !! q)
  ∧ (files w !! targetPath = None ∨ enabled backup = false →
     files w' = <[targetPath := contents]> (files w)
     ∧ backup_writes (trace w') = backup_writes (trace w)).
Proof.
  intros Hrun backupPath.
  pose proof (writeFileAlways_effects targetPath contents backup w) as H.
  unfold effects in H. rewrite H in Hrun. injection Hrun as <-.
  cbn [fst snd files trace].
  split_and!.
  - rewrite replay_app. simpl. by rewrite lookup_insert_eq.
  - intros q Hq Hb. rewrite replay_app. simpl.
    rewrite lookup_insert_ne by done.
    destruct (files w !! targetPath); [| done].
    destruct (enabled backup && truthy (backupRoot backup)); [| done].
    simpl. by rewrite lookup_insert_ne.
  - intros Hcase. rewrite replay_app, backup_writes_app.
    destruct (files w !! targetPath) as [existing |] eqn:Hex.
    + destruct Hcase as [? | ->]; [done |]. simpl. by rewrite app_nil_r.
    + simpl. by rewrite app_nil_r.
Qed.

(** X5. When [backupExistingFile] completes, the bytes of the file it
    backs up are unchanged, even when the backup path is the path of the
    file itself, and no path but the backup path has changed; when backups
    are disabled or the file does not exist it has done nothing at all. *)
Theorem backupExistingFile_preserves (targetPath : string) (backup : BackupOptions)
  (w w' : World) :
  backupExistingFile targetPath backup w = (w', Ok tt) →
  let backupPath := resolveBackupPath targetPath (default "" (backupRoot backup)) in
  files w' !! targetPath = files w !! targetPath
  ∧ (∀ q, q ≠ backupPath → files w' !! q = files w !! q)
  ∧ (enabled backup = false ∨ backupRoot backup = None ∨ backupRoot backup = Some ""
     ∨ files w !! targetPath = None → w' = w).
Proof.
  intros Hrun backupPath.
  pose proof (backupExistingFile_effects targetPath backup w) as H.
  unfold effects in H. rewrite H in Hrun. injection Hrun as <-.
  cbn [fst snd files trace].
  split_and!.
  - destruct (files w !! targetPath) as [existing |] eqn:Hex; [| done].
    destruct (enabled backup && truthy (backupRoot backup)); [| done].
    simpl. fold backupPath.
    destruct (decide (backupPath = targetPath)) as [-> | Hne].
    + by rewrite lookup_insert_eq.
    + by rewrite lookup_insert_ne.
  - intros q Hq.
    destruct (files w !! targetPath) as [existing |]; [| done].
    destruct (enabled backup && truthy (backupRoot backup)); [| done].
    simpl. by rewrite lookup_insert_ne.
  - intros Hcase.
    destruct (files w !! targetPath) as [existing |] eqn:Hex.
    + destruct Hcase as [-> | [-> | [-> | ?]]]; try done;
        rewrite ?andb_false_r; simpl; rewrite app_nil_r; by destruct w.
    + simpl. rewrite app_nil_r. by destruct w.
Qed.

End FileProps.

(** ** Removing stale outputs *)

Section RemovalProps.

Lemma replay_rm_lookup (paths : list string) (fs : gmap string string) (q : string) :
  replay (map OpRm paths) fs !! q = if bool_decide (q ∈ paths) then None else fs !! q.
Proof.
  revert fs. induction paths as [| p paths IH]; intros fs; simpl; [done |].
  rewrite IH. destruct (decide (q = p)) as [-> | Hne].
  - rewrite lookup_delete_eq, (bool_decide_eq_true_2 (p ∈ p :: paths)) by apply list_elem_of_here.
    by case_bool_decide.
  - rewrite lookup_delete_ne by done.
    apply (f_equal (fun b : bool => if b then None else fs !! q)).
    apply bool_decide_ext. rewrite elem_of_cons. split; [by right | by intros [? | ?]].
Qed.

(** When backups are disabled or no stale file exists, the calls of
    [removeStaleOutputs] are the removals alone. *)
Lemma removeStaleOutputs_rm_only projectRoot stale backup w :
  enabled backup = false
  ∨ (∀ t, t ∈ stale → files w !! Path.join [projectRoot; t] = None) →
  effects (Cli.removeStaleOutputs projectRoot stale backup) w
    (map (fun t => OpRm (Path.join [projectRoot; t])) stale) (Ok tt).
Proof.
  revert w. induction stale as [| t stale IH]; intros w Hcase.
  { apply effects_ret. }
  unfold Cli.removeStaleOutputs. simpl.
  apply (effects_bind_ok _ _ w [OpRm (Path.join [projectRoot; t])] tt).
  - eapply effects_ops.
    + eapply effects_bind_ok; [apply backupExistingFile_effects |].
      apply effects_fs_rm_force.
    + destruct (files w !! Path.join [projectRoot; t]) as [existing |] eqn:Hex; [| done].
      destruct Hcase as [-> | Habsent]; [done |].
      rewrite Habsent in Hex by left. done.
  - apply IH. destruct Hcase as [? | Habsent]; [by left | right].
    intros t' Hin. simpl. apply lookup_delete_None. right. apply Habsent. by right.
Qed.

(** X6. When [removeStaleOutputs] completes with backups disabled, no
    stale path is left on disk, every other path is as it was, no backup
    copy was written, and a second run that completes changes nothing. *)
Theorem removeStaleOutputs_disabled (projectRoot : string) (stale : list string)
  (backup : BackupOptions) (w w' : World) :
  enabled backup = false →
  Cli.removeStaleOutputs projectRoot stale backup w = (w', Ok tt) →
  (∀ t, t ∈ stale → files w' !! Path.join [projectRoot; t] = None)
  ∧ (∀ q, q ∉ map (fun t => Path.join [projectRoot; t]) stale →
          files w' !! q = files w !! q)
  ∧ backup_writes (trace w') = backup_writes (trace w)
  ∧ (∀ w'', Cli.removeStaleOutputs projectRoot stale backup w' = (w'', Ok tt) →
            files w'' = files w').
Proof.
  intros Hoff Hrun.
  pose proof (removeStaleOutputs_rm_only projectRoot stale backup w (or_introl Hoff)) as H.
  unfold effects in H. rewrite H in Hrun. injection Hrun as <-.
  cbn [fst snd files trace].
  assert (∀ (fs : gmap string string) q,
            replay (map (fun t => OpRm (Path.join [projectRoot; t])) stale) fs !! q
            = if bool_decide (q ∈ map (fun t => Path.join [projectRoot; t]) stale)
              then None else fs !! q) as Hlookup.
  { intros fs q. rewrite <- replay_rm_lookup. by rewrite map_map. }
  split_and!.
  - intros t Hin. rewrite Hlookup, bool_decide_eq_true_2; [done |].
    apply elem_of_map. eauto.
  - intros q Hq. by rewrite Hlookup, bool_decide_eq_false_2.
  - rewrite backup_writes_app.
    assert (backup_writes (map (fun t => OpRm (Path.join [projectRoot; t])) stale) = []) as ->.
    { clear. induction stale; [done | by simpl]. }
    by rewrite app_nil_r.
  - intros w'' Hagain.
    match type of Hagain with _ ?w1 = _ =>
      pose proof (removeStaleOutputs_rm_only projectRoot stale backup w1 (or_introl Hoff)) as H2
    end.
    unfold effects in H2. rewrite H2 in Hagain. injection Hagain as <-.
    cbn [fst files].
    apply map_eq. intros q. rewrite !Hlookup. by case_bool_decide.
Qed.

(** X7. When [removeStaleOutputs] completes on stale outputs none of
    which exists on disk, no file has changed, whatever the backup
    options: the removals were issued and no backup copy was written. *)
Theorem removeStaleOutputs_absent (projectRoot : string) (stale : list string)
  (backup : BackupOptions) (w w' : World) :
  (∀ t, t ∈ stale → files w !! Path.join [projectRoot; t] = None) →
  Cli.removeStaleOutputs projectRoot stale backup w = (w', Ok tt) →
  files w' = files w
  ∧ trace w' = trace w ++ map (fun t => OpRm (Path.join [projectRoot; t])) stale.
Proof.
  intros Habsent Hrun.
  pose proof (removeStaleOutputs_rm_only projectRoot stale backup w (or_intror Habsent)) as H.
  unfold effects in H. rewrite H in Hrun. injection Hrun as <-.
  cbn [fst snd files trace].
  split; [| done].
  apply map_eq. intros q.
  rewrite <- (map_map (fun t => Path.join [projectRoot; t]) OpRm), replay_rm_lookup.
  case_bool_decide as Hq; [| done].
  apply elem_of_map in Hq as (t & -> & Hin). symmetry. by apply Habsent.
Qed.

End RemovalProps.

(** ** The state file as the mark of an initialised project *)

Section StateFileProps.

Variable env : Env.
Variable registryRoot : string.

(** What [findManagerState] returns: nothing when the state file is
    missing, the parsed state, or the syntax error of [JSON.parse]. *)
Lemma findManagerState_result projectRoot w :
  Cli.findManagerState env projectRoot w
  = (w, match files w !! Path.join [projectRoot; "ai"; "ai-manager.json"] with
        | None => Ok None
        | Some raw =>
            match json_parse env raw with
            | Some state => Ok (Some state)
            | None => Err (JsonSyntaxError (Path.join [projectRoot; "ai"; "ai-manager.json"]))
            end
        end).
Proof.
  unfold Cli.findManagerState, Cli.readJsonFile, pathExists, fs_readFile, bind, ret, throw.
  cbv zeta.
  destruct (files w !! _) as [raw |] eqn:Hraw.
  - rewrite bool_decide_eq_true_2 by eauto. simpl. rewrite Hraw.
    by destruct (json_parse env raw).
  - rewrite bool_decide_eq_false_2; [done |]. by intros [? ?].
Qed.

(** X8. Without a state file, [skills add], [skills remove],
    [harnesses add] and [harnesses remove] report that the project is not
    initialised and issue no file system call; the registry is not loaded,
    so this holds for a broken registry too, and whether or not the agents
    document exists. *)
Theorem commands_need_state (projectRoot : string) (action : Cli.Action)
  (enableBackup : bool) (t_backup now : string) (fs : gmap string string) :
  fs !! Path.join [projectRoot; "ai"; "ai-manager.json"] = None →
  exec (Cli.runSkillsAddRemove env registryRoot projectRoot action enableBackup t_backup now) fs
  = (mkWorld fs [], Ok Cli.NotInitialized)
  ∧ exec (Cli.runHarnessesAddRemove env registryRoot projectRoot action
            enableBackup t_backup now) fs
    = (mkWorld fs [], Ok Cli.NotInitialized).
Proof.
  intros Hnone. unfold exec, Cli.runSkillsAddRemove, Cli.runHarnessesAddRemove.
  unfold bind at 1. rewrite findManagerState_result. cbn [files]. rewrite Hnone.
  split; [done |].
  unfold bind at 1. rewrite findManagerState_result. cbn [files]. by rewrite Hnone.
Qed.

(** X9. With a state file that is not valid JSON the four commands fail
    with the syntax error of the state file and issue no file system
    call. *)
Theorem commands_reject_corrupt_state (projectRoot : string) (action : Cli.Action)
  (enableBackup : bool) (t_backup now : string) (fs : gmap string string) (raw : string) :
  fs !! Path.join [projectRoot; "ai"; "ai-manager.json"] = Some raw →
  json_parse env raw = None →
  let failure :=
    (mkWorld fs [], Err (JsonSyntaxError (Path.join [projectRoot; "ai"; "ai-manager.json"]))) in
  exec (Cli.runSkillsAddRemove env registryRoot projectRoot action enableBackup t_backup now) fs
  = failure
  ∧ exec (Cli.runHarnessesAddRemove env registryRoot projectRoot action
            enableBackup t_backup now) fs
    = failure.
Proof.
  intros Hraw Hparse failure. subst failure.
  unfold exec, Cli.runSkillsAddRemove, Cli.runHarnessesAddRemove.
  unfold bind at 1. rewrite findManagerState_result. cbn [files]. rewrite Hraw, Hparse.
  split; [done |].
  unfold bind at 1. rewrite findManagerState_result. cbn [files]. by rewrite Hraw, Hparse.
Qed.

End StateFileProps.

(** ** Prompts *)

Section PromptProps.

Variable env : Env.
Variable registryRoot : string.

Lemma insert_index_Permutation n key value obj :
  Js.insert_index n key value obj ≡ₚ (key, value) :: obj.
Proof.
  induction obj as [| [k v] obj IH]; simpl; [done |].
  destruct (Js.array_index k) as [m |]; [| done].
  destruct (m <? n)%N; [| done].
  rewrite IH. apply Permutation_swap.
Qed.

(** The entries of an object after an assignment. *)
Lemma assign_lookup key value obj :
  NoDup (map fst obj) → key ≠ "__proto__" →
  ∀ k v, (k, v) ∈ Js.assign key value obj
         ↔ (k = key ∧ v = value) ∨ (k ≠ key ∧ (k, v) ∈ obj).
Proof.
  intros Hnd Hkey k v. unfold Js.assign.
  rewrite (bool_decide_eq_false_2 _ Hkey).
  case_bool_decide as Hin.
  - rewrite elem_of_map. split.
    + intros ([k0 v0] & Heq & Hkv). simpl in Heq. case_bool_decide as Hk0.
      * injection Heq as -> ->. by left.
      * injection Heq as -> ->. right. by split.
    + intros [[-> ->] | [Hne Hkv]].
      * apply elem_of_map in Hin as ([k0 v0] & Hk0 & Hkv). simpl in Hk0. subst k0.
        exists (key, v0). simpl. by rewrite bool_decide_eq_true_2.
      * exists (k, v). simpl. by rewrite bool_decide_eq_false_2.
  - assert ((k, v) ∈ (key, value) :: obj
            ↔ k = key ∧ v = value ∨ k ≠ key ∧ (k, v) ∈ obj) as Hcons.
    { rewrite elem_of_cons. split.
      - intros [[= -> ->] | Hkv]; [by left |]. right. split; [| done].
        intros ->. apply Hin. apply elem_of_map. by exists (key, v).
      - intros [[-> ->] | [_ Hkv]]; [by left | by right]. }
    destruct (Js.array_index key) as [n |].
    + by rewrite insert_index_Permutation.
    + rewrite <- Hcons. rewrite elem_of_app, list_elem_of_singleton, elem_of_cons. tauto.
Qed.

Lemma assign_keys key value obj k :
  k ∈ map fst (Js.assign key value obj)
  ↔ k ∈ map fst obj ∨ (k = key ∧ key ≠ "__proto__").
Proof.
  unfold Js.assign. case_bool_decide as Hkey.
  { split; [by left | intros [? | [_ ?]]; done]. }
  case_bool_decide as Hin.
  - rewrite map_map.
    assert (map (fun kv : string * string =>
                   (if bool_decide (kv.1 = key) then (key, value) else kv).1) obj
            = map fst obj) as ->.
    { apply map_ext. intros [k0 v0]. simpl. by case_bool_decide. }
    split; [by left | intros [? | [-> _]]; done].
  - assert (k ∈ map fst ((key, value) :: obj) ↔ k ∈ map fst obj ∨ k = key ∧ key ≠ "__proto__")
      as Hcons.
    { simpl. rewrite elem_of_cons. tauto. }
    destruct (Js.array_index key) as [n |].
    + by rewrite insert_index_Permutation.
    + rewrite <- Hcons. rewrite map_app. simpl.
      rewrite elem_of_app, list_elem_of_singleton, !elem_of_cons. tauto.
Qed.

Lemma assign_NoDup key value obj :
  NoDup (map fst obj) → NoDup (map fst (Js.assign key value obj)).
Proof.
  intros Hnd. unfold Js.assign. case_bool_decide as Hkey; [done |].
  case_bool_decide as Hin.
  - rewrite map_map.
    assert (map (fun kv : string * string =>
                   (if bool_decide (kv.1 = key) then (key, value) else kv).1) obj
            = map fst obj) as ->; [| done].
    apply map_ext. intros [k0 v0]. simpl. by case_bool_decide.
  - assert (NoDup (map fst ((key, value) :: obj))) as Hcons.
    { simpl. by apply NoDup_cons. }
    destruct (Js.array_index key) as [n |].
    + by rewrite insert_index_Permutation.
    + rewrite map_app. simpl. apply NoDup_app. split_and!; [done | | apply NoDup_singleton].
      intros x Hx ->%list_elem_of_singleton. done.
Qed.

Lemma recordAnswers_keys qs values answers k :
  List.length values = List.length qs →
  k ∈ map fst (recordAnswers qs values answers)
  ↔ k ∈ map fst answers ∨ (k ∈ map q_id qs ∧ k ≠ "__proto__").
Proof.
  unfold recordAnswers. revert values answers.
  induction qs as [| q qs IH]; intros [| v values] answers Hlen; try done.
  { simpl. rewrite elem_of_nil. tauto. }
  simpl. rewrite IH by (simpl in Hlen; lia). rewrite assign_keys, elem_of_cons.
  split.
  - intros [[? | [-> ?]] | [? ?]]; eauto.
  - intros [? | [[-> | ?] ?]]; eauto.
Qed.

Lemma recordAnswers_NoDup qs values answers :
  NoDup (map fst answers) → NoDup (map fst (recordAnswers qs values answers)).
Proof.
  unfold recordAnswers. revert values answers.
  induction qs as [| q qs IH]; intros [| v values] answers Hnd; try done.
  simpl. by apply IH, assign_NoDup.
Qed.

(** An entry survives the later prompts whose question has another id. *)
Lemma recordAnswers_keeps qs values answers k v :
  NoDup (map fst answers) → (k, v) ∈ answers → k ∉ map q_id qs →
  (k, v) ∈ recordAnswers qs values answers.
Proof.
  unfold recordAnswers. revert values answers.
  induction qs as [| q qs IH]; intros [| v0 values] answers Hnd Hin Hk; try done.
  simpl. apply IH.
  - by apply assign_NoDup.
  - destruct (decide (q_id q = "__proto__")) as [Hproto | Hproto].
    + unfold Js.assign. by rewrite (bool_decide_eq_true_2 _ Hproto).
    + apply assign_lookup; [done | done |]. right. split; [| done].
      intros ->. apply Hk. simpl. left.
  - intros Hin'. apply Hk. simpl. by right.
Qed.

Abbreviation ask_step skill :=
  (fun (acc : IO SkillAnswerMap) question =>
     bind acc (fun answers =>
       match prompt_value env (skill_id skill) question with
       | None => throw Cancelled
       | Some value => ret (Js.assign (q_id question) value answers)
       end)).

Lemma ask_fold_failed skill qs (acc : IO SkillAnswerMap) w e :
  acc w = (w, Err e) → fold_left (ask_step skill) qs acc w = (w, Err e).
Proof.
  revert acc. induction qs as [| q qs IH]; intros acc Hacc; [done |].
  simpl. apply IH. unfold bind. by rewrite Hacc.
Qed.

Lemma ask_fold_aborted skill qs (acc : IO SkillAnswerMap) w answers :
  acc w = (w, Ok answers) →
  (∃ q, q ∈ qs ∧ prompt_value env (skill_id skill) q = None) →
  fold_left (ask_step skill) qs acc w = (w, Err Cancelled).
Proof.
  revert acc answers. induction qs as [| q qs IH]; intros acc answers Hacc (q0 & Hin & Hq0).
  { by apply elem_of_nil in Hin. }
  simpl. destruct (prompt_value env (skill_id skill) q) as [v |] eqn:Hq.
  - eapply IH.
    + unfold bind. rewrite Hacc, ?Hq. reflexivity.
    + exists q0. split; [| done]. apply elem_of_cons in Hin as [-> | ?]; [congruence | done].
  - apply ask_fold_failed. unfold bind. by rewrite Hacc, ?Hq.
Qed.

Lemma ask_fold_answered skill qs values (acc : IO SkillAnswerMap) w answers :
  acc w = (w, Ok answers) →
  Forall2 (fun q v => prompt_value env (skill_id skill) q = Some v) qs values →
  fold_left (ask_step skill) qs acc w = (w, Ok (recordAnswers qs values answers)).
Proof.
  intros Hacc Hall. revert acc answers Hacc.
  induction Hall as [| q v qs values Hq _ IH]; intros acc answers Hacc; [done |].
  simpl. apply IH. unfold bind. by rewrite Hacc, ?Hq.
Qed.

Lemma prompts_decide id (qs : list Question) :
  (∃ values, Forall2 (fun q v => prompt_value env id q = Some v) qs values)
  ∨ (∃ q, q ∈ qs ∧ prompt_value env id q = None).
Proof.
  induction qs as [| q qs [[values Hall] | (q0 & Hin & Hq0)]].
  - left. exists []. by apply Forall2_nil.
  - destruct (prompt_value env id q) as [v |] eqn:Hq.
    + left. exists (v :: values). apply Forall2_cons. by split.
    + right. exists q. split; [by left | done].
  - right. exists q0. split; [by right | done].
Qed.

(** X10. [askSkillQuestions] touches no file.  When the prompt of one
    question is aborted it fails with Cancelled; otherwise it returns an
    object whose keys are the ids of the questions other than
    [__proto__], each once, and whose value for such an id is the answer
    to the last question with that id. *)
Theorem askSkillQuestions_answers (skill : SkillManifest) (projectRoot : string) (w : World) :
  (∀ question,
     question ∈ questions skill → prompt_value env (skill_id skill) question = None →
     Cli.askSkillQuestions env skill projectRoot w = (w, Err Cancelled))
  ∧ (∀ values,
       Forall2 (fun q v => prompt_value env (skill_id skill) q = Some v)
               (questions skill) values →
       ∃ answers,
         Cli.askSkillQuestions env skill projectRoot w = (w, Ok answers)
         ∧ NoDup (map fst answers)
         ∧ (∀ k, k ∈ map fst answers
                 ↔ k ∈ map q_id (questions skill) ∧ k ≠ "__proto__")
         ∧ (∀ before question value after,
              questions skill = before ++ question :: after →
              prompt_value env (skill_id skill) question = Some value →
              q_id question ≠ "__proto__" →
              q_id question ∉ map q_id after →
              (q_id question, value) ∈ answers)).
Proof.
  split.
  - intros question Hin Hnone. unfold Cli.askSkillQuestions.
    eapply (ask_fold_aborted skill _ (ret []) w []); [done | eauto].
  - intros values Hall. exists (recordAnswers (questions skill) values []).
    assert (List.length values = List.length (questions skill)) as Hlen.
    { symmetry. by eapply Forall2_length. }
    split_and!.
    + unfold Cli.askSkillQuestions.
      by apply (ask_fold_answered skill _ values (ret []) w []).
    + by apply recordAnswers_NoDup, NoDup_nil.
    + intros k. rewrite recordAnswers_keys by done. simpl.
      split; [intros [Hin | ?]; [by apply elem_of_nil in Hin | done] | by right].
    + intros before question value after Hsplit Hq Hproto Hlast.
      rewrite Hsplit in Hall |- *.
      apply Forall2_app_inv_l in Hall as (vbefore & vrest & Hb & Hrest & ->).
      apply Forall2_cons_inv_l in Hrest as (v & vafter & Hv & Ha & ->).
      assert (v = value) as -> by congruence.
      unfold recordAnswers.
      rewrite zip_with_app by (by eapply Forall2_length).
      rewrite fold_left_app. simpl.
      apply recordAnswers_keeps; [| | done].
      * by apply assign_NoDup, (recordAnswers_NoDup before vbefore []), NoDup_nil.
      * apply assign_lookup; [| done | by left].
        by apply (recordAnswers_NoDup before vbefore []), NoDup_nil.
Qed.

Lemma askSkillQuestions_outcome skill projectRoot w :
  (∃ answers, Cli.askSkillQuestions env skill projectRoot w = (w, Ok answers))
  ∨ Cli.askSkillQuestions env skill projectRoot w = (w, Err Cancelled).
Proof.
  destruct (prompts_decide (skill_id skill) (questions skill)) as [[values Hall] | Hbad].
  - left. eexists. unfold Cli.askSkillQuestions.
    by apply (ask_fold_answered skill _ values (ret []) w []).
  - right. unfold Cli.askSkillQuestions.
    by eapply (ask_fold_aborted skill _ (ret []) w []).
Qed.

(** The loop over the picked ids fails with Cancelled as soon as a
    prompt of one of the skills found is aborted. *)
Lemma askSelected_cancelled registry projectRoot ids w :
  (∃ id skill question,
     id ∈ ids ∧ findSkill (skills registry) id = Some skill
     ∧ question ∈ questions skill ∧ prompt_value env (skill_id skill) question = None) →
  Cli.askSelected env registry projectRoot ids w = (w, Err Cancelled).
Proof.
  intros Hbad. unfold Cli.askSelected.
  assert (for_of ids
            (fun skillId =>
               match Js.find (fun item => bool_decide (skill_id item = skillId))
                             (skills registry) with
               | None => ret []
               | Some skill =>
                   bind (Cli.askSkillQuestions env skill projectRoot)
                        (fun answers =>
                           ret [mkSelectedSkill (skill_id skill) (skill_version skill) answers])
               end) w = (w, Err Cancelled)) as Hloop.
  { unfold for_of. induction ids as [| id ids IH].
    { destruct Hbad as (? & ? & ? & Hin & _). by apply elem_of_nil in Hin. }
    simpl. unfold bind at 1.
    fold (findSkill (skills registry) id).
    destruct (findSkill (skills registry) id) as [skill |] eqn:Hfind.
    - unfold bind at 1.
      destruct (askSkillQuestions_outcome skill projectRoot w) as [[answers Hask] | Hask];
        rewrite Hask; [| done].
      unfold ret at 1. unfold bind at 1. rewrite IH; [done |].
      destruct Hbad as (id0 & skill0 & q & Hin & Hfind0 & Hq & Hnone).
      apply elem_of_cons in Hin as [-> | Hin]; [| by eauto 10].
      assert (skill0 = skill) as -> by congruence.
      pose proof (ask_fold_aborted skill (questions skill) (ret []) w [] eq_refl
                    (ex_intro _ q (conj Hq Hnone))) as Habort.
      unfold Cli.askSkillQuestions in Hask. congruence.
    - unfold ret at 1. unfold bind at 1. rewrite IH; [done |].
      destruct Hbad as (id0 & skill0 & q & Hin & Hfind0 & Hq & Hnone).
      apply elem_of_cons in Hin as [-> | Hin]; [congruence | by eauto 10]. }
  by rewrite (bind_err _ _ _ _ _ Hloop).
Qed.

(** X11. When the prompt of a question of a ticked skill is aborted,
    [init] and [skills add] fail with Cancelled before any file system
    call: the project is left as it was. *)
Theorem cancelled_prompt_writes_nothing (projectRoot : string) (enableBackup : bool)
  (t_backup now : string) (fs : gmap string string) (registry : Registry)
  (skill : SkillManifest) (question : Question) :
  (exec (Cli.loadRegistry env registryRoot) fs).2 = Ok registry →
  findSkill (skills registry) (skill_id skill) = Some skill →
  tick_skill env (skill_id skill) = true →
  question ∈ questions skill →
  prompt_value env (skill_id skill) question = None →
  exec (Cli.runInit env registryRoot projectRoot enableBackup t_backup now) fs
  = (mkWorld fs [], Err Cancelled)
  ∧ (fs !! Path.join [projectRoot; "ai"; "agents.md"] = None
     ∨ fs !! Path.join [projectRoot; "ai"; "ai-manager.json"] = None →
     exec (Cli.initAction env registryRoot projectRoot enableBackup t_backup now) fs
     = (mkWorld fs [], Err Cancelled))
  ∧ ∀ state,
      (exec (Cli.findManagerState env projectRoot) fs).2 = Ok (Some state) →
      skill_id skill ∉ map sel_id (st_skills state) →
      exec (Cli.runSkillsAddRemove env registryRoot projectRoot Cli.Add
              enableBackup t_backup now) fs
      = (mkWorld fs [], Err Cancelled).
Proof.
  intros Hreg Hfind Htick Hq Hnone.
  apply findSkill_id in Hfind as Hin. destruct Hin as [_ Hin].
  assert (exec (Cli.runInit env registryRoot projectRoot enableBackup t_backup now) fs
          = (mkWorld fs [], Err Cancelled)) as Hinit.
  { unfold exec in *. unfold Cli.runInit.
    rewrite bind_readonly, Hreg by apply readonly_cli_loadRegistry.
    unfold bind at 1. rewrite askSelected_cancelled; [done |].
    exists (skill_id skill), skill, question. split_and!; try done.
    unfold Cli.selectSkills. apply elem_of_List_filter. split; [done |].
    apply elem_of_map. eauto. }
  split_and!; [done | |].
  - intros Hpartial. rewrite initAction_guard, Hinit.
    destruct Hpartial as [-> | ->]; simpl; [done |].
    by rewrite andb_false_r.
  - intros state Hst Hnew. unfold exec in *. unfold Cli.runSkillsAddRemove.
    rewrite bind_readonly, Hst by apply readonly_findManagerState.
    rewrite bind_readonly, Hreg by apply readonly_cli_loadRegistry.
    assert (skill ∈ List.filter
              (fun skill0 =>
                 negb (Js.set_has (Js.set_of (map sel_id (st_skills state)))
                                  (skill_id skill0)))
              (skills registry)) as Hchoice.
    { apply elem_of_List_filter. split; [| done].
      apply negb_true_iff, bool_decide_eq_false. by rewrite set_of_elem. }
    assert (skill_id skill ∈ pickedNewSkills env registry state) as Hpicked.
    { apply elem_of_List_filter. split; [done |]. apply elem_of_map. eauto. }
    unfold pickedNewSkills in Hpicked.
    case_bool_decide as Hchoices.
    { apply length_zero_iff_nil in Hchoices.
      rewrite Hchoices in Hchoice. by apply elem_of_nil in Hchoice. }
    case_bool_decide as Hnonempty.
    { apply length_zero_iff_nil in Hnonempty.
      rewrite Hnonempty in Hpicked. by apply elem_of_nil in Hpicked. }
    unfold bind at 1. unfold bind at 1. rewrite askSelected_cancelled; [done |].
    exists (skill_id skill), skill, question. by split_and!.
Qed.

End PromptProps.

(** ** The state persisted by the add and remove commands *)

Section SelectionProps.

Variable env : Env.
Variable registryRoot : string.

Lemma NoDup_map_filter {A} (f : A → string) (p : A → bool) (l : list A) :
  NoDup (map f l) → NoDup (map f (List.filter p l)).
Proof.
  induction l as [| x l IH]; simpl; [done |].
  intros [Hx Hnd]%NoDup_cons. destruct (p x); simpl; [| by apply IH].
  apply NoDup_cons. split; [| by apply IH].
  intros (y & Hy & Hin)%elem_of_map. apply elem_of_List_filter in Hin as [_ Hin].
  apply Hx, elem_of_map. eauto.
Qed.

(** The entries [askSelected] returns for picked ids that are all in the
    registry: one for each id, in order, with the version of the manifest
    and the answers to its questions. *)
Lemma askSelected_added registry projectRoot ids w w' added :
  Cli.askSelected env registry projectRoot ids w = (w', Ok added) →
  (∀ id, id ∈ ids → id ∈ map skill_id (skills registry)) →
  map sel_id added = ids
  ∧ Forall (fun entry =>
              ∃ skill, findSkill (skills registry) (sel_id entry) = Some skill
                       ∧ sel_version entry = skill_version skill
                       ∧ (Cli.askSkillQuestions env skill projectRoot w).2
                         = Ok (answers entry))
           added.
Proof.
  unfold Cli.askSelected. intros (w1 & asked & Hloop & Hret)%bind_inv_ok.
  injection Hret as _ <-. clear w'. intros Hknown.
  revert asked w1 Hloop. unfold for_of.
  induction ids as [| id ids IH]; intros asked w1; simpl.
  { unfold ret. intros [= _ <-]. split; [done | apply Forall_nil_2]. }
  intros (w2 & first & Hfirst & H)%bind_inv_ok.
  apply bind_inv_ok in H as (w3 & rest & Hrest & Hret).
  injection Hret as _ <-.
  fold (findSkill (skills registry) id) in Hfirst.
  destruct (findSkill (skills registry) id) as [skill |] eqn:Hfind.
  - apply bind_inv_ok in Hfirst as (w4 & answers & Hask & Hret).
    injection Hret as <- <-.
    pose proof (readonly_askSkillQuestions env skill projectRoot w) as Hro.
    rewrite Hask in Hro. simpl in Hro. subst w4.
    destruct (IH (fun id' Hin => Hknown id' (list_elem_of_further _ _ _ Hin)) rest w3 Hrest)
      as [Hids Hall].
    apply findSkill_id in Hfind as Hid. destruct Hid as [Hid _].
    simpl. split; [by rewrite Hid, Hids |].
    apply Forall_cons. split; [| done].
    exists skill. simpl. rewrite Hid, Hfind, Hask. done.
  - apply findSkill_None in Hfind. destruct Hfind. apply Hknown. left.
Qed.

Lemma pickedNewSkills_spec registry state id :
  id ∈ pickedNewSkills env registry state
  → id ∈ map skill_id (skills registry) ∧ (id ∉ map sel_id (st_skills state))
    ∧ tick_skill env id = true.
Proof.
  unfold pickedNewSkills. rewrite elem_of_List_filter, elem_of_map.
  intros (Htick & skill & -> & Hin).
  apply elem_of_List_filter in Hin as [Hnew Hin].
  apply negb_true_iff, bool_decide_eq_false in Hnew. rewrite set_of_elem in Hnew.
  split_and!; [apply elem_of_map; eauto | done | done].
Qed.

Lemma pickedNewHarnesses_spec registry state id :
  id ∈ pickedNewHarnesses env registry state
  → id ∈ map harness_id (harnesses registry) ∧ (id ∉ map selh_id (st_harnesses state))
    ∧ tick_harness env id = true.
Proof.
  unfold pickedNewHarnesses. rewrite elem_of_List_filter, elem_of_map.
  intros (Htick & harness & -> & Hin).
  apply elem_of_List_filter in Hin as [Hnew Hin].
  apply negb_true_iff, bool_decide_eq_false in Hnew. rewrite set_of_elem in Hnew.
  split_and!; [apply elem_of_map; eauto | done | done].
Qed.

(** X12. The state persisted by a [skills add] or [skills remove] that
    updates the project is the previous state with a new [updatedAt] and
    a new skill list.  After add the list is the previous entries, as
    they were, followed by one entry for each picked id, in the order of
    the registry, with the version of its manifest and the answers just
    given; after remove it is the previous entries whose id was not
    picked.  No id is selected twice if none was before. *)
Theorem skills_command_state (projectRoot : string) (action : Cli.Action)
  (enableBackup : bool) (t_backup now : string) (fs : gmap string string)
  (state : ManagerState) (registry : Registry) (w' : World) (created : list string) :
  (exec (Cli.findManagerState env projectRoot) fs).2 = Ok (Some state) →
  (exec (Cli.loadRegistry env registryRoot) fs).2 = Ok registry →
  exec (Cli.runSkillsAddRemove env registryRoot projectRoot action
          enableBackup t_backup now) fs = (w', Ok (Cli.Updated created)) →
  ∃ updatedSkills,
    files w' !! Path.join [projectRoot; "ai"; "ai-manager.json"]
    = Some (json_stringify env (with_skills state now updatedSkills) +:+ nl)
    ∧ match action with
      | Cli.Add =>
          ∃ added,
            updatedSkills = st_skills state ++ added
            ∧ map sel_id added = pickedNewSkills env registry state
            ∧ added ≠ []
            ∧ Forall (fun entry =>
                        ∃ skill,
                          findSkill (skills registry) (sel_id entry) = Some skill
                          ∧ sel_version entry = skill_version skill
                          ∧ (exec (Cli.askSkillQuestions env skill projectRoot) fs).2
                            = Ok (answers entry))
                     added
      | Cli.Remove =>
          updatedSkills
          = List.filter (fun skill => negb (Js.includes (pickedSkills env registry state)
                                                        (sel_id skill)))
                        (st_skills state)
          ∧ pickedSkills env registry state ≠ []
      end
    ∧ (NoDup (map sel_id (st_skills state)) → NoDup (map sel_id updatedSkills)).
Proof.
  intros Hst Hreg. apply loadRegistry_exec in Hreg as Hload.
  apply loadRegistry_NoDup in Hload as [Hnds _].
  unfold exec in *. unfold Cli.runSkillsAddRemove.
  rewrite bind_readonly, Hst by apply readonly_findManagerState.
  rewrite bind_readonly, Hreg by apply readonly_cli_loadRegistry.
  case_bool_decide as Hchoices; [intros [= _ ?]; done |].
  case_bool_decide as Hpicked; [intros [= _ ?]; done |].
  intros (w1 & updatedSkills & Hupdated & H)%bind_inv_ok.
  apply bind_inv_ok in H as (w2 & [] & _ & H).
  apply render_then_persist in H.
  exists updatedSkills. split; [exact H |].
  destruct action.
  - apply bind_inv_ok in Hupdated as (w3 & added & Hask & Hret).
    injection Hret as _ <-.
    fold (pickedNewSkills env registry state) in Hask, Hpicked.
    apply askSelected_added in Hask as [Hids Hall];
      [| intros id Hid; by apply pickedNewSkills_spec in Hid as [? _]].
    split.
    + exists added. split_and!; [done | done | | done].
      intros ->. simpl in Hids. rewrite <- Hids in Hpicked. done.
    + intros Hnd. rewrite map_app, Hids. apply NoDup_app. split_and!; [done | |].
      * intros id Hold Hnew. by apply pickedNewSkills_spec in Hnew as (_ & ? & _).
      * unfold pickedNewSkills. by apply NoDup_List_filter, NoDup_map_filter.
  - injection Hupdated as _ <-.
    fold (pickedSkills env registry state) in Hpicked |- *.
    split_and!; [done | | ].
    + intros Hnil. rewrite Hnil in Hpicked. done.
    + intros Hnd. by apply NoDup_map_filter.
Qed.

(** X13. The state persisted by a [harnesses add] or [harnesses remove]
    that updates the project is the previous state with a new
    [updatedAt] and a new harness list: after add the previous entries
    followed by one entry for each picked id with the version of its
    manifest (never the fallback version), after remove the previous
    entries whose id was not picked.  No id is selected twice if none was
    before. *)
Theorem harnesses_command_state (projectRoot : string) (action : Cli.Action)
  (enableBackup : bool) (t_backup now : string) (fs : gmap string string)
  (state : ManagerState) (registry : Registry) (w' : World) (created : list string) :
  (exec (Cli.findManagerState env projectRoot) fs).2 = Ok (Some state) →
  (exec (Cli.loadRegistry env registryRoot) fs).2 = Ok registry →
  exec (Cli.runHarnessesAddRemove env registryRoot projectRoot action
          enableBackup t_backup now) fs = (w', Ok (Cli.Updated created)) →
  ∃ updatedHarnesses,
    files w' !! Path.join [projectRoot; "ai"; "ai-manager.json"]
    = Some (json_stringify env (with_harnesses state now updatedHarnesses) +:+ nl)
    ∧ match action with
      | Cli.Add =>
          ∃ added,
            updatedHarnesses = st_harnesses state ++ added
            ∧ map selh_id added = pickedNewHarnesses env registry state
            ∧ added ≠ []
            ∧ Forall (fun entry =>
                        ∃ harness,
                          findHarness (harnesses registry) (selh_id entry) = Some harness
                          ∧ selh_version entry = harness_version harness)
                     added
      | Cli.Remove =>
          updatedHarnesses
          = List.filter (fun harness => negb (Js.includes (pickedHarnesses env registry state)
                                                          (selh_id harness)))
                        (st_harnesses state)
          ∧ pickedHarnesses env registry state ≠ []
      end
    ∧ (NoDup (map selh_id (st_harnesses state)) → NoDup (map selh_id updatedHarnesses)).
Proof.
  intros Hst Hreg. apply loadRegistry_exec in Hreg as Hload.
  apply loadRegistry_NoDup in Hload as [_ Hndh].
  unfold exec in *. unfold Cli.runHarnessesAddRemove.
  rewrite bind_readonly, Hst by apply readonly_findManagerState.
  rewrite bind_readonly, Hreg by apply readonly_cli_loadRegistry.
  case_bool_decide as Hchoices; [intros [= _ ?]; done |].
  case_bool_decide as Hpicked; [intros [= _ ?]; done |].
  intros (w2 & [] & _ & H)%bind_inv_ok.
  apply render_then_persist in H.
  eexists. split; [exact H |].
  destruct action.
  - fold (pickedNewHarnesses env registry state) in Hpicked |- *.
    assert (map selh_id
              (map (fun id => mkSelectedHarness id (Cli.harnessVersion registry id))
                   (pickedNewHarnesses env registry state))
            = pickedNewHarnesses env registry state) as Hids.
    { rewrite map_map. simpl. apply map_id. }
    split.
    + eexists. split_and!; [done | exact Hids | |].
      * intros Hnil. rewrite Hnil in Hids. simpl in Hids. rewrite <- Hids in Hpicked. done.
      * apply Forall_forall. intros entry (id & -> & Hid)%elem_of_map. simpl.
        apply pickedNewHarnesses_spec in Hid as (Hknown & _ & _).
        unfold Cli.harnessVersion. fold (findHarness (harnesses registry) id).
        destruct (findHarness (harnesses registry) id) as [harness |] eqn:Hfind; [by eauto |].
        by apply findHarness_None in Hfind.
    + intros Hnd. rewrite map_app, Hids. apply NoDup_app. split_and!; [done | |].
      * intros id Hold Hnew. by apply pickedNewHarnesses_spec in Hnew as (_ & ? & _).
      * unfold pickedNewHarnesses. by apply NoDup_List_filter, NoDup_map_filter.
  - fold (pickedHarnesses env registry state) in Hpicked |- *.
    split_and!; [done | | ].
    + intros Hnil. rewrite Hnil in Hpicked. done.
    + intros Hnd. by apply NoDup_map_filter.
Qed.

(** X14. Whatever was on disk before, a [skills] or [harnesses] command
    that updates the project leaves both the agents document and the
    state file, so that [init] is refused afterwards. *)
Theorem update_leaves_initialised (projectRoot : string) (action : Cli.Action)
  (enableBackup : bool) (t_backup now : string) (fs : gmap string string)
  (w' : World) (created : list string) :
  exec (Cli.runSkillsAddRemove env registryRoot projectRoot action
          enableBackup t_backup now) fs = (w', Ok (Cli.Updated created))
  ∨ exec (Cli.runHarnessesAddRemove env registryRoot projectRoot action
            enableBackup t_backup now) fs = (w', Ok (Cli.Updated created)) →
  is_Some (files w' !! Path.join [projectRoot; "ai"; "agents.md"])
  ∧ is_Some (files w' !! Path.join [projectRoot; "ai"; "ai-manager.json"])
  ∧ ∀ enableBackup' t_backup' now',
      exec (Cli.initAction env registryRoot projectRoot enableBackup' t_backup' now')
           (files w')
      = (mkWorld (files w') [], Ok Cli.AlreadyInitialized).
Proof.
  intros Hrun.
  assert (∃ w0 skills harnesses sk hs backup state',
            bind (Cli.renderAll env registryRoot projectRoot skills harnesses sk hs backup)
                 (fun createdFiles =>
                    bind (Cli.writeState env projectRoot state' backup)
                         (fun _ => ret (Cli.Updated createdFiles))) w0
            = (w', Ok (Cli.Updated created)))
    as (w0 & skills & harnesses & sk & hs & backup & state' & Htail).
  { unfold exec in Hrun. destruct Hrun as [Hrun | Hrun].
    - unfold Cli.runSkillsAddRemove in Hrun.
      apply bind_inv_ok in Hrun as (w1 & found & _ & H).
      destruct found as [state |]; [| by injection H].
      apply bind_inv_ok in H as (w2 & registry & _ & H).
      case_bool_decide; [by injection H |]. case_bool_decide; [by injection H |].
      apply bind_inv_ok in H as (w3 & updatedSkills & _ & H).
      apply bind_inv_ok in H as (w4 & [] & _ & H). eauto 10.
    - unfold Cli.runHarnessesAddRemove in Hrun.
      apply bind_inv_ok in Hrun as (w1 & found & _ & H).
      destruct found as [state |]; [| by injection H].
      apply bind_inv_ok in H as (w2 & registry & _ & H).
      case_bool_decide; [by injection H |]. case_bool_decide; [by injection H |].
      apply bind_inv_ok in H as (w4 & [] & _ & H). eauto 10. }
  assert (is_Some (files w' !! Path.join [projectRoot; "ai"; "ai-manager.json"])) as Hstate.
  { apply render_then_persist in Htail. by rewrite Htail. }
  assert (is_Some (files w' !! Path.join [projectRoot; "ai"; "agents.md"])) as Hagents.
  { apply bind_inv_ok in Htail as (w1 & createdFiles & Hrender & H).
    apply renderAll_agents_written in Hrender.
    pose proof (keeps_files_writes_only _ _ _ _
                  (writeState_writes_only env projectRoot state' backup) w1 _ Hrender) as Hk.
    apply bind_inv_ok in H as (w2 & statePath & Hwrite & Hret).
    injection Hret as -> _. by rewrite Hwrite in Hk. }
  split_and!; [done | done |].
  intros enableBackup' t_backup' now'. rewrite initAction_guard.
  by rewrite !bool_decide_eq_true_2.
Qed.

(** X15. When [writeState] completes it returns the path of the state
    file, and the state it wrote is the state [findManagerState] returns
    afterwards, provided [JSON.parse] reads back what [JSON.stringify]
    wrote for it; the read changes nothing. *)
Theorem persisted_state_read_back (projectRoot : string) (state : ManagerState)
  (backup : BackupOptions) (w w' : World) (written : string) :
  json_parse env (json_stringify env state +:+ nl) = Some state →
  Cli.writeState env projectRoot state backup w = (w', Ok written) →
  written = Path.join [projectRoot; "ai"; "ai-manager.json"]
  ∧ Cli.findManagerState env projectRoot w' = (w', Ok (Some state)).
Proof.
  intros Hjson Hrun.
  pose proof (writeState_lookup env projectRoot state backup w) as Hl.
  rewrite Hrun in Hl. cbn [fst] in Hl. split.
  - unfold Cli.writeState in Hrun.
    apply bind_inv_ok in Hrun as (? & ? & _ & Hret). by injection Hret as _ ->.
  - rewrite findManagerState_result, Hl. by rewrite Hjson.
Qed.

End SelectionProps.

(** ** What [renderAll] reports and what it wrote *)

Section CreatedProps.

Variable env : Env.
Variable registryRoot : string.

Lemma yields_ret {A} (a : A) : yields [] a (ret a).
Proof.
  intros w w' r [= <- <-]. exists []. simpl.
  rewrite app_nil_r. split_and!; [by destruct w | done | done | done].
Qed.

Lemma yields_bind {A B} (m : IO A) (k : A → IO B) ps1 a ps2 b :
  yields ps1 a m → yields ps2 b (k a) → yields (ps1 ++ ps2) b (bind m k).
Proof.
  intros Hm Hk w w' r. unfold bind.
  destruct (m w) as [w1 [a' | e]] eqn:H1.
  - intros H2. apply Hm in H1 as (ops1 & -> & Hr1 & -> & Hg1).
    apply Hk in H2 as (ops2 & -> & Hr2 & Hres).
    exists (ops1 ++ ops2). simpl.
    rewrite replay_app, app_assoc, generated_writes_app, removed_paths_app, map_app.
    rewrite Hr1, Hr2, Hg1. split_and!; [done | done |].
    destruct r as [b' | e].
    + destruct Hres as [-> ->]. done.
    + destruct Hres as [Hpre Hlen]. split; [by apply prefix_app |].
      rewrite length_app, length_app, <- Hg1, length_map. lia.
  - intros [= <- <-]. apply Hm in H1 as (ops1 & -> & Hr1 & Hpre & Hlen).
    exists ops1. split_and!; [done | done | | rewrite length_app; lia].
    by apply prefix_app_r.
Qed.

Lemma yields_bind_pure {A B} (m : IO A) (k : A → IO B) ps b :
  pure_io m → ps ≠ [] → (∀ a, yields ps b (k a)) → yields ps b (bind m k).
Proof.
  intros [r0 Hm] Hps Hk w w' r. unfold bind. rewrite Hm.
  destruct r0 as [a | e]; [by apply Hk |].
  intros [= <- <-]. exists []. simpl. rewrite app_nil_r.
  split_and!; [by destruct w | done | apply prefix_nil |].
  destruct ps; [done | simpl; lia].
Qed.

Lemma yields_for_of {A B} (xs : list A) (body : A → IO B) (pa : A → list string)
  (f : A → B) :
  (∀ x, yields (pa x) (f x) (body x)) →
  yields (concat (map pa xs)) (map f xs) (for_of xs body).
Proof.
  intros Hbody. unfold for_of. induction xs as [| x xs IH]; simpl.
  { apply (yields_ret []). }
  rewrite <- (app_nil_r (concat (map pa xs))).
  eapply yields_bind; [apply Hbody |].
  eapply yields_bind; [apply IH |]. apply yields_ret.
Qed.

Lemma yields_writeRenderedOutput projectRoot output templateRoot context backup :
  yields [Path.join [projectRoot; target output]] (Path.join [projectRoot; target output])
    (Renderer.writeRenderedOutput env projectRoot output templateRoot context backup).
Proof.
  unfold Renderer.writeRenderedOutput.
  apply yields_bind_pure; [apply pure_renderTemplateFile | done |]. intros contents.
  rewrite <- (app_nil_r [_]).
  eapply (yields_bind _ _ _ tt); [| apply yields_ret].
  intros w w' r Hw.
  destruct (writeFileAlways_writes_only (Path.join [projectRoot; target output])
              contents backup w) as (ops & He & Hg & Hr & _).
  unfold effects in He. rewrite He in Hw. injection Hw as <- <-.
  exists ops. by rewrite Hg.
Qed.

Lemma concat_singletons {A B} (f : A → B) (l : list A) :
  concat (map (fun x => [f x]) l) = map f l.
Proof. induction l; simpl; by f_equal. Qed.

Lemma yields_renderSkillOutputs projectRoot skills backup selected :
  yields (skillOutputPaths projectRoot skills selected)
         (skillOutputPaths projectRoot skills selected)
         (Cli.renderSkillOutputs env registryRoot projectRoot skills backup selected).
Proof.
  unfold Cli.renderSkillOutputs, skillOutputPaths, findSkill.
  destruct (Js.find _ skills) as [manifest |]; [| apply yields_ret].
  rewrite <- (concat_singletons (fun output => Path.join [projectRoot; target output]))
    at 1.
  apply (yields_for_of _ _ (fun output => [Path.join [projectRoot; target output]])
           (fun output => Path.join [projectRoot; target output])).
  intros output. apply yields_writeRenderedOutput.
Qed.

Lemma yields_renderHarnessOutputs projectRoot harnesses backup selected :
  yields (harnessOutputPaths projectRoot harnesses selected)
         (harnessOutputPaths projectRoot harnesses selected)
         (Cli.renderHarnessOutputs env registryRoot projectRoot harnesses backup selected).
Proof.
  unfold Cli.renderHarnessOutputs, harnessOutputPaths, findHarness.
  destruct (Js.find _ harnesses) as [manifest |]; [| apply yields_ret].
  rewrite <- (concat_singletons (fun output => Path.join [projectRoot; target output]))
    at 1.
  apply (yields_for_of _ _ (fun output => [Path.join [projectRoot; target output]])
           (fun output => Path.join [projectRoot; target output])).
  intros output. apply yields_writeRenderedOutput.
Qed.

Lemma yields_renderAll projectRoot skills harnesses sk hs backup :
  yields (renderedPaths projectRoot skills harnesses sk hs)
         (renderedPaths projectRoot skills harnesses sk hs)
         (Cli.renderAll env registryRoot projectRoot skills harnesses sk hs backup).
Proof.
  unfold Cli.renderAll, renderedPaths.
  apply yields_bind_pure; [apply pure_buildAgentsMarkdown | done |]. intros agentsContents.
  change (Path.join [projectRoot; "ai"; "agents.md"]
          :: concat (map (skillOutputPaths projectRoot skills) sk)
          ++ concat (map (harnessOutputPaths projectRoot harnesses) hs))
    with ([Path.join [projectRoot; "ai"; "agents.md"]]
          ++ (concat (map (skillOutputPaths projectRoot skills) sk)
              ++ concat (map (harnessOutputPaths projectRoot harnesses) hs))) at 1.
  eapply yields_bind.
  { rewrite <- join_ai_agents. apply yields_writeRenderedOutput. }
  eapply yields_bind.
  { apply (yields_for_of sk _ (skillOutputPaths projectRoot skills)
             (skillOutputPaths projectRoot skills)).
    intros selected. apply yields_renderSkillOutputs. }
  rewrite <- (app_nil_r (concat (map (harnessOutputPaths projectRoot harnesses) hs))) at 1.
  eapply yields_bind.
  { apply (yields_for_of hs _ (harnessOutputPaths projectRoot harnesses)
             (harnessOutputPaths projectRoot harnesses)).
    intros selected. apply yields_renderHarnessOutputs. }
  apply yields_ret.
Qed.

Lemma generated_exists ops fs p :
  p ∈ map fst (generated_writes ops) → removed_paths ops = [] →
  is_Some (replay ops fs !! p).
Proof.
  revert fs. induction ops as [| op ops IH]; intros fs Hin Hrm.
  { by apply elem_of_nil in Hin. }
  destruct op as [dir | q [bytes | text] | q]; simpl in *; try discriminate.
  - by apply IH.
  - by apply IH.
  - apply elem_of_cons in Hin as [-> | Hin]; [| by apply IH].
    apply replay_keeps; [done |]. rewrite lookup_insert_eq. eauto.
Qed.

(** X16. The list a successful [renderAll] returns is the list of the
    generated files it wrote, in the order it wrote them: the agents
    document, then the outputs of each selected skill that has a manifest,
    then those of each selected harness that has one.  Each of them
    exists afterwards, and nothing was removed. *)
Theorem renderAll_reports_what_it_wrote (projectRoot : string)
  (skills : list SkillManifest) (harnesses : list HarnessManifest)
  (sk : list SelectedSkill) (hs : list SelectedHarness) (backup : BackupOptions)
  (w w' : World) (created : list string) :
  Cli.renderAll env registryRoot projectRoot skills harnesses sk hs backup w
  = (w', Ok created) →
  created = renderedPaths projectRoot skills harnesses sk hs
  ∧ (∃ ops, trace w' = trace w ++ ops ∧ files w' = replay ops (files w)
            ∧ map fst (generated_writes ops) = created
            ∧ removed_paths ops = [])
  ∧ ∀ p, p ∈ created → is_Some (files w' !! p).
Proof.
  intros Hrun. apply yields_renderAll in Hrun as (ops & -> & Hr & -> & Hg).
  split_and!; [done | by exists ops |].
  intros p Hp. simpl. apply generated_exists; [by rewrite Hg | done].
Qed.

(** X17. A [renderAll] that fails is not undone: the generated files it
    wrote before the failure are the first of the list a success would
    have written, at least one short, each of them is on disk, and
    nothing was removed. *)
Theorem renderAll_failure_is_partial (projectRoot : string)
  (skills : list SkillManifest) (harnesses : list HarnessManifest)
  (sk : list SelectedSkill) (hs : list SelectedHarness) (backup : BackupOptions)
  (w w' : World) (e : Error) :
  Cli.renderAll env registryRoot projectRoot skills harnesses sk hs backup w
  = (w', Err e) →
  ∃ ops rest,
    trace w' = trace w ++ ops ∧ files w' = replay ops (files w)
    ∧ removed_paths ops = []
    ∧ renderedPaths projectRoot skills harnesses sk hs
      = map fst (generated_writes ops) ++ rest
    ∧ rest ≠ []
    ∧ ∀ p, p ∈ map fst (generated_writes ops) → is_Some (files w' !! p).
Proof.
  intros Hrun. apply yields_renderAll in Hrun as (ops & -> & Hr & [rest Hpre] & Hlen).
  exists ops, rest. split_and!; [done | done | done | done | |].
  - intros ->. rewrite Hpre, app_nil_r, length_map in Hlen. lia.
  - intros p Hp. simpl. by apply generated_exists.
Qed.

End CreatedProps.

(** ** Rendering one output *)

Section OutputProps.

Variable env : Env.

(** X18. [writeRenderedOutput] renders before it writes: when the
    template cannot be read or does not compile it fails with the error
    of the template and issues no file system call, so the target is
    untouched and no backup is taken; otherwise, when it completes, it
    returns the target path joined to the project root, the target holds
    the rendered text, the one generated file written is the target and
    nothing is removed. *)
Theorem writeRenderedOutput_outcome (projectRoot : string) (output : OutputTemplate)
  (templateRoot : string) (context : TemplateContext) (backup : BackupOptions) (w : World) :
  let templatePath := Path.join [templateRoot; template output] in
  let targetPath := Path.join [projectRoot; target output] in
  let run :=
    Renderer.writeRenderedOutput env projectRoot output templateRoot context backup w in
  match readTemplate env templatePath with
  | None => run = (w, Err (ENOENT templatePath))
  | Some raw =>
      match handlebars env raw context with
      | None => run = (w, Err (TemplateError templatePath))
      | Some text =>
          ∀ w' written, run = (w', Ok written) →
            written = targetPath
            ∧ files w' !! targetPath = Some text
            ∧ generated_writes (trace w')
              = generated_writes (trace w) ++ [(targetPath, text)]
            ∧ removed_paths (trace w') = removed_paths (trace w)
      end
  end.
Proof.
  intros templatePath targetPath run. subst run.
  unfold Renderer.writeRenderedOutput, Renderer.renderTemplateFile.
  fold templatePath targetPath.
  destruct (readTemplate env templatePath) as [raw |]; [| done].
  destruct (handlebars env raw context) as [text |]; [| done].
  rewrite (bind_ok _ _ w w text) by done.
  destruct (writeFileAlways_writes_only targetPath text backup w)
    as (ops & He & Hg & Hr & _).
  pose proof (writeFileAlways_lookup targetPath text backup w) as Hl.
  unfold effects in He. rewrite (bind_ok _ _ _ _ tt He). rewrite He in Hl.
  unfold ret. cbn [fst snd files trace] in *.
  intros w' written [= <- <-]. cbn [files trace].
  rewrite generated_writes_app, removed_paths_app, Hg, Hr, app_nil_r. done.
Qed.

End OutputProps.

(** ** The agents document: plan section, activation rules, failure *)

Section AssemblyProps.

Variable env : Env.
Variable registryRoot : string.

Lemma promise_all_pure_err {A B} (f : A → IO B) (xs : list A) w :
  (∀ x, readonly (f x)) →
  (∃ x e, x ∈ xs ∧ (f x w).2 = Err e) →
  ∃ e, promise_all (map f xs) w = (w, Err e).
Proof.
  intros Hf. induction xs as [| x xs IH]; intros (x0 & e0 & Hin & Hx0).
  { by apply elem_of_nil in Hin. }
  simpl. rewrite bind_readonly by apply Hf.
  destruct (f x w).2 as [y | e] eqn:Hx; [| by eauto].
  destruct IH as [e He].
  { apply elem_of_cons in Hin as [-> | ?]; [congruence | by eauto]. }
  exists e. by rewrite (bind_err _ _ _ _ _ He).
Qed.

(** X19. When the snippet template of a selected skill other than the
    planner cannot be read, the agents document is not assembled and
    [renderAll] fails before any file system call. *)
Theorem renderAll_fails_before_writing (projectRoot : string)
  (skills : list SkillManifest) (harnesses : list HarnessManifest)
  (sk : list SelectedSkill) (hs : list SelectedHarness) (backup : BackupOptions)
  (w : World) (skill : SkillManifest) :
  skill ∈ skills →
  skill_id skill ∈ map sel_id sk →
  skill_id skill ≠ "planner" →
  readTemplate env
    (Path.join [registryRoot; "skills"; skill_id skill; agentsSnippetTemplate skill]) = None →
  ∃ e, Cli.renderAll env registryRoot projectRoot skills harnesses sk hs backup w
       = (w, Err e).
Proof.
  intros Hin Hsel Hguide Hmissing. unfold Cli.renderAll.
  set (input := Agents.mkInput _ _ _ _ _ _).
  assert (∃ e, Agents.buildAgentsMarkdown env input w = (w, Err e)) as [e He].
  { unfold Agents.buildAgentsMarkdown, Agents.templateContext.
    destruct (promise_all_pure_err (Agents.renderSnippet env input)
                (Agents.guideSkills input) w) as [e He].
    - intros x. apply pure_io_readonly, pure_renderTemplateFile.
    - exists skill, (ENOENT (Path.join [registryRoot; "skills"; skill_id skill;
                                       agentsSnippetTemplate skill])).
      split.
      + unfold Agents.guideSkills, Agents.selectedSkills.
        rewrite !elem_of_List_filter. split_and!; [| | done].
        * by apply negb_true_iff, bool_decide_eq_false.
        * by apply bool_decide_eq_true.
      + unfold Agents.renderSnippet, Renderer.renderTemplateFile. simpl.
        by rewrite Hmissing.
    - exists e. by rewrite (bind_err _ _ _ _ _ (bind_err _ _ _ _ _ He)). }
  exists e. by rewrite (bind_err _ _ _ _ _ He).
Qed.

(** X20. In the context of the agents document the plan section is
    empty when the planner is not selected and is otherwise the snippet of
    the planner rendered without answers, whatever answers are recorded
    for it; the activation rules are those of the selected skills that
    declare a non-empty activation template, the planner included, in the
    order of the input skill list; the planner is never among the guide
    skills. *)
Theorem agents_plan_and_rules (input : Agents.AgentsAssemblyInput) (w : World)
  (context : TemplateContext) :
  (Agents.templateContext env input w).2 = Ok context →
  ∃ notes planSection table guides rules,
    context = CtxAgents (Agents.projectName input) notes planSection table guides
                        (Js.join (nl +:+ nl) rules)
    ∧ match Agents.plannerSkill input with
      | None => planSection = ""
      | Some planner =>
          skill_id planner = "planner"
          ∧ planner ∈ Agents.selectedSkills input
          ∧ (Renderer.renderTemplateFile env
               (Path.join [Agents.registryRoot input; "skills"; "planner";
                           agentsSnippetTemplate planner])
               (CtxSkill planner []) w).2 = Ok planSection
      end
    ∧ Forall2 (fun skill rule => (Agents.renderActivationRule env input skill w).2 = Ok rule)
        (List.filter (fun skill => truthy (activationRulesTemplate skill))
                     (Agents.selectedSkills input))
        rules
    ∧ Forall (fun skill => skill_id skill ≠ "planner") (Agents.guideSkills input).
Proof.
  destruct (Agents.templateContext env input w) as [w' r] eqn:Hctx.
  simpl. intros ->. unfold Agents.templateContext in Hctx.
  apply bind_inv_ok in Hctx as (w1 & snippets & Hsnippets & H).
  assert (w1 = w) as ->.
  { assert (readonly (promise_all (map (Agents.renderSnippet env input)
                                       (Agents.guideSkills input)))) as Hro.
    { apply readonly_promise_all, Forall_forall.
      intros p (x & -> & _)%elem_of_map. apply pure_io_readonly, pure_renderTemplateFile. }
    specialize (Hro w). by rewrite Hsnippets in Hro. }
  apply bind_inv_ok in H as (w2 & rules & Hrules & H).
  assert (w2 = w) as ->.
  { assert (readonly (promise_all
                        (map (Agents.renderActivationRule env input)
                             (List.filter (fun skill => truthy (activationRulesTemplate skill))
                                          (Agents.selectedSkills input))))) as Hro.
    { apply readonly_promise_all, Forall_forall.
      intros p (x & -> & _)%elem_of_map. apply pure_io_readonly, pure_renderTemplateFile. }
    specialize (Hro w). by rewrite Hrules in Hro. }
  apply bind_inv_ok in H as (w3 & planSection & Hplan & Hret).
  injection Hret as _ <-.
  do 4 eexists. exists rules. split_and!; [done | | |].
  - fold (Agents.plannerSkill input) in Hplan.
    destruct (Agents.plannerSkill input) as [planner |] eqn:Hplanner.
    + unfold Agents.plannerSkill, Js.find in Hplanner.
      apply find_some in Hplanner as [Hin Hid].
      apply bool_decide_eq_true in Hid.
      split_and!; [done | by apply list_elem_of_In |].
      rewrite Hid in Hplan. by rewrite Hplan.
    + by injection Hplan.
  - eapply promise_all_Forall2; [| exact Hrules].
    intros skill. apply pure_io_readonly, pure_renderTemplateFile.
  - apply Forall_forall. intros skill Hin. unfold Agents.guideSkills in Hin.
    apply elem_of_List_filter in Hin as [Hid _].
    by apply negb_true_iff, bool_decide_eq_false in Hid.
Qed.

End AssemblyProps.

(** ** Target sets grow with the selection *)

Section MonotoneProps.

(** X21. A selection that contains another has a target set that
    contains the other's, so that going from the smaller selection to the
    larger one leaves no target stale: [skills add] and [harnesses add],
    which remove nothing, have nothing to remove. *)
Theorem targets_grow_with_selection
  (skills : list SkillManifest) (harnesses : list HarnessManifest)
  (skillIds skillIds' harnessIds harnessIds' : list string) :
  (∀ id, id ∈ skillIds → id ∈ skillIds') →
  (∀ id, id ∈ harnessIds → id ∈ harnessIds') →
  (∀ t, t ∈ Cli.collectOutputTargets skills harnesses skillIds harnessIds →
        t ∈ Cli.collectOutputTargets skills harnesses skillIds' harnessIds')
  ∧ Cli.staleTargets (Cli.collectOutputTargets skills harnesses skillIds harnessIds)
                     (Cli.collectOutputTargets skills harnesses skillIds' harnessIds')
    = []
  ∧ ∀ added addedHarnesses,
      Cli.staleTargets
        (Cli.collectOutputTargets skills harnesses skillIds harnessIds)
        (Cli.collectOutputTargets skills harnesses (skillIds ++ added)
                                  (harnessIds ++ addedHarnesses))
      = [].
Proof.
  assert (∀ ids ids' hids hids',
            (∀ id, id ∈ ids → id ∈ ids') → (∀ id, id ∈ hids → id ∈ hids') →
            ∀ t, t ∈ Cli.collectOutputTargets skills harnesses ids hids →
                 t ∈ Cli.collectOutputTargets skills harnesses ids' hids') as Hmono.
  { intros ids ids' hids hids' Hs Hh t. rewrite !collectOutputTargets_elem.
    intros [(id & Hid & Ht) | [(id & Hid & Ht) | Hfixed]]; [left | right; left | by auto];
      exists id; auto. }
  assert (∀ ids ids' hids hids',
            (∀ id, id ∈ ids → id ∈ ids') → (∀ id, id ∈ hids → id ∈ hids') →
            Cli.staleTargets (Cli.collectOutputTargets skills harnesses ids hids)
                             (Cli.collectOutputTargets skills harnesses ids' hids') = [])
    as Hstale.
  { intros ids ids' hids hids' Hs Hh.
    destruct (Cli.staleTargets _ _) as [| t stale] eqn:Hst; [done |].
    assert (t ∈ t :: stale) as Hin by left. rewrite <- Hst in Hin.
    apply staleTargets_elem in Hin as [Hprev Hnext]. destruct Hnext. by eapply Hmono. }
  intros Hs Hh. split_and!; [by apply Hmono | by apply Hstale |].
  intros added addedHarnesses. apply Hstale; intros id Hid; apply elem_of_app; by left.
Qed.

End MonotoneProps.

(** ** The backup directory *)

Section StampProps.

Lemma replace_colon_dot_get (s : string) (n : nat) :
  String.get n (Js.replace_colon_dot s)
  = match String.get n s with
    | Some c => Some (if bool_decide (c = ":"%char) || bool_decide (c = "."%char)
                      then "-"%char else c)
    | None => None
    end.
Proof.
  revert n. induction s as [| c s IH]; intros [| n]; simpl; done.
Qed.

(** X22. Without [--backup] the backup options are disabled and carry
    no directory, whatever the clock reads.  With it they are enabled
    with a non-empty directory under [ai/.backups] whose name is the time
    stamp with every colon and every dot, not only the first, replaced
    by a dash, and every other character kept. *)
Theorem buildBackupOptions_stamp (projectRoot now : string) :
  Cli.buildBackupOptions projectRoot false now = mkBackup false None
  ∧ ∃ stamp,
      Cli.buildBackupOptions projectRoot true now
      = mkBackup true (Some (Path.join [projectRoot; "ai"; ".backups"; stamp]))
      ∧ truthy (Some (Path.join [projectRoot; "ai"; ".backups"; stamp])) = true
      ∧ String.length stamp = String.length now
      ∧ ∀ n c, String.get n now = Some c →
               String.get n stamp
               = Some (if bool_decide (c = ":"%char ∨ c = "."%char) then "-"%char else c)
               ∧ String.get n stamp ≠ Some ":"%char
               ∧ String.get n stamp ≠ Some "."%char.
Proof.
  split; [done |]. exists (Js.replace_colon_dot now). split_and!.
  - done.
  - apply truthy_backupRootAt.
  - induction now as [| c s IH]; simpl; [done | by rewrite IH].
  - intros n c Hc. rewrite replace_colon_dot_get, Hc.
    repeat case_bool_decide; simpl; split_and!; try done; try tauto;
      intros [= ->]; tauto.
Qed.

End StampProps.

Section LocateProps.

Variable resolve : string → string.
Variable accessible : string → bool.

Lemma dirname_end_bounds l matched e :
  Path.dirname_end l matched = Some e → (1 <= e <= List.length l)%nat.
Proof.
  revert matched. induction l as [| c l IH]; intros matched; simpl; [done |].
  destruct (Path.is_slash c).
  - destruct matched.
    + intros H. apply IH in H. lia.
    + intros [= <-]. lia.
  - intros H. apply IH in H. lia.
Qed.

Lemma dirname_end_one l matched :
  Path.dirname_end l matched = Some 1 →
  ((if matched then 2 else 1) <= List.length l)%nat.
Proof.
  revert matched. induction l as [| c l IH]; intros matched; simpl; [done |].
  destruct (Path.is_slash c).
  - destruct matched.
    + intros H. apply IH in H. lia.
    + intros _. lia.
  - intros H. apply IH in H. simpl in H. destruct matched; lia.
Qed.

Lemma slice_to_length e p : (String.length (Path.slice_to e p) <= e)%nat.
Proof.
  revert p. induction e as [| e IH]; intros [| c p]; simpl; try lia.
  specialize (IH p). lia.
Qed.

Lemma length_list_ascii s : List.length (list_ascii_of_string s) = String.length s.
Proof. induction s; simpl; congruence. Qed.

(** A path is its own parent, or its parent admits fewer rounds. *)
Lemma dirname_decreases p :
  Path.dirname p ≠ p → (dirname_rounds (Path.dirname p) < dirname_rounds p)%nat.
Proof.
  unfold dirname_rounds, Path.dirname. destruct p as [| c rest].
  { intros _. rewrite bool_decide_eq_true_2, bool_decide_eq_false_2 by done. simpl. lia. }
  destruct (Path.dirname_end _ true) as [e |] eqn:Hend.
  - pose proof (dirname_end_bounds _ _ _ Hend) as [He1 He2].
    rewrite length_rev, length_list_ascii in He2.
    assert (String c rest ≠ ".") as Hdot.
    { intros [= -> ->]. simpl in He2. lia. }
    rewrite (bool_decide_eq_false_2 _ Hdot).
    destruct (Path.is_slash c && bool_decide (e = 1)) eqn:Hroot.
    + intros _. apply andb_true_iff in Hroot as [_ ->%bool_decide_eq_true].
      apply dirname_end_one in Hend. rewrite length_rev, length_list_ascii in Hend.
      simpl. lia.
    + intros _. pose proof (slice_to_length e (String c rest)).
      destruct (bool_decide (Path.slice_to e (String c rest) = ".")); simpl; lia.
  - destruct (Path.is_slash c) eqn:Hc.
    + intros Hne. destruct rest as [| c' rest'].
      * apply bool_decide_eq_true in Hc. by subst c.
      * rewrite (bool_decide_eq_false_2 ("/" = ".")) by done.
        rewrite (bool_decide_eq_false_2 (String c (String c' rest') = ".")) by done.
        simpl. lia.
    + intros Hne. rewrite (bool_decide_eq_true_2 ("." = ".")) by done.
      rewrite (bool_decide_eq_false_2 (String c rest = ".")) by congruence.
      lia.
Qed.

Lemma ancestor_fixed n p : Path.dirname p = p → ancestor n p = p.
Proof. intros Hp. induction n as [| n IH]; simpl; [done |]. by rewrite IH. Qed.

Lemma ancestor_succ n p : ancestor (S n) p = ancestor n (Path.dirname p).
Proof. apply Nat.iter_succ_r. Qed.

Lemma detectProjectRoot_loop_spec fuel resolved current :
  (dirname_rounds current < fuel)%nat →
  ∃ root,
    Locate.detectProjectRoot_loop accessible fuel resolved current = Some root
    ∧ ((∃ n, root = ancestor n current
             ∧ accessible (Path.join [root; ".git"]) = true
             ∧ ∀ m, (m < n)%nat →
                    accessible (Path.join [ancestor m current; ".git"]) = false)
       ∨ (root = resolved
          ∧ ∀ n, accessible (Path.join [ancestor n current; ".git"]) = false)).
Proof.
  revert current. induction fuel as [| fuel IH]; intros current Hfuel; [lia |].
  simpl. destruct (accessible (Path.join [current; ".git"])) eqn:Hgit.
  { exists current. split; [done |]. left. exists 0. split_and!; [done | done | lia]. }
  case_bool_decide as Hparent.
  { exists resolved. split; [done |]. right. split; [done |].
    intros n. by rewrite ancestor_fixed. }
  destruct (IH (Path.dirname current)) as (root & Hloop & Hroot).
  { apply dirname_decreases in Hparent. lia. }
  exists root. split; [done |].
  destruct Hroot as [(n & -> & Hacc & Hbelow) | [-> Hnone]].
  - left. exists (S n). rewrite ancestor_succ. split_and!; [done | done |].
    intros [| m] Hm; [done |]. rewrite ancestor_succ. apply Hbelow. lia.
  - right. split; [done |]. intros [| n]; [done |]. rewrite ancestor_succ. apply Hnone.
Qed.

(** X23. [detectProjectRoot] returns for every start directory: its
    loop ends.  The result is the nearest enclosing directory, the start
    directory included, that holds a [.git] entry; when there is none up
    to the root it is the start directory itself. *)
Theorem detectProjectRoot_nearest (start : string) :
  ∃ root,
    Locate.detectProjectRoot resolve accessible start = Some root
    ∧ ((∃ n, root = ancestor n (resolve start)
             ∧ accessible (Path.join [root; ".git"]) = true
             ∧ ∀ m, (m < n)%nat →
                    accessible (Path.join [ancestor m (resolve start); ".git"]) = false)
       ∨ (root = resolve start
          ∧ ∀ n, accessible (Path.join [ancestor n (resolve start); ".git"]) = false)).
Proof.
  unfold Locate.detectProjectRoot. apply detectProjectRoot_loop_spec.
  unfold dirname_rounds. case_bool_decide; lia.
Qed.

End LocateProps.

(** ** Doctor *)

Section DoctorProps.

Variable env : Env.
Variable registryRoot : string.
Variable relative : string → string → string.

Lemma for_of_readonly_result {A B} (xs : list A) (body : A → IO B) (f : A → B) w :
  (∀ x, body x w = (w, Ok (f x))) → for_of xs body w = (w, Ok (map f xs)).
Proof.
  intros Hbody. unfold for_of. induction xs as [| x xs IH]; simpl; [done |].
  unfold bind at 1. rewrite Hbody. unfold bind at 1. by rewrite IH.
Qed.

Lemma readonly_runDoctor projectRoot :
  readonly (Doctor.runDoctor env registryRoot relative projectRoot).
Proof.
  unfold Doctor.runDoctor.
  apply readonly_bind; [apply readonly_findManagerState |]. intros [state |];
    [| apply readonly_ret].
  apply readonly_bind; [apply readonly_cli_loadRegistry |]. intros registry.
  apply readonly_bind; [apply readonly_pathExists |]. intros agentsExists.
  apply readonly_bind; [apply readonly_pathExists |]. intros stateExists.
  apply readonly_bind.
  { apply readonly_for_of. intros skill.
    apply readonly_bind; [apply readonly_pathExists |]. intros; apply readonly_ret. }
  intros skillRows. apply readonly_bind; [| intros; apply readonly_ret].
  apply readonly_for_of. intros harness.
  destruct (Js.find _ _); [| apply readonly_ret].
  apply readonly_for_of. intros output.
  apply readonly_bind; [apply readonly_pathExists |]. intros; apply readonly_ret.
Qed.

(** What the doctor prints for a project with a state and a registry
    that loads. *)
Lemma runDoctor_rows projectRoot w state registry :
  (Cli.findManagerState env projectRoot w).2 = Ok (Some state) →
  (Cli.loadRegistry env registryRoot w).2 = Ok registry →
  Doctor.runDoctor env registryRoot relative projectRoot w
  = (w, Ok (Doctor.Table (doctorRows relative projectRoot registry state (files w)))).
Proof.
  intros Hst Hreg. unfold Doctor.runDoctor.
  rewrite bind_readonly, Hst by apply readonly_findManagerState.
  rewrite bind_readonly, Hreg by apply readonly_cli_loadRegistry.
  unfold bind at 1, pathExists at 1. unfold bind at 1, pathExists at 1.
  unfold bind at 1.
  rewrite (for_of_readonly_result (st_skills state) _
             (fun skill =>
                Doctor.formatStatusRow ("Skill " +:+ sel_id skill)
                  (bool_decide (is_Some (files w !! Path.join
                     [projectRoot; "ai"; "skills"; sel_id skill +:+ "-skill.md"])))
                  (relative projectRoot
                     (Path.join [projectRoot; "ai"; "skills";
                                 sel_id skill +:+ "-skill.md"])))) by done.
  unfold bind at 1.
  rewrite (for_of_readonly_result (st_harnesses state) _
             (fun harness =>
                match findHarness (harnesses registry) (selh_id harness) with
                | None =>
                    [Doctor.formatStatusRow ("Harness " +:+ selh_id harness) false
                                            "Missing in registry"]
                | Some manifest =>
                    map (fun output =>
                           Doctor.formatStatusRow ("Harness " +:+ selh_id harness)
                             (bool_decide
                                (is_Some (files w !! Path.join [projectRoot; target output])))
                             (relative projectRoot (Path.join [projectRoot; target output])))
                        (harness_outputs manifest)
                end)); [done |].
  intros harness. unfold findHarness.
  destruct (Js.find _ (harnesses registry)) as [manifest |]; [| done].
  by apply for_of_readonly_result.
Qed.

(** X24. [doctor] only reads: it issues no file system call and leaves
    every file as it is, whatever it reports.  Without a state file it
    reports that the project is not initialised without loading the
    registry; with a state and a registry that loads, its rows are the
    two fixed rows, one row for each selected skill, telling whether
    [ai/skills/<id>-skill.md] exists whatever outputs the manifest of the
    skill declares, and for each selected harness either one failing row
    when the registry has no such harness or one row for each declared
    output. *)
Theorem doctor_reads_only (projectRoot : string) (w : World) :
  (Doctor.runDoctor env registryRoot relative projectRoot w).1 = w
  ∧ (files w !! Path.join [projectRoot; "ai"; "ai-manager.json"] = None →
     Doctor.runDoctor env registryRoot relative projectRoot w
     = (w, Ok Doctor.NotInitialized))
  ∧ (∀ state registry,
       (Cli.findManagerState env projectRoot w).2 = Ok (Some state) →
       (Cli.loadRegistry env registryRoot w).2 = Ok registry →
       Doctor.runDoctor env registryRoot relative projectRoot w
       = (w, Ok (Doctor.Table (doctorRows relative projectRoot registry state (files w))))
       ∧ (∀ row, row ∈ doctorRows relative projectRoot registry state (files w) →
                 row.1.1 = Doctor.IconBad →
                 row.1.2 = "Agents" ∨ row.1.2 = "State"
                 ∨ (∃ skill, skill ∈ st_skills state
                             ∧ row.1.2 = "Skill " +:+ sel_id skill
                             ∧ files w !! Path.join [projectRoot; "ai"; "skills";
                                                     sel_id skill +:+ "-skill.md"] = None)
                 ∨ (∃ harness, harness ∈ st_harnesses state
                               ∧ row.1.2 = "Harness " +:+ selh_id harness
                               ∧ (findHarness (harnesses registry) (selh_id harness) = None
                                  ∨ ∃ manifest output,
                                      findHarness (harnesses registry) (selh_id harness)
                                      = Some manifest
                                      ∧ output ∈ harness_outputs manifest
                                      ∧ files w !! Path.join [projectRoot; target output]
                                        = None)))).
Proof.
  split_and!.
  - apply readonly_runDoctor.
  - intros Hnone. unfold Doctor.runDoctor.
    unfold bind at 1. by rewrite findManagerState_result, Hnone.
  - intros state registry Hst Hreg. split; [by apply runDoctor_rows |].
    intros row Hrow Hbad. unfold doctorRows in Hrow.
    apply elem_of_cons in Hrow as [-> | Hrow]; [by left |].
    apply elem_of_cons in Hrow as [-> | Hrow]; [right; by left |].
    apply elem_of_app in Hrow as [Hrow | Hrow].
    + apply elem_of_map in Hrow as (skill & -> & Hin).
      right. right. left. exists skill. split_and!; [done | done |].
      simpl in Hbad. case_bool_decide as Hex; [done |].
      by apply eq_None_not_Some.
    + apply list_elem_of_In, in_concat in Hrow as (rows & Hrows & Hrow).
      apply list_elem_of_In, elem_of_map in Hrows as (harness & -> & Hin).
      apply list_elem_of_In in Hrow.
      right. right. right. exists harness.
      destruct (findHarness (harnesses registry) (selh_id harness)) as [manifest |] eqn:Hfind.
      * apply elem_of_map in Hrow as (output & -> & Hout).
        split_and!; [done | done |]. right. exists manifest, output.
        split_and!; [done | done |].
        simpl in Hbad. case_bool_decide as Hex; [done |].
        by apply eq_None_not_Some.
      * apply list_elem_of_singleton in Hrow as ->. split_and!; [done | done | by left].
Qed.

End DoctorProps.

Section DoctorAfterInit.

Variable env : Env.
Variable registryRoot : string.
Variable relative : string → string → string.

Lemma pure_cli_loadRegistry : pure_io (Cli.loadRegistry env registryRoot).
Proof.
  unfold Cli.loadRegistry, RegistryLoader.loadRegistry.
  apply pure_bind.
  { unfold RegistryLoader.loadSkills. apply pure_bind; [apply pure_lift |]. intros dirs.
    apply pure_bind; [| intros; apply pure_ret].
    apply pure_promise_all, Forall_forall. intros p (dir & -> & _)%elem_of_map.
    apply pure_lift. }
  intros skills. apply pure_bind.
  { unfold RegistryLoader.loadHarnesses. apply pure_bind; [apply pure_lift |]. intros dirs.
    apply pure_bind; [| intros; apply pure_ret].
    apply pure_promise_all, Forall_forall. intros p (dir & -> & _)%elem_of_map.
    apply pure_lift. }
  intros harnesses. apply pure_bind; [| intros; apply pure_ret].
  unfold RegistryLoader.assertValidRegistryIds.
  repeat case_match; first [apply pure_ret | apply pure_throw].
Qed.

Lemma loadRegistry_any_world w1 w2 :
  (Cli.loadRegistry env registryRoot w1).2 = (Cli.loadRegistry env registryRoot w2).2.
Proof. destruct pure_cli_loadRegistry as [r Hr]. by rewrite !Hr. Qed.

(** X25. After a completed [init], [doctor] finds the agents document,
    the state file and every output of every selected harness in place,
    and every selected harness in the registry: a row that fails is the
    row of a skill.  The state read back is taken to list the harnesses
    that were selected. *)
Theorem doctor_after_init (projectRoot : string) (enableBackup : bool)
  (t_backup now : string) (fs : gmap string string) (w' : World) (out : Cli.Outcome)
  (registry : Registry) (state : ManagerState) :
  (exec (Cli.loadRegistry env registryRoot) fs).2 = Ok registry →
  exec (Cli.runInit env registryRoot projectRoot enableBackup t_backup now) fs
  = (w', Ok out) →
  (exec (Cli.findManagerState env projectRoot) (files w')).2 = Ok (Some state) →
  map selh_id (st_harnesses state) = Cli.selectHarnesses env (harnesses registry) →
  ∃ rows,
    exec (Doctor.runDoctor env registryRoot relative projectRoot) (files w')
    = (mkWorld (files w') [], Ok (Doctor.Table rows))
    ∧ ∀ row, row ∈ rows → row.1.1 = Doctor.IconBad →
             ∃ skill, skill ∈ st_skills state ∧ row.1.2 = "Skill " +:+ sel_id skill.
Proof.
  intros Hreg Hinit Hst Hids.
  assert ((Cli.loadRegistry env registryRoot (mkWorld (files w') [])).2 = Ok registry)
    as Hreg'.
  { by rewrite (loadRegistry_any_world _ (mkWorld fs [])). }
  exists (doctorRows relative projectRoot registry state (files w')).
  unfold exec in *.
  split; [by rewrite (runDoctor_rows env registryRoot relative projectRoot _ state registry) |].
  (* the files a completed init leaves *)
  unfold Cli.runInit in Hinit.
  rewrite bind_readonly, Hreg in Hinit by apply readonly_cli_loadRegistry.
  apply bind_inv_ok in Hinit as (w2 & selectedSkills & _ & H).
  apply bind_inv_ok in H as (w3 & createdFiles & Hrender & H).
  apply bind_inv_ok in H as (w4 & statePath & Hstate & Hret).
  injection Hret as -> _.
  assert (∀ p, is_Some (files w3 !! p) → is_Some (files w' !! p)) as Hkeep.
  { intros p Hp.
    pose proof (keeps_files_writes_only _ _ _ _
                  (writeState_writes_only env projectRoot
                     (mkState Cli.CURRENT_VERSION now now projectRoot
                        (Cli.scanProjectFacts projectRoot (readdir env projectRoot))
                        selectedSkills
                        (map (fun id => mkSelectedHarness id (Cli.harnessVersion registry id))
                             (Cli.selectHarnesses env (harnesses registry))))
                     (Cli.buildBackupOptions projectRoot enableBackup t_backup))
                  w3 p Hp) as Hk.
    by rewrite Hstate in Hk. }
  assert (is_Some (files w' !! Path.join [projectRoot; "ai"; "ai-manager.json"])) as Hstatefile.
  { pose proof (writeState_lookup env projectRoot
                  (mkState Cli.CURRENT_VERSION now now projectRoot
                     (Cli.scanProjectFacts projectRoot (readdir env projectRoot))
                     selectedSkills
                     (map (fun id => mkSelectedHarness id (Cli.harnessVersion registry id))
                          (Cli.selectHarnesses env (harnesses registry))))
                  (Cli.buildBackupOptions projectRoot enableBackup t_backup) w3) as Hl.
    rewrite Hstate in Hl. simpl in Hl. by rewrite Hl. }
  apply yields_renderAll in Hrender as (ops & -> & Hr & -> & Hg).
  assert (∀ p, p ∈ renderedPaths projectRoot (skills registry) (harnesses registry)
                     selectedSkills
                     (map (fun id => mkSelectedHarness id (Cli.harnessVersion registry id))
                          (Cli.selectHarnesses env (harnesses registry))) →
               is_Some (files w' !! p)) as Hrendered.
  { intros p Hp. apply Hkeep. simpl. apply generated_exists; [by rewrite Hg | done]. }
  intros row Hrow Hbad. unfold doctorRows in Hrow.
  apply elem_of_cons in Hrow as [-> | Hrow].
  { simpl in Hbad. rewrite bool_decide_eq_true_2 in Hbad; [done |].
    apply Hrendered. left. }
  apply elem_of_cons in Hrow as [-> | Hrow].
  { simpl in Hbad. by rewrite bool_decide_eq_true_2 in Hbad. }
  apply elem_of_app in Hrow as [Hrow | Hrow].
  { apply elem_of_map in Hrow as (skill & -> & Hin). by exists skill. }
  exfalso.
  apply list_elem_of_In, in_concat in Hrow as (rows & Hrows & Hrow).
  apply list_elem_of_In, elem_of_map in Hrows as (harness & -> & Hin).
  apply list_elem_of_In in Hrow.
  assert (selh_id harness ∈ Cli.selectHarnesses env (harnesses registry)) as Hsel.
  { rewrite <- Hids. apply elem_of_map. eauto. }
  destruct (findHarness (harnesses registry) (selh_id harness)) as [manifest |] eqn:Hfind.
  - apply elem_of_map in Hrow as (output & -> & Hout).
    simpl in Hbad. rewrite bool_decide_eq_true_2 in Hbad; [done |].
    apply Hrendered. unfold renderedPaths. right. apply elem_of_app. right.
    apply list_elem_of_In, in_concat.
    exists (harnessOutputPaths projectRoot (harnesses registry)
              (mkSelectedHarness (selh_id harness)
                 (Cli.harnessVersion registry (selh_id harness)))).
    split.
    + apply list_elem_of_In, elem_of_map. eexists. split; [done |].
      apply elem_of_map. eauto.
    + apply list_elem_of_In. unfold harnessOutputPaths. simpl. rewrite Hfind.
      apply elem_of_map. eauto.
  - apply findHarness_None in Hfind. apply Hfind.
    unfold Cli.selectHarnesses in Hsel. by apply elem_of_List_filter in Hsel as [_ ?].
Qed.

End DoctorAfterInit.

(** ** The update prompt *)

Section UpdateProps.

Variable semver_valid : string → bool.
Variable semver_gt : string → string → bool.
Variable homedir : string.
Variable config_parse : string → option Update.UserConfig.
Variable config_stringify : Update.UserConfig → string.
Variable date_getTime : string → option Z.

Abbreviation maybeShowUpdatePrompt :=
  (Update.maybeShowUpdatePrompt semver_valid semver_gt homedir config_parse
     config_stringify date_getTime).
Abbreviation configPath := (Update.configPath homedir).
Abbreviation newer := (update_due semver_valid semver_gt).

Lemma loadUserConfig_result w :
  Update.loadUserConfig homedir config_parse w
  = (w, match files w !! configPath with
        | None => Ok (Update.mkConfig None None)
        | Some raw =>
            match config_parse raw with
            | Some config => Ok config
            | None => Err (JsonSyntaxError configPath)
            end
        end).
Proof.
  unfold Update.loadUserConfig, pathExists, fs_readFile, bind, ret, throw.
  destruct (files w !! configPath) as [raw |] eqn:Hraw.
  - rewrite bool_decide_eq_true_2 by eauto. simpl. rewrite Hraw.
    by destruct (config_parse raw).
  - rewrite bool_decide_eq_false_2; [done |]. by intros [? ?].
Qed.

Lemma update_prompt_due latest nowMs nowIso choice w :
  newer latest →
  maybeShowUpdatePrompt (Some latest) nowMs nowIso choice w
  = match (Update.loadUserConfig homedir config_parse w).2 with
    | Err e => (w, Err e)
    | Ok config =>
        if (if bool_decide (Update.deferredVersion config = Some latest)
               && truthy (Update.deferredAt config)
            then match date_getTime (default "" (Update.deferredAt config)) with
                 | Some deferredAt => bool_decide (nowMs - deferredAt < 604800000)%Z
                 | None => false
                 end
            else false)
        then (w, Ok Update.NoPrompt)
        else
          match choice with
          | Update.Later =>
              (mkWorld (<[configPath :=
                            config_stringify (Update.mkConfig (Some latest) (Some nowIso))
                            +:+ nl]> (files w))
                       (trace w ++ [OpMkdir (Path.dirname configPath);
                                    OpWriteFile configPath
                                      (Utf8 (config_stringify
                                               (Update.mkConfig (Some latest) (Some nowIso))
                                             +:+ nl))]),
               Ok Update.Postponed)
          | Update.Install => (w, Ok Update.InstallHint)
          | Update.NoChoice => (w, Ok Update.Dismissed)
          end
    end.
Proof.
  intros (Hne & Hv & Hcur & Hgt). unfold Update.maybeShowUpdatePrompt.
  cbn [truthy from_option id]. rewrite (bool_decide_eq_false_2 _ Hne), Hv, Hcur, Hgt.
  cbn [negb orb].
  unfold bind at 1. rewrite loadUserConfig_result. cbn [snd].
  change (Update.UPDATE_DEFER_DAYS * 24 * 60 * 60 * 1000)%Z with 604800000%Z.
  destruct (match files w !! configPath with
            | Some raw => _
            | None => _
            end) as [config | e]; [| done].
  destruct (if bool_decide (Update.deferredVersion config = Some latest)
               && truthy (Update.deferredAt config) then _ else false); [done |].
  destruct choice; try done.
  unfold Update.writeUserConfig, bind, ensureDir, fs_writeFile, ret. simpl.
  by rewrite <- app_assoc.
Qed.

(** X26. When no version was fetched, or the version fetched is empty,
    not a valid version or not newer than the running one, the update
    prompt is not shown and nothing is read or written: the command runs
    even with an unreadable user config. *)
Theorem update_prompt_silent (latest : option string) (nowMs : Z) (nowIso : string)
  (choice : Update.Choice) (w : World) :
  latest = None ∨ latest = Some ""
  ∨ semver_valid (default "" latest) = false
  ∨ semver_gt (default "" latest) Cli.CURRENT_VERSION = false →
  maybeShowUpdatePrompt latest nowMs nowIso choice w = (w, Ok Update.NoPrompt).
Proof.
  unfold Update.maybeShowUpdatePrompt.
  intros [-> | [-> | [Hv | Hgt]]]; try done.
  - rewrite Hv, orb_true_r. done.
  - rewrite Hgt. by destruct (_ || _ || _).
Qed.

(** X27. When a newer version is available and the user config exists
    but is not valid JSON, the update prompt fails with the syntax error
    of that file, and with it the command it precedes; nothing is
    written. *)
Theorem update_prompt_corrupt_config (latest : string) (nowMs : Z) (nowIso : string)
  (choice : Update.Choice) (w : World) (raw : string) :
  newer latest →
  files w !! configPath = Some raw →
  config_parse raw = None →
  maybeShowUpdatePrompt (Some latest) nowMs nowIso choice w
  = (w, Err (JsonSyntaxError configPath)).
Proof.
  intros Hnewer Hraw Hparse.
  by rewrite update_prompt_due, loadUserConfig_result, Hraw, Hparse.
Qed.

(** X28. Choosing Later records the version and the time in the user
    config, and nothing else changes.  While fewer than seven days have
    passed since, the prompt for that version is not shown again and
    nothing is written; from seven days on, and at once for another
    newer version, it is shown again.  The config is taken to be read
    back as written and the recorded time to be a date. *)
Theorem update_deferral (latest : string) (nowMs : Z) (nowIso : string)
  (choice : Update.Choice) (w w1 : World) (deferredAt : Z) :
  newer latest →
  nowIso ≠ "" →
  config_parse (config_stringify (Update.mkConfig (Some latest) (Some nowIso)) +:+ nl)
  = Some (Update.mkConfig (Some latest) (Some nowIso)) →
  date_getTime nowIso = Some deferredAt →
  maybeShowUpdatePrompt (Some latest) nowMs nowIso choice w = (w1, Ok Update.Postponed) →
  let shown (choice' : Update.Choice) :=
    match choice' with
    | Update.Later => Update.Postponed
    | Update.Install => Update.InstallHint
    | Update.NoChoice => Update.Dismissed
    end in
  choice = Update.Later
  ∧ files w1
    = <[configPath := config_stringify (Update.mkConfig (Some latest) (Some nowIso)) +:+ nl]>
        (files w)
  ∧ trace w1
    = trace w ++ [OpMkdir (Path.dirname configPath);
                  OpWriteFile configPath
                    (Utf8 (config_stringify (Update.mkConfig (Some latest) (Some nowIso))
                           +:+ nl))]
  ∧ (∀ nowMs' nowIso' choice',
       (nowMs' - deferredAt < 7 * 24 * 60 * 60 * 1000)%Z →
       maybeShowUpdatePrompt (Some latest) nowMs' nowIso' choice' w1
       = (w1, Ok Update.NoPrompt))
  ∧ (∀ nowMs' nowIso' choice',
       (7 * 24 * 60 * 60 * 1000 <= nowMs' - deferredAt)%Z →
       ∃ w2, maybeShowUpdatePrompt (Some latest) nowMs' nowIso' choice' w1
             = (w2, Ok (shown choice')))
  ∧ (∀ latest' nowMs' nowIso' choice',
       newer latest' → latest' ≠ latest →
       ∃ w2, maybeShowUpdatePrompt (Some latest') nowMs' nowIso' choice' w1
             = (w2, Ok (shown choice'))).
Proof.
  intros Hnewer Hiso Hjson Htime Hrun shown.
  rewrite update_prompt_due in Hrun by done.
  destruct (Update.loadUserConfig homedir config_parse w).2 as [config | e]; [| done].
  destruct (if bool_decide (Update.deferredVersion config = Some latest)
               && truthy (Update.deferredAt config) then _ else false); [done |].
  destruct choice; try done.
  injection Hrun as <-. cbn [files trace].
  set (written := config_stringify (Update.mkConfig (Some latest) (Some nowIso)) +:+ nl).
  assert (∀ tr,
            (Update.loadUserConfig homedir config_parse
               (mkWorld (<[configPath := written]> (files w)) tr)).2
            = Ok (Update.mkConfig (Some latest) (Some nowIso))) as Hload.
  { intros tr. rewrite loadUserConfig_result. cbn [files snd].
    rewrite lookup_insert_eq. unfold written. by rewrite Hjson. }
  split_and!; [done | done | done | | |].
  - intros nowMs' nowIso' choice' Hsoon. rewrite update_prompt_due, Hload by done.
    cbn [Update.deferredVersion Update.deferredAt truthy from_option id].
    rewrite (bool_decide_eq_true_2 (Some latest = Some latest)) by done.
    rewrite (bool_decide_eq_false_2 _ Hiso), Htime. cbn [negb andb].
    by rewrite bool_decide_eq_true_2 by lia.
  - intros nowMs' nowIso' choice' Hlate. rewrite update_prompt_due, Hload by done.
    cbn [Update.deferredVersion Update.deferredAt truthy from_option id].
    rewrite (bool_decide_eq_true_2 (Some latest = Some latest)) by done.
    rewrite (bool_decide_eq_false_2 _ Hiso), Htime. cbn [negb andb].
    rewrite bool_decide_eq_false_2 by lia. destruct choice'; eauto.
  - intros latest' nowMs' nowIso' choice' Hnewer' Hother.
    rewrite update_prompt_due, Hload by done.
    cbn [Update.deferredVersion].
    rewrite (bool_decide_eq_false_2 (Some latest = Some latest')) by congruence.
    cbn [andb]. destruct choice'; eauto.
Qed.

End UpdateProps.

(** * The model at work *)

Section Examples.

Lemma compare_Z_le a b : (Demo.compare_Z a b <= 0)%Z ↔ String.le a b.
Proof.
  unfold Demo.compare_Z, String.le, String.leb.
  destruct (String.compare a b); simpl; split; try done; lia.
Qed.

Lemma compare_Z_consistent : consistent Demo.compare_Z.
Proof.
  split.
  - intros a b. rewrite !compare_Z_le. apply String.le_total.
  - intros a b c. rewrite !compare_Z_le. apply transitivity.
Qed.

Lemma removal_is_target_set_difference_witness :
  let env := Demo.env (Demo.only "frontend-design") Demo.all in
  (exec (Cli.findManagerState env Demo.projectRoot) Demo.fs_inited).2 = Ok (Some Demo.state0)
  ∧ (exec (Cli.loadRegistry env Demo.registryRoot) Demo.fs_inited).2 = Ok Demo.registry
  ∧ ∃ stale,
      removed_paths
        (trace (exec (Cli.runSkillsAddRemove env Demo.registryRoot Demo.projectRoot
                        Cli.Remove true Demo.now Demo.now) Demo.fs_inited).1)
      = map (fun t => Path.join [Demo.projectRoot; t]) stale
      ∧ NoDup stale
      ∧ list_to_set stale
        = spec_targetSet Demo.registry (selectionOf Demo.state0)
          ∖ spec_targetSet Demo.registry (afterSkillsRemove env Demo.registry Demo.state0).
Proof.
  intros env.
  assert ((exec (Cli.findManagerState env Demo.projectRoot) Demo.fs_inited).2
          = Ok (Some Demo.state0)) as Hst by (vm_compute; reflexivity).
  assert ((exec (Cli.loadRegistry env Demo.registryRoot) Demo.fs_inited).2
          = Ok Demo.registry) as Hreg by (vm_compute; reflexivity).
  split; [exact Hst |]. split; [exact Hreg |].
  exact (proj1 (proj1 (proj1 (removal_is_target_set_difference env Demo.registryRoot
                                Demo.projectRoot true Demo.now Demo.now Demo.fs_inited)
                         Demo.state0 Demo.registry Hst Hreg))).
Defined.

(** Removing a skill that declares the state file under another spelling
    deletes the state file, which is a file of the next target set. *)
Lemma removal_of_kept_file_counterexample :
  let removed :=
    removed_paths
      (trace (exec (Cli.runSkillsAddRemove Demo.env_mirror Demo.registryRoot
                      Demo.projectRoot Cli.Remove false Demo.now Demo.now)
                   Demo.fs_mirror).1) in
  let T1 := spec_targetSet Demo.registry_mirror (selectionOf Demo.state_mirror) in
  let T2 :=
    spec_targetSet Demo.registry_mirror
      (afterSkillsRemove Demo.env_mirror Demo.registry_mirror Demo.state_mirror) in
  (exec (Cli.findManagerState Demo.env_mirror Demo.projectRoot) Demo.fs_mirror).2
  = Ok (Some Demo.state_mirror)
  ∧ (exec (Cli.loadRegistry Demo.env_mirror Demo.registryRoot) Demo.fs_mirror).2
    = Ok Demo.registry_mirror
  ∧ removed = [Path.join [Demo.projectRoot; "ai/ai-manager.json"]]
  ∧ "ai/ai-manager.json" ∈ T2
  ∧ "/proj/ai/ai-manager.json" ∈ targetFiles Demo.projectRoot T2
  ∧ ¬ ((list_to_set removed : gset string)
       = targetFiles Demo.projectRoot T1 ∖ targetFiles Demo.projectRoot T2).
Proof.
  intros removed T1 T2.
  assert (removed = ["/proj/ai/ai-manager.json"]) as Hremoved by (vm_compute; reflexivity).
  assert ("/proj/ai/ai-manager.json" ∈ targetFiles Demo.projectRoot T2) as Hkept.
  { apply fin_sets.elem_of_map. exists "ai/ai-manager.json". split; [vm_compute; reflexivity |].
    unfold T2, spec_targetSet. set_solver. }
  split_and!; [vm_compute; reflexivity | vm_compute; reflexivity | done | | done |].
  { unfold T2, spec_targetSet. set_solver. }
  intros Heq.
  assert ("/proj/ai/ai-manager.json" ∈ (list_to_set removed : gset string)) as Hin.
  { rewrite Hremoved. set_solver. }
  rewrite Heq in Hin. apply elem_of_difference in Hin as [_ Hnot]. by apply Hnot.
Qed.

Example skills_remove_deletes_the_skill_file :
  removed_paths
    (trace (exec (Cli.runSkillsAddRemove (Demo.env (Demo.only "frontend-design") Demo.all)
                    Demo.registryRoot Demo.projectRoot Cli.Remove true
                    Demo.now Demo.now) Demo.fs_inited).1)
  = ["/proj/ai/skills/frontend-design-skill.md"].
Proof. vm_compute. reflexivity. Qed.

(** The backup lands under the mirrored absolute path, not under the
    path relative to the project root, whichever way the time stamp is
    written. *)
Lemma backup_location_counterexample :
  backup_writes
    (trace (exec (writeFileAlways (Path.join [Demo.projectRoot; "ai/agents.md"]) "new"
                    (Cli.buildBackupOptions Demo.projectRoot true Demo.now))
                 Demo.fs_inited).1)
  = [("/proj/ai/.backups/2026-02-02T10-20-30-456Z/proj/ai/agents.md", "old agents")]
  ∧ claimed_backup_path Demo.projectRoot (Js.replace_colon_dot Demo.now) "ai/agents.md"
    = "/proj/ai/.backups/2026-02-02T10-20-30-456Z/ai/agents.md"
  ∧ claimed_backup_path Demo.projectRoot (replace_colon Demo.now) "ai/agents.md"
    = "/proj/ai/.backups/2026-02-02T10-20-30.456Z/ai/agents.md"
  ∧ ¬ (∀ stamp,
         stamp = Js.replace_colon_dot Demo.now ∨ stamp = replace_colon Demo.now →
         claimed_backup_path Demo.projectRoot stamp "ai/agents.md"
         ∈ map fst
             (backup_writes
                (trace (exec (writeFileAlways
                                (Path.join [Demo.projectRoot; "ai/agents.md"]) "new"
                                (Cli.buildBackupOptions Demo.projectRoot true Demo.now))
                             Demo.fs_inited).1))).
Proof.
  split_and!; [vm_compute; reflexivity ..|].
  intros H. specialize (H _ (or_introl eq_refl)).
  vm_compute in H. apply list_elem_of_singleton in H. discriminate H.
Qed.

Lemma backup_mirrors_absolute_path_witness :
  Path.isAbsolute "/proj/ai/agents.md" = true
  ∧ Demo.fs_inited !! "/proj/ai/agents.md" = Some "old agents"
  ∧ backup_writes
      (trace (exec (writeFileAlways "/proj/ai/agents.md" "new"
                      (Cli.buildBackupOptions Demo.projectRoot true Demo.now))
                   Demo.fs_inited).1)
    = [(Path.join [Path.join [Demo.projectRoot; "ai"; ".backups";
                              Js.replace_colon_dot Demo.now];
                   Path.slice_from 1 "/proj/ai/agents.md"],
        "old agents")].
Proof.
  assert (Path.isAbsolute "/proj/ai/agents.md" = true) as Habs by reflexivity.
  assert (Demo.fs_inited !! "/proj/ai/agents.md" = Some "old agents") as Hex
    by (vm_compute; reflexivity).
  split; [exact Habs |]. split; [exact Hex |].
  apply (proj1 (backup_mirrors_absolute_path Demo.projectRoot Demo.now
                  "/proj/ai/agents.md" "new" Demo.fs_inited "old agents" Habs Hex)).
Defined.

(** The same backup path, written out. *)
Example backup_path_written_out :
  Path.join [Path.join [Demo.projectRoot; "ai"; ".backups"; Js.replace_colon_dot Demo.now];
             Path.slice_from 1 "/proj/ai/agents.md"]
  = "/proj" +:+ "/ai/.backups/" +:+ "2026-02-02T10-20-30-456Z" +:+ "/proj/ai/agents.md".
Proof.
  assert (Path.isAbsolute "/proj/ai/agents.md" = true) as Habs by reflexivity.
  assert (Demo.fs_inited !! "/proj/ai/agents.md" = Some "old agents") as Hex
    by (vm_compute; reflexivity).
  destruct (backup_mirrors_absolute_path Demo.projectRoot Demo.now
              "/proj/ai/agents.md" "new" Demo.fs_inited "old agents" Habs Hex)
    as (_ & _ & Hclean).
  apply (Hclean ["proj"] ["ai"; "agents.md"]);
    first [done | repeat constructor; done | vm_compute; reflexivity].
Qed.

(** Removing two stale files with backups enabled: each removal comes
    after the copy of the file it removes; the target that does not exist
    is removed without a copy. *)
Example backups_of_a_batch_of_stale_files :
  trace (exec (Cli.removeStaleOutputs Demo.projectRoot
                 ["ai/skills/frontend-design-skill.md"; "ai/skills/planner-skill.md";
                  "ai/agents.md"]
                 (Cli.buildBackupOptions Demo.projectRoot true Demo.now)) Demo.fs_inited).1
  = [OpMkdir "/proj/ai/.backups/2026-02-02T10-20-30-456Z/proj/ai/skills";
     OpWriteFile
       "/proj/ai/.backups/2026-02-02T10-20-30-456Z/proj/ai/skills/frontend-design-skill.md"
       (Buffer "old skill");
     OpRm "/proj/ai/skills/frontend-design-skill.md";
     OpRm "/proj/ai/skills/planner-skill.md";
     OpMkdir "/proj/ai/.backups/2026-02-02T10-20-30-456Z/proj/ai";
     OpWriteFile "/proj/ai/.backups/2026-02-02T10-20-30-456Z/proj/ai/agents.md"
       (Buffer "old agents");
     OpRm "/proj/ai/agents.md"].
Proof. vm_compute. reflexivity. Qed.

(** [skills remove] with backups enabled copies the file it removes and
    the two files it overwrites, and nothing else. *)
Example skills_remove_backs_up_what_it_touches :
  backup_writes
    (trace (exec (Cli.runSkillsAddRemove (Demo.env (Demo.only "frontend-design") Demo.all)
                    Demo.registryRoot Demo.projectRoot Cli.Remove true
                    Demo.now Demo.now) Demo.fs_inited).1)
  = [("/proj/ai/.backups/2026-02-02T10-20-30-456Z/proj/ai/skills/frontend-design-skill.md",
      "old skill");
     ("/proj/ai/.backups/2026-02-02T10-20-30-456Z/proj/ai/agents.md", "old agents");
     ("/proj/ai/.backups/2026-02-02T10-20-30-456Z/proj/ai/ai-manager.json",
      Demo.json_stringify Demo.state0 +:+ nl)].
Proof. vm_compute. reflexivity. Qed.

Lemma reconcile_idempotent_witness :
  let run backup now :=
    reconcile (Demo.env Demo.all Demo.all) Demo.registryRoot Demo.projectRoot
      Demo.registry Demo.state0 (st_skills Demo.state0) (st_harnesses Demo.state0)
      backup now in
  let w1 := (exec (run (mkBackup false None) Demo.now) ∅).1 in
  let created :=
    ["/proj/ai/agents.md"; "/proj/ai/skills/frontend-design-skill.md";
     "/proj/ai/skills/planner-skill.md"; "/proj/.cursor/rules/ai-manager.mdc";
     "/proj/AGENTS.md"] in
  exec (run (mkBackup false None) Demo.now) ∅ = (w1, Ok created)
  ∧ ∃ w2 generated,
      exec (run (mkBackup false None) Demo.later) (files w1) = (w2, Ok created)
      ∧ generated_writes (trace w1)
        = generated ++ [(Path.join [Demo.projectRoot; "ai"; "ai-manager.json"],
                         Demo.json_stringify
                           (nextState Demo.state0 Demo.now (st_skills Demo.state0)
                              (st_harnesses Demo.state0)) +:+ nl)]
      ∧ generated_writes (trace w2)
        = generated ++ [(Path.join [Demo.projectRoot; "ai"; "ai-manager.json"],
                         Demo.json_stringify
                           (nextState Demo.state0 Demo.later (st_skills Demo.state0)
                              (st_harnesses Demo.state0)) +:+ nl)].
Proof.
  intros run w1 created.
  assert (exec (run (mkBackup false None) Demo.now) ∅ = (w1, Ok created)) as Hrun
    by (vm_compute; reflexivity).
  split; [exact Hrun |].
  destruct (reconcile_idempotent (Demo.env Demo.all Demo.all) Demo.registryRoot
              Demo.projectRoot Demo.registry Demo.state0 (st_skills Demo.state0)
              (st_harnesses Demo.state0) (mkBackup false None) (mkBackup false None)
              Demo.now Demo.later ∅ w1 created Hrun)
    as (w2 & generated & Hrun2 & Hg1 & Hg2 & _).
  exists w2, generated. split_and!; [exact Hrun2 | exact Hg1 | exact Hg2].
Defined.

Lemma loadRegistry_unique_ids_witness :
  consistent Demo.compare_Z
  ∧ (RegistryLoader.loadSkills Demo.compare_Z Demo.listDirectories Demo.readSkillManifest
       Demo.registryRoot (mkWorld ∅ [])).2 = Ok [Demo.frontend; Demo.planner]
  ∧ (RegistryLoader.loadHarnesses Demo.compare_Z Demo.listDirectories
       Demo.readHarnessManifest Demo.registryRoot (mkWorld ∅ [])).2
    = Ok [Demo.codex; Demo.cursor]
  ∧ RegistryLoader.loadRegistry Demo.compare_Z Demo.listDirectories
      Demo.readSkillManifest Demo.readHarnessManifest Demo.registryRoot (mkWorld ∅ [])
    = (mkWorld ∅ [], Ok (mkRegistry [Demo.frontend; Demo.planner] [Demo.codex; Demo.cursor])).
Proof.
  assert ((RegistryLoader.loadSkills Demo.compare_Z Demo.listDirectories
             Demo.readSkillManifest Demo.registryRoot (mkWorld ∅ [])).2
          = Ok [Demo.frontend; Demo.planner]) as Hs by (vm_compute; reflexivity).
  assert ((RegistryLoader.loadHarnesses Demo.compare_Z Demo.listDirectories
             Demo.readHarnessManifest Demo.registryRoot (mkWorld ∅ [])).2
          = Ok [Demo.codex; Demo.cursor]) as Hh by (vm_compute; reflexivity).
  split; [exact compare_Z_consistent |]. split; [exact Hs |]. split; [exact Hh |].
  apply (proj2 (loadRegistry_unique_ids Demo.compare_Z Demo.listDirectories
                  Demo.readSkillManifest Demo.readHarnessManifest Demo.registryRoot
                  (mkWorld ∅ []) _ _ compare_Z_consistent Hs Hh)).
  split; simpl; compute_done.
Defined.

Lemma init_refused_when_initialized_witness :
  is_Some (Demo.fs_inited !! Path.join [Demo.projectRoot; "ai"; "agents.md"])
  ∧ is_Some (Demo.fs_inited !! Path.join [Demo.projectRoot; "ai"; "ai-manager.json"])
  ∧ exec (Cli.initAction (Demo.env Demo.all Demo.all) Demo.registryRoot
            Demo.projectRoot true Demo.now Demo.now) Demo.fs_inited
    = (mkWorld Demo.fs_inited [], Ok Cli.AlreadyInitialized).
Proof.
  assert (is_Some (Demo.fs_inited !! Path.join [Demo.projectRoot; "ai"; "agents.md"]))
    as Ha by (vm_compute; eauto).
  assert (is_Some (Demo.fs_inited !! Path.join [Demo.projectRoot; "ai"; "ai-manager.json"]))
    as Hs by (vm_compute; eauto).
  split; [exact Ha |]. split; [exact Hs |].
  apply (proj1 (init_refused_when_initialized (Demo.env Demo.all Demo.all)
                  Demo.registryRoot Demo.projectRoot true Demo.now Demo.now)
           Demo.fs_inited Ha Hs).
Defined.

Lemma init_proceeds_on_partial_marker_witness :
  let env := Demo.env Demo.all Demo.all in
  let backup := Cli.buildBackupOptions Demo.projectRoot true Demo.now in
  let rendered :=
    exec (Cli.renderAll env Demo.registryRoot Demo.projectRoot
            (skills Demo.registry) (harnesses Demo.registry)
            (st_skills Demo.state_init) (st_harnesses Demo.state_init) backup)
         Demo.fs_partial in
  let persisted := Cli.writeState env Demo.projectRoot Demo.state_init backup rendered.1 in
  let created :=
    ["/proj/ai/agents.md"; "/proj/ai/skills/frontend-design-skill.md";
     "/proj/ai/skills/planner-skill.md"; "/proj/AGENTS.md";
     "/proj/.cursor/rules/ai-manager.mdc"] in
  ((exec (pathExists (Path.join [Demo.projectRoot; "ai"; "agents.md"])) Demo.fs_partial).2
   = Ok false
   ∧ (exec (pathExists (Path.join [Demo.projectRoot; "ai"; "ai-manager.json"]))
           Demo.fs_partial).2 = Ok true)
  ∧ (exec (Cli.loadRegistry env Demo.registryRoot) Demo.fs_partial).2 = Ok Demo.registry
  ∧ (exec (Cli.askSelected env Demo.registry Demo.projectRoot
             (Cli.selectSkills env (skills Demo.registry))) Demo.fs_partial).2
    = Ok (st_skills Demo.state_init)
  ∧ rendered = (rendered.1, Ok created)
  ∧ persisted = (persisted.1, Ok "/proj/ai/ai-manager.json")
  ∧ Demo.fs_partial !! "/proj/ai/ai-manager.json"
    = Some (Demo.json_stringify Demo.state0 +:+ nl)
  ∧ createdAt Demo.state0 ≠ Demo.now
  ∧ exec (Cli.initAction env Demo.registryRoot Demo.projectRoot true Demo.now Demo.now)
         Demo.fs_partial
    = (persisted.1, Ok (Cli.InitComplete created "/proj/ai/ai-manager.json"))
  ∧ files persisted.1 !! "/proj/ai/ai-manager.json"
    = Some (Demo.json_stringify Demo.state_init +:+ nl).
Proof.
  intros env backup rendered persisted created.
  assert ((exec (pathExists (Path.join [Demo.projectRoot; "ai"; "agents.md"]))
                Demo.fs_partial).2 = Ok false
          ∧ (exec (pathExists (Path.join [Demo.projectRoot; "ai"; "ai-manager.json"]))
                  Demo.fs_partial).2 = Ok true) as Hpartial
    by (split; vm_compute; reflexivity).
  assert ((exec (Cli.loadRegistry env Demo.registryRoot) Demo.fs_partial).2
          = Ok Demo.registry) as Hreg by (vm_compute; reflexivity).
  assert ((exec (Cli.askSelected env Demo.registry Demo.projectRoot
                   (Cli.selectSkills env (skills Demo.registry))) Demo.fs_partial).2
          = Ok (st_skills Demo.state_init)) as Hask by (vm_compute; reflexivity).
  assert (rendered = (rendered.1, Ok created)) as Hrender by (vm_compute; reflexivity).
  assert (persisted = (persisted.1, Ok "/proj/ai/ai-manager.json")) as Hstate
    by (vm_compute; reflexivity).
  split; [exact Hpartial |]. split; [exact Hreg |]. split; [exact Hask |].
  split; [exact Hrender |]. split; [exact Hstate |].
  split; [vm_compute; reflexivity |]. split; [vm_compute; discriminate |].
  unfold rendered in Hrender. unfold persisted in Hstate.
  destruct (init_proceeds_on_partial_marker env Demo.registryRoot Demo.projectRoot true
              Demo.now Demo.now Demo.fs_partial Demo.registry (st_skills Demo.state_init)
              created "/proj/ai/ai-manager.json" rendered.1 persisted.1
              (or_intror Hpartial) Hreg Hask Hrender Hstate)
    as (_ & Hrun & Hfile & _).
  split; [exact Hrun | exact Hfile].
Defined.

(** The same, with backups disabled: the run completes and resets
    [createdAt]. *)
Example partial_marker_init_completes :
  ∃ w' created,
    exec (Cli.initAction (Demo.env Demo.all Demo.all) Demo.registryRoot
            Demo.projectRoot false Demo.now Demo.now) Demo.fs_partial
    = (w', Ok (Cli.InitComplete created "/proj/ai/ai-manager.json"))
    ∧ (json_parse (Demo.env Demo.all Demo.all)) (Demo.json_stringify Demo.state0 +:+ nl)
      = Some Demo.state0
    ∧ createdAt Demo.state0 ≠ Demo.now
    ∧ files w' !! "/proj/ai/ai-manager.json"
      = Some (Demo.json_stringify
                (mkState "0.1.0" Demo.now Demo.now "/proj"
                   (Some (mkFacts (Some "pnpm") None (Some ["src"])))
                   [mkSelectedSkill "frontend-design" "1.0.0" [("frontendDir", "/web")];
                    mkSelectedSkill "planner" "1.0.0" []]
                   [mkSelectedHarness "codex" "1.0.0"; mkSelectedHarness "cursor" "1.0.0"])
              +:+ nl).
Proof.
  eexists _, _. split_and!; [vm_compute; reflexivity | vm_compute; reflexivity | |].
  - vm_compute. discriminate.
  - vm_compute. reflexivity.
Qed.


(** Removing the harness [cursor] from a selection that names an unknown
    skill and an unknown harness: the entries of both stay persisted. *)
Example unknown_entries_stay_persisted :
  ∃ w' created,
    exec (Cli.runHarnessesAddRemove (Demo.env Demo.all (Demo.only "cursor"))
            Demo.registryRoot Demo.projectRoot Cli.Remove false Demo.now Demo.now)
         Demo.fs_unknown
    = (w', Ok (Cli.Updated created))
    ∧ removed_paths (trace w') = ["/proj/.cursor/rules/ai-manager.mdc"]
    ∧ files w' !! "/proj/ai/ai-manager.json"
      = Some (Demo.json_stringify
                (mkState "0.1.0" "2026-01-01T00:00:00.000Z" Demo.now "/proj" None
                   [mkSelectedSkill "frontend-design" "1.0.0" [("frontendDir", "/web")];
                    mkSelectedSkill "retired" "0.9.0" []]
                   [mkSelectedHarness "gone" "0.1.0"])
              +:+ nl).
Proof. eexists _, _. split_and!; vm_compute; reflexivity. Qed.

(** A harness whose id is ["None"] yields the same notes as no harness. *)
Lemma harness_notes_counterexample :
  let input := Agents.mkInput "proj" ["None"] [] [] ∅ "/reg" in
  Agents.harnessNotes input = "- None"
  ∧ Agents.in_harnesses input ≠ []
  ∧ ¬ (Agents.harnessNotes input = "- None" ↔ Agents.in_harnesses input = []).
Proof.
  intros input. split_and!; [reflexivity | discriminate |].
  intros [H _]. specialize (H eq_refl). discriminate H.
Qed.

End Examples.

(** ** The further properties at work *)

Section FurtherExamples.

Abbreviation ticking_all := (Demo.env Demo.all Demo.all).
Abbreviation updatePrompt :=
  (Update.maybeShowUpdatePrompt Demo.semver_valid Demo.semver_gt Demo.homedir
     Demo.config_parse Demo.config_stringify Demo.date_getTime).

Example detectProjectRoot_at_work :
  Locate.detectProjectRoot Demo.resolve Demo.accessible "/work/repo/packages/cli/src"
  = Some "/work/repo"
  ∧ Locate.detectProjectRoot Demo.resolve Demo.accessible "/work/repo" = Some "/work/repo"
  ∧ Locate.detectProjectRoot Demo.resolve Demo.accessible "/srv/site/public"
    = Some "/srv/site/public".
Proof. split_and!; vm_compute; reflexivity. Qed.

(** The doctor on the project of [fs_inited]: the planner file and the
    outputs of both harnesses are missing. *)
Example doctor_at_work :
  (exec (Doctor.runDoctor ticking_all Demo.registryRoot Demo.relative Demo.projectRoot)
        Demo.fs_inited).2
  = Ok (Doctor.Table
          [(Doctor.IconOk, "Agents", "/ai/agents.md");
           (Doctor.IconOk, "State", "/ai/ai-manager.json");
           (Doctor.IconOk, "Skill frontend-design", "ai/skills/frontend-design-skill.md");
           (Doctor.IconBad, "Skill planner", "ai/skills/planner-skill.md");
           (Doctor.IconBad, "Harness cursor", ".cursor/rules/ai-manager.mdc");
           (Doctor.IconBad, "Harness codex", "AGENTS.md")]).
Proof. vm_compute. reflexivity. Qed.

(** The answers object lists array indices first, in ascending order, and
    stores nothing for [__proto__]. *)
Example assign_at_work :
  Js.assign "__proto__" "x"
    (Js.assign "1" "b" (Js.assign "name" "n" (Js.assign "10" "a" (Js.assign "01" "c" []))))
  = [("1", "b"); ("10", "a"); ("01", "c"); ("name", "n")].
Proof. vm_compute. reflexivity. Qed.

Lemma writeFileAlways_frame_witness :
  let run :=
    writeFileAlways "/proj/ai/agents.md" "new"
      (Cli.buildBackupOptions Demo.projectRoot true Demo.now) (mkWorld Demo.fs_inited []) in
  run = (run.1, Ok tt)
  ∧ files run.1 !! "/proj/ai/agents.md" = Some "new"
  ∧ files run.1 !! "/proj/ai/ai-manager.json" = Demo.fs_inited !! "/proj/ai/ai-manager.json".
Proof.
  intros run.
  assert (run = (run.1, Ok tt)) as Hrun by (vm_compute; reflexivity).
  split; [exact Hrun |]. unfold run in Hrun.
  destruct (writeFileAlways_frame _ _ _ _ _ Hrun) as (Htarget & Hframe & _).
  split; [exact Htarget |].
  apply (Hframe "/proj/ai/ai-manager.json"); vm_compute; discriminate.
Defined.

Lemma backupExistingFile_preserves_witness :
  let run :=
    backupExistingFile "/proj/ai/agents.md"
      (Cli.buildBackupOptions Demo.projectRoot true Demo.now) (mkWorld Demo.fs_inited []) in
  run = (run.1, Ok tt)
  ∧ files run.1 !! "/proj/ai/agents.md" = Some "old agents".
Proof.
  intros run.
  assert (run = (run.1, Ok tt)) as Hrun by (vm_compute; reflexivity).
  split; [exact Hrun |]. unfold run in Hrun.
  unfold run. rewrite (proj1 (backupExistingFile_preserves _ _ _ _ Hrun)).
  vm_compute. reflexivity.
Defined.

Lemma removeStaleOutputs_disabled_witness :
  let run :=
    Cli.removeStaleOutputs Demo.projectRoot ["ai/skills/frontend-design-skill.md"]
      (mkBackup false None) (mkWorld Demo.fs_inited []) in
  enabled (mkBackup false None) = false
  ∧ run = (run.1, Ok tt)
  ∧ files run.1 !! "/proj/ai/skills/frontend-design-skill.md" = None.
Proof.
  intros run.
  assert (enabled (mkBackup false None) = false) as H by reflexivity.
  assert (run = (run.1, Ok tt)) as Hrun by (vm_compute; reflexivity).
  split; [exact H |]. split; [exact Hrun |]. unfold run in Hrun.
  apply (proj1 (removeStaleOutputs_disabled _ _ _ _ _ H Hrun)
               "ai/skills/frontend-design-skill.md").
  apply list_elem_of_here.
Defined.

Lemma removeStaleOutputs_absent_witness :
  let run :=
    Cli.removeStaleOutputs Demo.projectRoot ["ai/skills/planner-skill.md"]
      (Cli.buildBackupOptions Demo.projectRoot true Demo.now) (mkWorld Demo.fs_inited []) in
  (∀ t, t ∈ ["ai/skills/planner-skill.md"] →
        files (mkWorld Demo.fs_inited []) !! Path.join [Demo.projectRoot; t] = None)
  ∧ run = (run.1, Ok tt)
  ∧ files run.1 = Demo.fs_inited.
Proof.
  intros run.
  assert (∀ t, t ∈ ["ai/skills/planner-skill.md"] →
               files (mkWorld Demo.fs_inited []) !! Path.join [Demo.projectRoot; t] = None)
    as H.
  { intros t Ht. apply list_elem_of_singleton in Ht as ->. vm_compute. reflexivity. }
  assert (run = (run.1, Ok tt)) as Hrun by (vm_compute; reflexivity).
  split; [exact H |]. split; [exact Hrun |]. unfold run in Hrun.
  apply (proj1 (removeStaleOutputs_absent _ _ _ _ _ H Hrun)).
Defined.

Lemma commands_need_state_witness :
  (∅ : gmap string string) !! Path.join [Demo.projectRoot; "ai"; "ai-manager.json"] = None
  ∧ exec (Cli.runSkillsAddRemove ticking_all Demo.registryRoot Demo.projectRoot Cli.Add
            true Demo.now Demo.now) ∅
    = (mkWorld ∅ [], Ok Cli.NotInitialized).
Proof.
  assert ((∅ : gmap string string) !! Path.join [Demo.projectRoot; "ai"; "ai-manager.json"]
          = None) as H by (vm_compute; reflexivity).
  split; [exact H |].
  apply (proj1 (commands_need_state ticking_all Demo.registryRoot Demo.projectRoot Cli.Add
                  true Demo.now Demo.now ∅ H)).
Defined.

Lemma commands_reject_corrupt_state_witness :
  Demo.fs_corrupt !! Path.join [Demo.projectRoot; "ai"; "ai-manager.json"] = Some "{"
  ∧ json_parse ticking_all "{" = None
  ∧ exec (Cli.runHarnessesAddRemove ticking_all Demo.registryRoot Demo.projectRoot
            Cli.Remove false Demo.now Demo.now) Demo.fs_corrupt
    = (mkWorld Demo.fs_corrupt [],
       Err (JsonSyntaxError (Path.join [Demo.projectRoot; "ai"; "ai-manager.json"]))).
Proof.
  assert (Demo.fs_corrupt !! Path.join [Demo.projectRoot; "ai"; "ai-manager.json"]
          = Some "{") as H1 by (vm_compute; reflexivity).
  assert (json_parse ticking_all "{" = None) as H2 by (vm_compute; reflexivity).
  split_and!; [exact H1 | exact H2 |].
  apply (proj2 (commands_reject_corrupt_state ticking_all Demo.registryRoot
                  Demo.projectRoot Cli.Remove false Demo.now Demo.now Demo.fs_corrupt "{"
                  H1 H2)).
Defined.

Lemma cancelled_prompt_writes_nothing_witness :
  let e := Demo.env_with [Demo.state_planner] Demo.all Demo.all Demo.aborted in
  (exec (Cli.loadRegistry e Demo.registryRoot) Demo.fs_planner).2 = Ok Demo.registry
  ∧ findSkill (skills Demo.registry) (skill_id Demo.frontend) = Some Demo.frontend
  ∧ tick_skill e (skill_id Demo.frontend) = true
  ∧ Demo.frontendDir ∈ questions Demo.frontend
  ∧ prompt_value e (skill_id Demo.frontend) Demo.frontendDir = None
  ∧ exec (Cli.runInit e Demo.registryRoot Demo.projectRoot true Demo.now Demo.now)
         Demo.fs_planner
    = (mkWorld Demo.fs_planner [], Err Cancelled).
Proof.
  intros e.
  assert ((exec (Cli.loadRegistry e Demo.registryRoot) Demo.fs_planner).2
          = Ok Demo.registry) as H1 by (vm_compute; reflexivity).
  assert (findSkill (skills Demo.registry) (skill_id Demo.frontend) = Some Demo.frontend)
    as H2 by (vm_compute; reflexivity).
  assert (tick_skill e (skill_id Demo.frontend) = true) as H3 by reflexivity.
  assert (Demo.frontendDir ∈ questions Demo.frontend) as H4 by apply list_elem_of_here.
  assert (prompt_value e (skill_id Demo.frontend) Demo.frontendDir = None) as H5
    by reflexivity.
  split_and!; [exact H1 | exact H2 | exact H3 | exact H4 | exact H5 |].
  apply (proj1 (cancelled_prompt_writes_nothing e Demo.registryRoot Demo.projectRoot true
                  Demo.now Demo.now Demo.fs_planner Demo.registry Demo.frontend
                  Demo.frontendDir H1 H2 H3 H4 H5)).
Defined.

Lemma skills_command_state_witness :
  let e :=
    Demo.env_with [Demo.state_planner] (Demo.only "frontend-design") Demo.all
                  Demo.answered in
  let run := exec (Cli.runSkillsAddRemove e Demo.registryRoot Demo.projectRoot Cli.Add
                     false Demo.now Demo.later) Demo.fs_planner in
  (exec (Cli.findManagerState e Demo.projectRoot) Demo.fs_planner).2
  = Ok (Some Demo.state_planner)
  ∧ (exec (Cli.loadRegistry e Demo.registryRoot) Demo.fs_planner).2 = Ok Demo.registry
  ∧ run = (run.1, Ok (Cli.Updated ["/proj/ai/agents.md"; "/proj/ai/skills/planner-skill.md";
                                   "/proj/ai/skills/frontend-design-skill.md";
                                   "/proj/.cursor/rules/ai-manager.mdc"]))
  ∧ ∃ updatedSkills,
      files run.1 !! Path.join [Demo.projectRoot; "ai"; "ai-manager.json"]
      = Some (json_stringify e (with_skills Demo.state_planner Demo.later updatedSkills)
              +:+ nl).
Proof.
  intros e run.
  assert ((exec (Cli.findManagerState e Demo.projectRoot) Demo.fs_planner).2
          = Ok (Some Demo.state_planner)) as H1 by (vm_compute; reflexivity).
  assert ((exec (Cli.loadRegistry e Demo.registryRoot) Demo.fs_planner).2
          = Ok Demo.registry) as H2 by (vm_compute; reflexivity).
  assert (run = (run.1, Ok (Cli.Updated ["/proj/ai/agents.md";
                                         "/proj/ai/skills/planner-skill.md";
                                         "/proj/ai/skills/frontend-design-skill.md";
                                         "/proj/.cursor/rules/ai-manager.mdc"]))) as H3
    by (vm_compute; reflexivity).
  split_and!; [exact H1 | exact H2 | exact H3 |].
  destruct (skills_command_state e Demo.registryRoot Demo.projectRoot Cli.Add false
              Demo.now Demo.later Demo.fs_planner Demo.state_planner Demo.registry _ _
              H1 H2 H3) as (updatedSkills & H & _).
  exists updatedSkills. exact H.
Defined.

Lemma harnesses_command_state_witness :
  let e := Demo.env Demo.all (Demo.only "cursor") in
  let run := exec (Cli.runHarnessesAddRemove e Demo.registryRoot Demo.projectRoot Cli.Remove
                     false Demo.now Demo.later) Demo.fs_inited in
  (exec (Cli.findManagerState e Demo.projectRoot) Demo.fs_inited).2 = Ok (Some Demo.state0)
  ∧ (exec (Cli.loadRegistry e Demo.registryRoot) Demo.fs_inited).2 = Ok Demo.registry
  ∧ run = (run.1, Ok (Cli.Updated ["/proj/ai/agents.md";
                                   "/proj/ai/skills/frontend-design-skill.md";
                                   "/proj/ai/skills/planner-skill.md"; "/proj/AGENTS.md"]))
  ∧ ∃ updatedHarnesses,
      files run.1 !! Path.join [Demo.projectRoot; "ai"; "ai-manager.json"]
      = Some (json_stringify e (with_harnesses Demo.state0 Demo.later updatedHarnesses)
              +:+ nl).
Proof.
  intros e run.
  assert ((exec (Cli.findManagerState e Demo.projectRoot) Demo.fs_inited).2
          = Ok (Some Demo.state0)) as H1 by (vm_compute; reflexivity).
  assert ((exec (Cli.loadRegistry e Demo.registryRoot) Demo.fs_inited).2
          = Ok Demo.registry) as H2 by (vm_compute; reflexivity).
  assert (run = (run.1, Ok (Cli.Updated ["/proj/ai/agents.md";
                                         "/proj/ai/skills/frontend-design-skill.md";
                                         "/proj/ai/skills/planner-skill.md";
                                         "/proj/AGENTS.md"]))) as H3
    by (vm_compute; reflexivity).
  split_and!; [exact H1 | exact H2 | exact H3 |].
  destruct (harnesses_command_state e Demo.registryRoot Demo.projectRoot Cli.Remove false
              Demo.now Demo.later Demo.fs_inited Demo.state0 Demo.registry _ _
              H1 H2 H3) as (updatedHarnesses & H & _).
  exists updatedHarnesses. exact H.
Defined.

(** A project whose agents document was deleted has it again after
    [harnesses remove]. *)
Lemma update_leaves_initialised_witness :
  let e := Demo.env Demo.all (Demo.only "cursor") in
  let run := exec (Cli.runHarnessesAddRemove e Demo.registryRoot Demo.projectRoot Cli.Remove
                     false Demo.now Demo.later) Demo.fs_partial in
  run = (run.1, Ok (Cli.Updated ["/proj/ai/agents.md";
                                 "/proj/ai/skills/frontend-design-skill.md";
                                 "/proj/ai/skills/planner-skill.md"; "/proj/AGENTS.md"]))
  ∧ is_Some (files run.1 !! Path.join [Demo.projectRoot; "ai"; "agents.md"]).
Proof.
  intros e run.
  assert (run = (run.1, Ok (Cli.Updated ["/proj/ai/agents.md";
                                         "/proj/ai/skills/frontend-design-skill.md";
                                         "/proj/ai/skills/planner-skill.md";
                                         "/proj/AGENTS.md"]))) as H
    by (vm_compute; reflexivity).
  split; [exact H |].
  apply (proj1 (update_leaves_initialised e Demo.registryRoot Demo.projectRoot Cli.Remove
                  false Demo.now Demo.later Demo.fs_partial _ _ (or_intror H))).
Defined.

Lemma persisted_state_read_back_witness :
  let run :=
    Cli.writeState ticking_all Demo.projectRoot Demo.state0 (mkBackup false None)
      (mkWorld ∅ []) in
  json_parse ticking_all (json_stringify ticking_all Demo.state0 +:+ nl) = Some Demo.state0
  ∧ run = (run.1, Ok "/proj/ai/ai-manager.json")
  ∧ Cli.findManagerState ticking_all Demo.projectRoot run.1
    = (run.1, Ok (Some Demo.state0)).
Proof.
  intros run.
  assert (json_parse ticking_all (json_stringify ticking_all Demo.state0 +:+ nl)
          = Some Demo.state0) as H by (vm_compute; reflexivity).
  assert (run = (run.1, Ok "/proj/ai/ai-manager.json")) as Hrun by (vm_compute; reflexivity).
  split; [exact H |]. split; [exact Hrun |]. unfold run in Hrun.
  apply (proj2 (persisted_state_read_back ticking_all Demo.projectRoot Demo.state0
                  (mkBackup false None) (mkWorld ∅ []) _ _ H Hrun)).
Defined.

Lemma renderAll_reports_what_it_wrote_witness :
  let run := Cli.renderAll ticking_all Demo.registryRoot Demo.projectRoot
               (skills Demo.registry) (harnesses Demo.registry)
               (st_skills Demo.state0) (st_harnesses Demo.state0) (mkBackup false None)
               (mkWorld ∅ []) in
  run = (run.1, Ok ["/proj/ai/agents.md"; "/proj/ai/skills/frontend-design-skill.md";
                    "/proj/ai/skills/planner-skill.md";
                    "/proj/.cursor/rules/ai-manager.mdc"; "/proj/AGENTS.md"])
  ∧ ["/proj/ai/agents.md"; "/proj/ai/skills/frontend-design-skill.md";
     "/proj/ai/skills/planner-skill.md"; "/proj/.cursor/rules/ai-manager.mdc";
     "/proj/AGENTS.md"]
    = renderedPaths Demo.projectRoot (skills Demo.registry) (harnesses Demo.registry)
        (st_skills Demo.state0) (st_harnesses Demo.state0).
Proof.
  intros run.
  assert (run = (run.1, Ok ["/proj/ai/agents.md"; "/proj/ai/skills/frontend-design-skill.md";
                            "/proj/ai/skills/planner-skill.md";
                            "/proj/.cursor/rules/ai-manager.mdc"; "/proj/AGENTS.md"])) as H
    by (vm_compute; reflexivity).
  split; [exact H |].
  apply (proj1 (renderAll_reports_what_it_wrote ticking_all Demo.registryRoot
                  Demo.projectRoot (skills Demo.registry) (harnesses Demo.registry)
                  (st_skills Demo.state0) (st_harnesses Demo.state0) (mkBackup false None)
                  (mkWorld ∅ []) _ _ H)).
Defined.

(** The agents document is written although the output of the skill
    cannot be rendered. *)
Lemma renderAll_failure_is_partial_witness :
  let run := Cli.renderAll ticking_all Demo.registryRoot Demo.projectRoot
               [Demo.unrendered] []
               [mkSelectedSkill "unrendered" "1.0.0" []] [] (mkBackup false None)
               (mkWorld ∅ []) in
  run = (run.1, Err (ENOENT "/reg/skills/unrendered/templates/skill.txt"))
  ∧ ∃ ops rest,
      trace run.1 = [] ++ ops
      ∧ ["/proj/ai/agents.md"; "/proj/ai/skills/unrendered-skill.md"]
        = map fst (generated_writes ops) ++ rest
      ∧ rest ≠ [].
Proof.
  intros run.
  assert (run = (run.1, Err (ENOENT "/reg/skills/unrendered/templates/skill.txt"))) as H
    by (vm_compute; reflexivity).
  split; [exact H |].
  destruct (renderAll_failure_is_partial ticking_all Demo.registryRoot
              Demo.projectRoot [Demo.unrendered] []
              [mkSelectedSkill "unrendered" "1.0.0" []] [] (mkBackup false None)
              (mkWorld ∅ []) _ _ H) as (ops & rest & Htrace & _ & _ & Hpaths & Hrest & _).
  exists ops, rest. split_and!; [exact Htrace | | exact Hrest].
  rewrite <- Hpaths. vm_compute. reflexivity.
Defined.

Example renderAll_failure_leaves_the_agents_document :
  map fst
    (map_to_list
       (files (Cli.renderAll ticking_all Demo.registryRoot Demo.projectRoot
                 [Demo.unrendered] [] [mkSelectedSkill "unrendered" "1.0.0" []] []
                 (mkBackup false None) (mkWorld ∅ [])).1))
  = ["/proj/ai/agents.md"].
Proof. vm_compute. reflexivity. Qed.

Lemma renderAll_fails_before_writing_witness :
  Demo.broken ∈ [Demo.broken; Demo.planner]
  ∧ skill_id Demo.broken ∈ map sel_id [mkSelectedSkill "broken" "1.0.0" []]
  ∧ skill_id Demo.broken ≠ "planner"
  ∧ readTemplate ticking_all
      (Path.join [Demo.registryRoot; "skills"; skill_id Demo.broken;
                  agentsSnippetTemplate Demo.broken])
    = None
  ∧ ∃ e, Cli.renderAll ticking_all Demo.registryRoot Demo.projectRoot
           [Demo.broken; Demo.planner] [] [mkSelectedSkill "broken" "1.0.0" []] []
           (mkBackup false None) (mkWorld Demo.fs_inited [])
         = (mkWorld Demo.fs_inited [], Err e).
Proof.
  assert (Demo.broken ∈ [Demo.broken; Demo.planner]) as H1 by apply list_elem_of_here.
  assert (skill_id Demo.broken ∈ map sel_id [mkSelectedSkill "broken" "1.0.0" []]) as H2
    by apply list_elem_of_here.
  assert (skill_id Demo.broken ≠ "planner") as H3 by discriminate.
  assert (readTemplate ticking_all
            (Path.join [Demo.registryRoot; "skills"; skill_id Demo.broken;
                        agentsSnippetTemplate Demo.broken]) = None) as H4
    by (vm_compute; reflexivity).
  split_and!; [exact H1 | exact H2 | exact H3 | exact H4 |].
  apply (renderAll_fails_before_writing ticking_all Demo.registryRoot Demo.projectRoot
           [Demo.broken; Demo.planner] [] [mkSelectedSkill "broken" "1.0.0" []] []
           (mkBackup false None) (mkWorld Demo.fs_inited []) Demo.broken H1 H2 H3 H4).
Defined.

(** The answer recorded for the planner is not in its plan section. *)
Lemma agents_plan_and_rules_witness :
  let input :=
    Agents.mkInput "proj" ["cursor"] (skills Demo.registry) ["planner"; "frontend-design"]
      (Js.fromEntries [("planner", [("depth", "3")]);
                       ("frontend-design", [("frontendDir", "/web")])])
      Demo.registryRoot in
  let context :=
    CtxAgents "proj" "- cursor"
      "</reg/skills/planner/templates/agents-snippet.md.hbs>planner()"
      (Agents.buildSkillIndexTable (skills Demo.registry))
      ("</reg/skills/frontend-design/templates/agents-snippet.md.hbs>"
       +:+ "frontend-design(frontendDir=/web)")
      ("</reg/skills/frontend-design/templates/activation.md.hbs>"
       +:+ "frontend-design(frontendDir=/web)") in
  (Agents.templateContext ticking_all input (mkWorld ∅ [])).2 = Ok context
  ∧ ∃ notes planSection table guides rules,
      context = CtxAgents "proj" notes planSection table guides (Js.join (nl +:+ nl) rules)
      ∧ List.length rules = 1.
Proof.
  intros input context.
  assert ((Agents.templateContext ticking_all input (mkWorld ∅ [])).2 = Ok context) as H
    by (vm_compute; reflexivity).
  split; [exact H |].
  destruct (agents_plan_and_rules ticking_all input (mkWorld ∅ []) context H)
    as (notes & planSection & table & guides & rules & Hctx & _ & Hrules & _).
  exists notes, planSection, table, guides, rules. split; [exact Hctx |].
  apply Forall2_length in Hrules. rewrite <- Hrules. reflexivity.
Defined.

Lemma targets_grow_with_selection_witness :
  (∀ id, id ∈ ["planner"] → id ∈ ["frontend-design"; "planner"])
  ∧ (∀ id, id ∈ ["cursor"] → id ∈ ["cursor"])
  ∧ Cli.staleTargets
      (Cli.collectOutputTargets (skills Demo.registry) (harnesses Demo.registry)
         ["planner"] ["cursor"])
      (Cli.collectOutputTargets (skills Demo.registry) (harnesses Demo.registry)
         ["frontend-design"; "planner"] ["cursor"])
    = [].
Proof.
  assert (∀ id, id ∈ ["planner"] → id ∈ ["frontend-design"; "planner"]) as H1.
  { intros id ->%list_elem_of_singleton. apply list_elem_of_further, list_elem_of_here. }
  assert (∀ id : string, id ∈ ["cursor"] → id ∈ ["cursor"]) as H2 by (intros id H; exact H).
  split_and!; [exact H1 | exact H2 |].
  apply (proj1 (proj2 (targets_grow_with_selection
                         (skills Demo.registry) (harnesses Demo.registry)
                         ["planner"] ["frontend-design"; "planner"] ["cursor"] ["cursor"]
                         H1 H2))).
Defined.

Lemma doctor_after_init_witness :
  let e := Demo.env_with [Demo.state_init] Demo.all Demo.all Demo.answered in
  let run :=
    exec (Cli.runInit e Demo.registryRoot Demo.projectRoot false Demo.now Demo.now) ∅ in
  (exec (Cli.loadRegistry e Demo.registryRoot) ∅).2 = Ok Demo.registry
  ∧ run = (run.1, Ok (Cli.InitComplete
                        ["/proj/ai/agents.md"; "/proj/ai/skills/frontend-design-skill.md";
                         "/proj/ai/skills/planner-skill.md"; "/proj/AGENTS.md";
                         "/proj/.cursor/rules/ai-manager.mdc"]
                        "/proj/ai/ai-manager.json"))
  ∧ (exec (Cli.findManagerState e Demo.projectRoot) (files run.1)).2
    = Ok (Some Demo.state_init)
  ∧ map selh_id (st_harnesses Demo.state_init)
    = Cli.selectHarnesses e (harnesses Demo.registry)
  ∧ ∃ rows,
      exec (Doctor.runDoctor e Demo.registryRoot Demo.relative Demo.projectRoot)
           (files run.1)
      = (mkWorld (files run.1) [], Ok (Doctor.Table rows)).
Proof.
  intros e run.
  assert ((exec (Cli.loadRegistry e Demo.registryRoot) ∅).2 = Ok Demo.registry) as H1
    by (vm_compute; reflexivity).
  assert (run = (run.1, Ok (Cli.InitComplete
                              ["/proj/ai/agents.md";
                               "/proj/ai/skills/frontend-design-skill.md";
                               "/proj/ai/skills/planner-skill.md"; "/proj/AGENTS.md";
                               "/proj/.cursor/rules/ai-manager.mdc"]
                              "/proj/ai/ai-manager.json"))) as H2
    by (vm_compute; reflexivity).
  assert ((exec (Cli.findManagerState e Demo.projectRoot) (files run.1)).2
          = Ok (Some Demo.state_init)) as H3 by (vm_compute; reflexivity).
  assert (map selh_id (st_harnesses Demo.state_init)
          = Cli.selectHarnesses e (harnesses Demo.registry)) as H4
    by (vm_compute; reflexivity).
  split_and!; [exact H1 | exact H2 | exact H3 | exact H4 |].
  destruct (doctor_after_init e Demo.registryRoot Demo.relative Demo.projectRoot false
              Demo.now Demo.now ∅ _ _ Demo.registry Demo.state_init H1 H2 H3 H4)
    as (rows & Hrows & _).
  exists rows. exact Hrows.
Defined.

Lemma update_prompt_silent_witness :
  Demo.semver_gt (default "" (Some "0.0.9")) Cli.CURRENT_VERSION = false
  ∧ updatePrompt (Some "0.0.9") 0%Z Demo.now Update.Later (mkWorld ∅ [])
    = (mkWorld ∅ [], Ok Update.NoPrompt).
Proof.
  assert (Demo.semver_gt (default "" (Some "0.0.9")) Cli.CURRENT_VERSION = false) as H
    by reflexivity.
  split; [exact H |].
  apply (update_prompt_silent Demo.semver_valid Demo.semver_gt Demo.homedir
           Demo.config_parse Demo.config_stringify Demo.date_getTime
           (Some "0.0.9") 0%Z Demo.now Update.Later (mkWorld ∅ [])
           (or_intror (or_intror (or_intror H)))).
Defined.

Lemma update_prompt_corrupt_config_witness :
  let w := mkWorld (<[Update.configPath Demo.homedir := "{"]> ∅) [] in
  update_due Demo.semver_valid Demo.semver_gt "0.2.0"
  ∧ files w !! Update.configPath Demo.homedir = Some "{"
  ∧ Demo.config_parse "{" = None
  ∧ updatePrompt (Some "0.2.0") 0%Z Demo.now Update.Later w
    = (w, Err (JsonSyntaxError (Update.configPath Demo.homedir))).
Proof.
  intros w.
  assert (update_due Demo.semver_valid Demo.semver_gt "0.2.0") as H1.
  { unfold update_due. split_and!; [discriminate | reflexivity | reflexivity | reflexivity]. }
  assert (files w !! Update.configPath Demo.homedir = Some "{") as H2
    by (vm_compute; reflexivity).
  assert (Demo.config_parse "{" = None) as H3 by (vm_compute; reflexivity).
  split_and!; [exact H1 | exact H2 | exact H3 |].
  apply (update_prompt_corrupt_config Demo.semver_valid Demo.semver_gt Demo.homedir
           Demo.config_parse Demo.config_stringify Demo.date_getTime
           "0.2.0" 0%Z Demo.now Update.Later w "{" H1 H2 H3).
Defined.

(** Later was chosen at [now]; a day after, the prompt is not shown. *)
Lemma update_deferral_witness :
  let at_now := 1770027630456%Z in
  let w1 := (updatePrompt (Some "0.2.0") at_now Demo.now Update.Later (mkWorld ∅ [])).1 in
  update_due Demo.semver_valid Demo.semver_gt "0.2.0"
  ∧ Demo.now ≠ ""
  ∧ Demo.config_parse
      (Demo.config_stringify (Update.mkConfig (Some "0.2.0") (Some Demo.now)) +:+ nl)
    = Some (Update.mkConfig (Some "0.2.0") (Some Demo.now))
  ∧ Demo.date_getTime Demo.now = Some at_now
  ∧ updatePrompt (Some "0.2.0") at_now Demo.now Update.Later (mkWorld ∅ [])
    = (w1, Ok Update.Postponed)
  ∧ updatePrompt (Some "0.2.0") (at_now + 86400000)%Z Demo.later Update.Install w1
    = (w1, Ok Update.NoPrompt).
Proof.
  intros at_now w1.
  assert (update_due Demo.semver_valid Demo.semver_gt "0.2.0") as H1.
  { unfold update_due. split_and!; [discriminate | reflexivity | reflexivity | reflexivity]. }
  assert (Demo.now ≠ "") as H2 by discriminate.
  assert (Demo.config_parse
            (Demo.config_stringify (Update.mkConfig (Some "0.2.0") (Some Demo.now)) +:+ nl)
          = Some (Update.mkConfig (Some "0.2.0") (Some Demo.now))) as H3
    by (vm_compute; reflexivity).
  assert (Demo.date_getTime Demo.now = Some at_now) as H4 by (vm_compute; reflexivity).
  assert (updatePrompt (Some "0.2.0") at_now Demo.now Update.Later (mkWorld ∅ [])
          = (w1, Ok Update.Postponed)) as H5 by (vm_compute; reflexivity).
  split_and!; [exact H1 | exact H2 | exact H3 | exact H4 | exact H5 |].
  apply (proj1 (proj2 (proj2 (proj2
           (update_deferral Demo.semver_valid Demo.semver_gt Demo.homedir
              Demo.config_parse Demo.config_stringify Demo.date_getTime
              "0.2.0" at_now Demo.now Update.Later (mkWorld ∅ []) w1 at_now
              H1 H2 H3 H4 H5))))).
  reflexivity.
Defined.

End FurtherExamples.
